(** * RiftScout: the analysis and insight pipeline

    A shallow embedding of the scouting-report core
    ([src/analysis/team_tendencies.py], [src/analysis/player_tendencies.py],
    [src/analysis/compositions.py], [src/insights/how_to_win.py]) together
    with the properties its specification states about it.

    Numbers.  Every rate in the Python code is an IEEE-754 binary64 value
    (a pandas mean, a Python float literal, sums and comparisons of those).
    They are modelled by Rocq's primitive floats, which are binary64 with the
    same rounding, so that a literal such as [0.15] denotes here the very
    double it denotes in Python and [x + y] rounds as it does there.

    Frames.  A pandas DataFrame is modelled by the list of its column labels
    and the list of its rows.  A row is a record with one field per column
    of the match table; the value a row carries for a column that is not
    listed in [columns] is never read, because every access goes through
    [getitem], which fails with [KeyError] as pandas does.  The labels of a
    frame are distinct, as they are in every frame the program makes
    ([pd.read_csv] renames a repeated label, the keys of the dicts given to
    [pd.DataFrame] are distinct); where a property needs it, it says so
    with [NoDup (columns df)].

    Ties.  [value_counts] sorts its table with a sort that is not stable:
    how entries with equal counts end up is left to pandas and numpy.  The
    analyzers therefore take the arrangement of ties as a parameter
    ([Ties]), and what is proved of them holds for every arrangement. *)

From Stdlib Require Import List String Ascii Bool ZArith Arith Lia.
From Stdlib Require Import PrimFloat Uint63 FloatClass.
From Stdlib Require Import SpecFloat FloatOps FloatAxioms.
From Stdlib Require Import QArith.
From Stdlib Require Import Sorted Permutation.
From Stdlib Require Import DecimalString DecimalNat.
Import ListNotations.
Local Close Scope Q_scope.

Set Warnings "-inexact-float,-register-all".

Local Open Scope string_scope.
Local Open Scope list_scope.

(** ** Python built-ins used by the analyzers *)

Module Python.

Section Ordered.
Context {A : Type}.
Variable leb : A -> A -> bool.

(** [insert_sorted x l] puts [x] in front of the first element that is
    not smaller than it. *)
Fixpoint insert_sorted (x : A) (l : list A) : list A :=
  match l with
  | [] => [x]
  | y :: t => if leb x y then x :: y :: t else y :: insert_sorted x t
  end.

(** [sorted(xs)]: a stable sort.  An element is inserted in front of the
    later elements it is [leb] to, so equal keys keep their order. *)
Fixpoint sorted (xs : list A) : list A :=
  match xs with
  | [] => []
  | x :: t => insert_sorted x (sorted t)
  end.
End Ordered.

Section MaxBy.
Context {A : Type}.
Variable key : A -> nat.

(** The loop of [max(iterable, key=...)]: the running best is replaced
    only by a strictly larger key, so the first maximal item wins. *)
Fixpoint max_from (best : A) (rest : list A) : A :=
  match rest with
  | [] => best
  | x :: t => if (key best <? key x)%nat then max_from x t else max_from best t
  end.
End MaxBy.

(** An insertion-ordered [dict] with string keys. *)
Definition dict (V : Type) : Type := list (string * V).

Fixpoint dict_get {V : Type} (k : string) (d : dict V) : option V :=
  match d with
  | [] => None
  | (k', v) :: t => if String.eqb k' k then Some v else dict_get k t
  end.

(** [d[k] = v]: an existing key keeps its position, a new one goes last. *)
Fixpoint dict_set {V : Type} (k : string) (v : V) (d : dict V) : dict V :=
  match d with
  | [] => [(k, v)]
  | (k', v') :: t =>
      if String.eqb k' k then (k', v) :: t else (k', v') :: dict_set k v t
  end.

(** Truthiness of an optional list argument ([if roles:]): [None] and the
    empty list are both false. *)
Definition truthy {A : Type} (o : option (list A)) : bool :=
  match o with
  | Some (_ :: _) => true
  | _ => false
  end.

End Python.

(** ** The part of pandas the analyzers rely on *)

Module Pandas.

(** A computation that may raise [KeyError] on a missing column. *)
Inductive result (A : Type) : Type :=
| Ok (a : A)
| KeyError (key : string).
Arguments Ok {A} a.
Arguments KeyError {A} key.

Definition bind {A B : Type} (m : result A) (k : A -> result B) : result B :=
  match m with
  | Ok a => k a
  | KeyError key => KeyError key
  end.

(** One row of the match table: one player in one match for one team.
    [win], [first_dragon] and [first_tower] are stored as 1/0. *)
Record Observation : Type := mkObservation {
  match_id : string;
  team_id : string;
  role : string;
  champion : string;
  win : bool;
  game_duration : Z;
  first_dragon : bool;
  first_tower : bool
}.

Record DataFrame : Type := mkDataFrame {
  columns : list string;
  rows : list Observation
}.

(** ['name' in df.columns] *)
Definition has_column (name : string) (df : DataFrame) : bool :=
  existsb (String.eqb name) (columns df).

(** [df['name']], the column read through the field [field].  The labels
    of the frame being distinct, the label names one column; it is a
    repeated label that would name several. *)
Definition getitem {A : Type} (name : string) (field : Observation -> A)
    (df : DataFrame) : result (list A) :=
  if has_column name df then Ok (map field (rows df)) else KeyError name.

(** Selection by a boolean mask aligned with the rows. *)
Fixpoint select {A : Type} (mask : list bool) (xs : list A) : list A :=
  match mask, xs with
  | b :: m, x :: t => if b then x :: select m t else select m t
  | _, _ => []
  end.

(** [df[mask]] *)
Definition loc (df : DataFrame) (mask : list bool) : DataFrame :=
  {| columns := columns df; rows := select mask (rows df) |}.

(** [df.empty]: some axis has length 0. *)
Definition empty (df : DataFrame) : bool :=
  match rows df, columns df with
  | _ :: _, _ :: _ => false
  | _, _ => true
  end.

(** Conversion of a count to binary64 (exact below 2^53). *)
Definition float_of_nat (n : nat) : float :=
  PrimFloat.of_uint63 (Uint63.of_Z (Z.of_nat n)).

Definition count_true (xs : list bool) : nat :=
  List.length (filter (fun b => b) xs).

(** [Series.mean()] of a 1/0 column: the sum of the entries, accumulated in
    binary64 (exactly the number of ones), divided by the number of entries.
    On an empty column this is 0/0, that is NaN, as in pandas. *)
Definition mean (xs : list bool) : float :=
  PrimFloat.div (float_of_nat (count_true xs)) (float_of_nat (List.length xs)).

(** What the sort of [value_counts] does to the order of its table before
    the counts decide: [sort_values(ascending=False)] is not stable, so
    entries with equal counts come out in an order that depends on the
    sorting routine and not on the analyzers.  A descending sort that is
    not stable is a stable one run on a rearranged table; [arrange] is that
    rearrangement.  It cannot look at the values counted, only at the
    counts and the positions. *)
Class Ties : Type := mkTies {
  arrange : forall K : Type, list (K * nat) -> list (K * nat);
  arrange_permutation :
    forall (K : Type) (l : list (K * nat)), Permutation (arrange K l) l
}.
Arguments arrange {Ties} {K} l.

(** A sort that leaves equal counts in the order of the table, and one that
    leaves them in the opposite order. *)
Definition stable_ties : Ties :=
  {| arrange := fun K l => l;
     arrange_permutation := fun K l => Permutation_refl l |}.


Section Keyed.
Context {K : Type}.
Variable eqb : K -> K -> bool.

(** The distinct values of a column in order of first appearance. *)
Fixpoint unique (xs : list K) : list K :=
  match xs with
  | [] => []
  | x :: t => x :: filter (fun y => negb (eqb y x)) (unique t)
  end.

Definition occurrences (v : K) (xs : list K) : nat :=
  List.length (filter (fun y => eqb y v) xs).

(** Position of the first occurrence of [v] (the length when absent). *)
Fixpoint first_index (v : K) (xs : list K) : nat :=
  match xs with
  | [] => 0
  | x :: t => if eqb x v then 0 else S (first_index v t)
  end.

(** [Series.value_counts()]: one entry per distinct value, most frequent
    first.  The table is built in order of first appearance and then sorted
    on the count, entries with equal counts ending up as [ties] has
    them. *)
Definition count_desc (a b : K * nat) : bool := (snd b <=? snd a)%nat.

Definition value_counts {ties : Ties} (xs : list K) : list (K * nat) :=
  Python.sorted count_desc
    (arrange (map (fun v => (v, occurrences v xs)) (unique xs))).

Variable leb : K -> K -> bool.

(** [df.groupby(key)]: one sub-frame per distinct key, keys ascending,
    rows of a group in their original order. *)
Definition groupby (key : Observation -> K) (df : DataFrame)
    : list (K * DataFrame) :=
  map (fun k =>
         (k, {| columns := columns df;
                rows := filter (fun r => eqb (key r) k) (rows df) |}))
      (Python.sorted leb (unique (map key (rows df)))).
End Keyed.

(** [idxmax()]: the label of the first entry holding the maximum. *)
Definition idxmax {K : Type} (s : list (K * nat)) : option K :=
  match s with
  | [] => None
  | e :: t => Some (fst (Python.max_from snd e t))
  end.

(** [max()] of a series of counts. *)
Definition series_max {K : Type} (s : list (K * nat)) : nat :=
  fold_right Nat.max 0 (map snd s).

End Pandas.

Import Pandas.

Declare Scope result_scope.
Notation "x <- m ;; k" := (bind m (fun x => k))
  (at level 61, m at next level, right associativity) : result_scope.
Notation "'check' m ;; k" := (bind m (fun _ => k))
  (at level 61, m at next level, right associativity) : result_scope.
Local Open Scope result_scope.

(** ** [src/analysis/team_tendencies.py] *)

Module TeamTendencies.

Record TeamTendency : Type := mkTeamTendency {
  first_dragon_rate : float;
  first_tower_rate : float;
  early_game_win_rate : float;
  late_game_win_rate : float;
  win_tendency : string
}.

(** [df[mask]['win'].mean() if not df[mask].empty else 0.0] *)
Definition masked_win_rate (df : DataFrame) (mask : list bool) : result float :=
  if negb (empty (loc df mask)) then
    w <- getitem "win" win (loc df mask) ;;
    Ok (mean w)
  else Ok 0%float.

Definition analyze_team_tendencies (df : DataFrame) : result TeamTendency :=
  fd <- getitem "first_dragon" first_dragon df ;;
  let first_dragon_rate := mean fd in
  ft <- getitem "first_tower" first_tower df ;;
  let first_tower_rate := mean ft in
  d1 <- getitem "game_duration" game_duration df ;;
  let early_game_mask := map (fun d => d <? 1800)%Z d1 in
  d2 <- getitem "game_duration" game_duration df ;;
  let late_game_mask := map (fun d => d >=? 1800)%Z d2 in
  early_win_rate <- masked_win_rate df early_game_mask ;;
  late_win_rate <- masked_win_rate df late_game_mask ;;
  Ok {| first_dragon_rate := first_dragon_rate;
        first_tower_rate := first_tower_rate;
        early_game_win_rate := early_win_rate;
        late_game_win_rate := late_win_rate;
        win_tendency :=
          if PrimFloat.ltb late_win_rate early_win_rate
          then "early" else "late" |}.

End TeamTendencies.

(** ** [src/analysis/player_tendencies.py] *)

Module PlayerTendencies.

Record RoleTendency : Type := mkRoleTendency {
  most_played_champion : string;
  win_rate : float;
  count : nat;
  priority : string;
  action : string
}.

(** [df['role'].isin(roles)] *)
Definition isin (values : list string) (col : list string) : list bool :=
  map (fun v => existsb (String.eqb v) values) col.

(** The priority cascade of the loop body. *)
Definition priority_of (games_played : nat) (win_rate : float) : string :=
  if (3 <=? games_played)%nat
     && (PrimFloat.leb 0.7 win_rate || PrimFloat.leb win_rate 0.3)
  then "HIGH"
  else if (2 <=? games_played)%nat
          && (PrimFloat.leb 0.6 win_rate || PrimFloat.leb win_rate 0.4)
  then "MEDIUM"
  else "LOW".

(** The actionable call of the loop body. *)
Definition action_of (win_rate : float) : string :=
  if PrimFloat.leb 0.6 win_rate then "DENY COMFORT PICK"
  else if PrimFloat.leb win_rate 0.4 then "FORCE LOSING MATCHUP"
  else "IGNORE AND PLAY CROSS-MAP".

(** One iteration of [for role, role_df in df.groupby('role')]; [None]
    stands for [continue]. *)
Definition analyze_role {ties : Ties} (role_df : DataFrame)
    : result (option RoleTendency) :=
  if empty role_df then Ok None
  else
    c1 <- getitem "champion" champion role_df ;;
    let champion_counts := value_counts String.eqb c1 in
    match champion_counts with
    | [] => Ok None
    | _ :: _ =>
        let filtered_counts :=
          filter (fun e => (2 <=? snd e)%nat) champion_counts in
        match idxmax filtered_counts with
        | None => Ok None (* [filtered_counts.empty] *)
        | Some most_played_champion =>
            let games_played := series_max filtered_counts in
            c2 <- getitem "champion" champion role_df ;;
            let champion_df :=
              loc role_df
                  (map (fun c => String.eqb c most_played_champion) c2) in
            w <- getitem "win" win champion_df ;;
            let win_rate := mean w in
            Ok (Some {| most_played_champion := most_played_champion;
                        win_rate := win_rate;
                        count := games_played;
                        priority := priority_of games_played win_rate;
                        action := action_of win_rate |})
        end
    end.

Fixpoint role_loop {ties : Ties} (groups : list (string * DataFrame))
    (results : Python.dict RoleTendency) : result (Python.dict RoleTendency) :=
  match groups with
  | [] => Ok results
  | (role, role_df) :: rest =>
      o <- analyze_role role_df ;;
      match o with
      | None => role_loop rest results
      | Some t => role_loop rest (Python.dict_set role t results)
      end
  end.

Definition analyze_player_tendencies {ties : Ties} (df : DataFrame)
    (roles : option (list string)) : result (Python.dict RoleTendency) :=
  if negb (has_column "role" df) || negb (has_column "champion" df) then Ok []
  else
    df <- (if Python.truthy roles then
             r <- getitem "role" role df ;;
             Ok (loc df (isin (match roles with Some l => l | None => [] end) r))
           else Ok df) ;;
    role_loop (groupby String.eqb String.leb role df) [].

End PlayerTendencies.

(** ** [src/insights/how_to_win.py] *)

Module HowToWin.

(** An f-string is kept as the sequence of its parts: literal text and
    values formatted by [{x:.2%}].  The decimal rendering of the value is
    not interpreted. *)
Inductive Piece : Type :=
| Lit (s : string)
| Percent (x : float).

Record Insight : Type := mkInsight {
  recommendation : string;
  metric : list Piece;
  priority : string
}.

(** Lines 19-24: the rates the rules below are evaluated on. *)
Definition rates (df : DataFrame) : result (float * float * float) :=
  fd <- getitem "first_dragon" first_dragon df ;;
  let dragon_rate := mean fd in
  d1 <- getitem "game_duration" game_duration df ;;
  let early_game_mask := map (fun d => d <? 1800)%Z d1 in
  d2 <- getitem "game_duration" game_duration df ;;
  let late_game_mask := map (fun d => d >=? 1800)%Z d2 in
  early_win_rate <-
    (if negb (empty (loc df early_game_mask)) then
       w <- getitem "win" win (loc df early_game_mask) ;; Ok (mean w)
     else Ok 0%float) ;;
  late_win_rate <-
    (if negb (empty (loc df late_game_mask)) then
       w <- getitem "win" win (loc df late_game_mask) ;; Ok (mean w)
     else Ok 0%float) ;;
  Ok (dragon_rate, early_win_rate, late_win_rate).

Definition force_dragon (dragon_rate : float) : Insight :=
  {| recommendation := "FORCE DRAGON FIGHTS. DENY SOUL AT ALL COSTS.";
     metric := [Lit "Opponent dragon control is weak ("; Percent dragon_rate;
                Lit " capture rate)."];
     priority := "HIGH" |}.

Definition stall_for_late (early_win_rate late_win_rate : float) : Insight :=
  {| recommendation := "STALL FOR LATE. PUNISH THEIR MID-GAME DESPERATION.";
     metric := [Lit "Massive late-game drop detected ("; Percent early_win_rate;
                Lit " Early vs "; Percent late_win_rate; Lit " Late WR)."];
     priority := "HIGH" |}.

Definition press_the_advantage (overall_win_rate : float) : Insight :=
  {| recommendation := "PRESS THE ADVANTAGE. DON'T LET THEM BREATHE.";
     metric := [Lit "Maintain pressure ("; Percent overall_win_rate;
                Lit " overall win rate)."];
     priority := "HIGH" |}.

Definition crash_waves (tower_rate : float) : Insight :=
  {| recommendation := "CRASH WAVES. PUNISH WEAK ROTATIONS FOR PLATES.";
     metric := [Lit "Subpar first tower control ("; Percent tower_rate;
                Lit " rate)."];
     priority := "MEDIUM" |}.

Definition invade_early (late_win_rate early_win_rate : float) : Insight :=
  {| recommendation := "INVADE EARLY. BREAK THEIR SCALING BEFORE IT STARTS.";
     metric := [Lit "Scaling threat detected ("; Percent late_win_rate;
                Lit " Late WR vs "; Percent early_win_rate; Lit " Early)."];
     priority := "MEDIUM" |}.

Definition control_vision : Insight :=
  {| recommendation := "CONTROL VISION. PUNISH FACE-CHECKS IN RIVER.";
     metric := [Lit "Standard objective pacing detected."];
     priority := "MEDIUM" |}.

Definition bait_baron : Insight :=
  {| recommendation := "BAIT BARON. FORCE THEM INTO A BAD FACE-CHECK.";
     metric := [Lit "Situational tactical opening."];
     priority := "SITUATIONAL" |}.

Definition generate_how_to_win_insights (df : DataFrame)
    : result (list Insight) :=
  let insights := [] in
  r <- rates df ;;
  let '(dragon_rate, early_win_rate, late_win_rate) := r in
  insights <-
    (if PrimFloat.ltb dragon_rate 0.4 then
       Ok (insights ++ [force_dragon dragon_rate])
     else if PrimFloat.ltb (late_win_rate + 0.15)%float early_win_rate then
       Ok (insights ++ [stall_for_late early_win_rate late_win_rate])
     else
       w <- getitem "win" win df ;;
       let overall_win_rate := mean w in
       Ok (insights ++ [press_the_advantage overall_win_rate])) ;;
  ft <- getitem "first_tower" first_tower df ;;
  let tower_rate := mean ft in
  let insights :=
    if PrimFloat.ltb tower_rate 0.5 then
      insights ++ [crash_waves tower_rate]
    else if PrimFloat.ltb (early_win_rate + 0.1)%float late_win_rate then
      insights ++ [invade_early late_win_rate early_win_rate]
    else
      insights ++ [control_vision] in
  Ok (insights ++ [bait_baron]).

End HowToWin.

(** ** [src/analysis/compositions.py] *)

Module Compositions.

Inductive Archetype : Type :=
| skirmish | protect | engage | scaling | standard.

Definition archetype_eqb (a b : Archetype) : bool :=
  match a, b with
  | skirmish, skirmish | protect, protect | engage, engage
  | scaling, scaling | standard, standard => true
  | _, _ => false
  end.

(** The tag registry, in the order of the dict literal (its keys are
    pairwise distinct). *)
Definition champion_tags : Python.dict Archetype :=
  [ (* Early Skirmish *)
    ("Lee Sin", skirmish); ("Renekton", skirmish); ("LeBlanc", skirmish);
    ("Xin Zhao", skirmish); ("Elise", skirmish); ("Lucian", skirmish);
    ("Nidalee", skirmish); ("Kindred", skirmish); ("Sylas", skirmish);
    ("Jayce", skirmish); ("Wukong", skirmish); ("Taliyah", skirmish);
    (* Protect the Carry *)
    ("Lulu", protect); ("Janna", protect); ("Braum", protect);
    ("Kog'Maw", protect); ("Vayne", protect); ("Tahm Kench", protect);
    ("Milio", protect); ("Yuumi", protect); ("Zilean", protect);
    ("Rakan", protect); ("Karma", protect);
    (* Heavy Engage *)
    ("Malphite", engage); ("Amumu", engage); ("Leona", engage);
    ("Nautilus", engage); ("Jarvan IV", engage); ("Ornn", engage);
    ("Galio", engage); ("Vi", engage); ("Sejuani", engage); ("Sion", engage);
    ("K'Sante", engage); ("Alistar", engage); ("Maokai", engage);
    (* Scaling *)
    ("Kayle", scaling); ("Kassadin", scaling); ("Jinx", scaling);
    ("Ryze", scaling); ("Sivir", scaling); ("Viktor", scaling);
    ("Smolder", scaling); ("Azir", scaling); ("Caitlyn", scaling);
    ("Senna", scaling); ("Vladimir", scaling) ].

Record Classification : Type := mkClassification {
  category : string;
  win_condition : string;
  break_point : string
}.

Definition archetypes (style : Archetype) : Classification :=
  match style with
  | skirmish =>
      {| category := "EARLY SKIRMISH";
         win_condition := "CRUSH LANES EARLY. INVADE AND SNOWBALL TEMPO.";
         break_point := "FALLS OFF IF GAME STALLS PAST 25 MINS." |}
  | protect =>
      {| category := "PROTECT THE CARRY";
         win_condition := "PEEL FOR ADC. WIN FRONT-TO-BACK TEAMFIGHTS.";
         break_point := "VULNERABLE IF CARRY IS DIVED OR PICKED EARLY." |}
  | engage =>
      {| category := "HEAVY ENGAGE";
         win_condition := "FORCE 5V5. CHAIN CC ON PRIORITY TARGETS.";
         break_point := "USELESS IF THEY MISS INITIAL ENGAGE OR GET POKED." |}
  | scaling =>
      {| category := "SCALING";
         win_condition := "STALL FOR ITEMS. OUT-STAT IN LATE GAME CLUTCHES.";
         break_point := "EXTREMELY WEAK TO EARLY DIVES AND SOUL PRESSURE." |}
  | standard =>
      {| category := "STANDARD";
         win_condition := "ADAPT TO FLOW. PLAY FOR STANDARD OBJECTIVES.";
         break_point := "LACKS SPECIALIZED STRENGTH AGAINST FOCUSED COMPS." |}
  end.

(** The dict [counts]: its four keys in insertion order, and its values as a
    function of the key. *)
Definition counts_keys : list Archetype := [skirmish; protect; engage; scaling].

Definition counts_init : Archetype -> nat := fun _ => 0.

(** [counts[tag] += 1] *)
Definition increment (tag : Archetype) (counts : Archetype -> nat)
    : Archetype -> nat :=
  fun a => if archetype_eqb a tag then S (counts a) else counts a.

(** The loop [for champ in comp]. *)
Definition tally (comp : list string) : Archetype -> nat :=
  fold_left
    (fun counts champ =>
       match Python.dict_get champ champion_tags with
       | Some tag => increment tag counts
       | None => counts
       end)
    comp counts_init.

(** [max(counts, key=counts.get)], then the fallback to ['standard']. *)
Definition primary_style (comp : list string) : Archetype :=
  let counts := tally comp in
  let primary_style := Python.max_from counts skirmish [protect; engage; scaling] in
  if (counts primary_style <? 2)%nat then standard else primary_style.

Definition classify_team_composition (comp : list string) : Classification :=
  archetypes (primary_style comp).

Record CompositionEntry : Type := mkCompositionEntry {
  composition : list string;
  count : nat;
  classification : Classification
}.

Record Report : Type := mkReport {
  common_compositions : list CompositionEntry
}.

(** Equality and order of the keys that are tuples of strings. *)
Fixpoint tuple_eqb (a b : list string) : bool :=
  match a, b with
  | [], [] => true
  | x :: a', y :: b' => String.eqb x y && tuple_eqb a' b'
  | _, _ => false
  end.

Definition key_eqb (a b : string * string) : bool :=
  String.eqb (fst a) (fst b) && String.eqb (snd a) (snd b).

Definition key_leb (a b : string * string) : bool :=
  match String.compare (fst a) (fst b) with
  | Lt => true
  | Eq => String.leb (snd a) (snd b)
  | Gt => false
  end.

(** The series [compositions['composition']]: one sorted tuple of champions
    per (match, team) group, groups in ascending key order. *)
Definition composition_series (df : DataFrame) : list (list string) :=
  map (fun g => Python.sorted String.leb (map champion (rows (snd g))))
      (groupby key_eqb key_leb (fun r => (match_id r, team_id r)) df).

(** [df_comp.groupby(['match_id', 'team_id'])['champion'].apply(...)].
    pandas reads a list of keys that are not all columns, when the list is
    as long as the frame, as the labels of the rows: on a frame of two rows
    that lacks one of the two columns the first row is the group
    ['match_id'] and the second the group ['team_id'].  On any other frame
    the first key that is not a column raises [KeyError]. *)
Definition grouped_compositions (df : DataFrame) : result (list (list string)) :=
  if has_column "match_id" df && has_column "team_id" df
  then Ok (composition_series df)
  else
    match rows df with
    | [labelled_match_id; labelled_team_id] =>
        Ok [Python.sorted String.leb [champion labelled_match_id];
            Python.sorted String.leb [champion labelled_team_id]]
    | _ =>
        if has_column "match_id" df then KeyError "team_id"
        else KeyError "match_id"
    end.

Definition analyze_compositions {ties : Ties} (df : DataFrame)
    : result Report :=
  if negb (has_column "champion" df) then Ok {| common_compositions := [] |}
  else
    let df_comp := df in
    compositions <- grouped_compositions df_comp ;;
    let comp_counts := value_counts tuple_eqb compositions in
    let results :=
      map (fun row =>
             {| composition := fst row;
                count := snd row;
                classification := classify_team_composition (fst row) |})
          (firstn 5 comp_counts) in
    Ok {| common_compositions := results |}.

End Compositions.

(** ** The specification's vocabulary

    Definitions that follow the words of the specification; the theorems
    below compare the analyzers with them. *)

Module Spec.

(** The four fields the Team Tendency Analyzer and the Insight Synthesizer
    require. *)
Definition has_required_fields (df : DataFrame) : Prop :=
  has_column "first_dragon" df = true /\
  has_column "first_tower" df = true /\
  has_column "game_duration" df = true /\
  has_column "win" df = true.

(** Rows of games shorter than 1800 seconds, and the others. *)
Definition early_rows (df : DataFrame) : list Observation :=
  filter (fun r => game_duration r <? 1800)%Z (rows df).

Definition late_rows (df : DataFrame) : list Observation :=
  filter (fun r => 1800 <=? game_duration r)%Z (rows df).

(** Mean of [win] within a partition, 0.0 for an empty one. *)
Definition partition_win_rate (part : list Observation) : float :=
  match part with
  | [] => 0%float
  | _ :: _ => mean (map win part)
  end.

(** Rows kept by the optional role filter when it is applied literally:
    a row stays when its role is one of [roles]. *)
Definition rows_in_roles (roles : list string) (rs : list Observation)
    : list Observation :=
  filter (fun r => existsb (String.eqb (role r)) roles) rs.

(** Rows the Player Tendency Analyzer works on. *)
Definition analyzed_rows (df : DataFrame) (roles : option (list string))
    : list Observation :=
  match roles with
  | Some (r :: l) => rows_in_roles (r :: l) (rows df)
  | _ => rows df
  end.

(** The frame the loop of the analyzer runs on. *)
Definition analyzed_frame (df : DataFrame) (roles : option (list string))
    : DataFrame :=
  {| columns := columns df; rows := analyzed_rows df roles |}.

(** Rows of one champion in one role. *)
Definition champion_rows (rs : list Observation) (r c : string)
    : list Observation :=
  filter (fun o => String.eqb (champion o) c)
         (filter (fun o => String.eqb (role o) r) rs).

(** Games of champion [c] played in role [r]. *)
Definition games (rs : list Observation) (r c : string) : nat :=
  List.length (champion_rows rs r c).

(** Comparisons of a win rate with a threshold, on binary64 values. *)
Definition at_least (bound x : float) : Prop := PrimFloat.leb bound x = true.
Definition at_most (bound x : float) : Prop := PrimFloat.leb x bound = true.

(** The conditions of the two upper priority tiers. *)
Definition high_tier (games_played : nat) (win_rate : float) : Prop :=
  3 <= games_played /\ (at_least 0.7 win_rate \/ at_most 0.3 win_rate).

Definition medium_tier (games_played : nat) (win_rate : float) : Prop :=
  2 <= games_played /\ (at_least 0.6 win_rate \/ at_most 0.4 win_rate).

(** Number of champions of a composition carrying the tag [a]. *)
Definition tagged (a : Compositions.Archetype) (comp : list string) : nat :=
  List.length
    (filter (fun champ =>
               match Python.dict_get champ Compositions.champion_tags with
               | Some t => Compositions.archetype_eqb t a
               | None => false
               end) comp).

(** Lexicographic order of champion names. *)
Definition string_le (x y : string) : Prop := String.leb x y = true.

(** The fixed priority order of the archetypes: a smaller rank wins a tie. *)
Definition rank (a : Compositions.Archetype) : nat :=
  match a with
  | Compositions.skirmish => 0
  | Compositions.protect => 1
  | Compositions.engage => 2
  | Compositions.scaling => 3
  | Compositions.standard => 4
  end.

(** The highest of the four archetype counts of a composition. *)
Definition highest_count (comp : list string) : nat :=
  Nat.max (tagged Compositions.skirmish comp)
    (Nat.max (tagged Compositions.protect comp)
       (Nat.max (tagged Compositions.engage comp)
                (tagged Compositions.scaling comp))).

(** Ranking of two entries of a frequency table over the series [xs]: the
    larger count first and, between equal counts, the value met first in
    [xs] first. *)
Definition ranked_before {K : Type} (eqb : K -> K -> bool) (xs : list K)
    (a b : K * nat) : Prop :=
  snd b < snd a \/
  (snd a = snd b /\ first_index eqb (fst a) xs < first_index eqb (fst b) xs).

(** The exact value of a mean of 1/0 entries, as a rational number (0 when
    there is no entry). *)
Definition exact_mean (xs : list bool) : Q :=
  Z.of_nat (count_true xs) # Pos.of_nat (List.length xs).

Definition exact_partition_win_rate (part : list Observation) : Q :=
  match part with
  | [] => 0%Q
  | _ :: _ => exact_mean (map win part)
  end.

End Spec.

(** ** Sample frames *)

Module Samples.

Definition all_columns : list string :=
  ["match_id"; "team_id"; "role"; "champion"; "win"; "game_duration";
   "first_dragon"; "first_tower"].

(** A row of which only the team-level fields matter. *)
Definition team_row (duration : Z) (won dragon tower : bool) : Observation :=
  mkObservation "SYNTH-001_G1" "BLUE_TEAM" "TOP" "Garen"
                won duration dragon tower.

(** Ten rows of 1700-second games: first dragon in 3, first tower in 6,
    won 5. *)
Definition all_early_frame : DataFrame :=
  mkDataFrame all_columns
    (repeat (team_row 1700 true true true) 3
     ++ repeat (team_row 1700 true false true) 2
     ++ repeat (team_row 1700 false false true) 1
     ++ repeat (team_row 1700 false false false) 4).

(** Early games won 7 times out of 10, late games 4 times out of 5; every
    first dragon and first tower taken. *)
Definition ten_point_gap_frame : DataFrame :=
  mkDataFrame all_columns
    (repeat (team_row 1500 true true true) 7
     ++ repeat (team_row 1500 false true true) 3
     ++ repeat (team_row 2100 true true true) 4
     ++ repeat (team_row 2100 false true true) 1).

(** Early games won 9 times out of 20, late games 3 times out of 10; every
    first dragon and first tower taken. *)
Definition fifteen_point_gap_frame : DataFrame :=
  mkDataFrame all_columns
    (repeat (team_row 1500 true true true) 9
     ++ repeat (team_row 1500 false true true) 11
     ++ repeat (team_row 2100 true true true) 3
     ++ repeat (team_row 2100 false true true) 7).

(** Early games won 2 times out of 5, late games 1 time out of 4; every
    first dragon and first tower taken. *)
Definition rounded_gap_frame : DataFrame :=
  mkDataFrame all_columns
    (repeat (team_row 1500 true true true) 2
     ++ repeat (team_row 1500 false true true) 3
     ++ repeat (team_row 2100 true true true) 1
     ++ repeat (team_row 2100 false true true) 3).

(** A match-level table that has champions but no [role] column. *)
Definition no_role_frame : DataFrame :=
  mkDataFrame
    ["match_id"; "team_id"; "champion"; "win"; "game_duration";
     "first_dragon"; "first_tower"]
    [mkObservation "SYNTH-001_G1" "BLUE_TEAM" "" "Garen" true 1800 true false].

(** A table with neither [role] nor [champion]. *)
Definition match_level_frame : DataFrame :=
  mkDataFrame
    ["match_id"; "team_id"; "win"; "game_duration"; "first_dragon";
     "first_tower"]
    [mkObservation "SYNTH-001_G1" "BLUE_TEAM" "" "" true 1800 true false].

Definition pick (game role champion : string) (won : bool) : Observation :=
  mkObservation game "BLUE_TEAM" role champion won 1800 true false.

(** TOP: champion A three times (three wins) and B once; MID: two
    champions once each. *)
Definition top_lane_frame : DataFrame :=
  mkDataFrame all_columns
    [pick "G1" "TOP" "A" true; pick "G1" "MID" "Sylas" true;
     pick "G2" "TOP" "A" true; pick "G2" "MID" "Azir" true;
     pick "G3" "TOP" "A" true; pick "G4" "TOP" "B" false].

(** Two games of two teams; the rows of the second game come first.  The
    groups in key order are (G1, BLUE), (G1, RED), (G2, BLUE), (G2, RED). *)
Definition two_games_frame : DataFrame :=
  mkDataFrame all_columns
    [mkObservation "G2" "RED" "TOP" "Zed" false 1800 false true;
     mkObservation "G2" "BLUE" "TOP" "Garen" true 1800 true false;
     mkObservation "G2" "BLUE" "MID" "Ahri" true 1800 true false;
     mkObservation "G1" "RED" "TOP" "Darius" false 1800 false true;
     mkObservation "G1" "BLUE" "MID" "Ahri" true 1800 true false;
     mkObservation "G1" "BLUE" "TOP" "Garen" true 1800 true false].

(** The entry the analyzer reports for TOP on [top_lane_frame]. *)
Definition top_lane_tendency : PlayerTendencies.RoleTendency :=
  {| PlayerTendencies.most_played_champion := "A";
     PlayerTendencies.win_rate := 1%float;
     PlayerTendencies.count := 3;
     PlayerTendencies.priority := "HIGH";
     PlayerTendencies.action := "DENY COMFORT PICK" |}.

End Samples.

(** ** [src/api_fetch/fetch_matches.py]

    The functions of the data processor that compute: the validation and
    the normalization of a table, and the parser of an end-state file.  The
    download, the reads and writes of files and the printed messages are
    left out. *)

Module Json.

(** A value as [json.load] returns it: [None], a bool, an int, a float, a
    str, a list, or a dict (given by its items, whose keys are distinct). *)
Inductive json : Type :=
| JNull
| JBool (b : bool)
| JInt (n : Z)
| JFloat (f : float)
| JStr (s : string)
| JList (l : list json)
| JDict (items : list (string * json)).

Fixpoint lookup (key : string) (items : list (string * json)) : option json :=
  match items with
  | [] => None
  | (k, v) :: t => if String.eqb k key then Some v else lookup key t
  end.

(** [v.get(key, default)]; [None] stands for the [AttributeError] raised
    when [v] is not a dict. *)
Definition get (v : json) (key : string) (default : json) : option json :=
  match v with
  | JDict items =>
      Some (match lookup key items with Some x => x | None => default end)
  | _ => None
  end.

(** Truth value of a value in a condition. *)
Definition truthy (v : json) : bool :=
  match v with
  | JNull => false
  | JBool b => b
  | JInt n => negb (n =? 0)%Z
  | JFloat f => negb (PrimFloat.eqb f 0%float)
  | JStr s => negb (String.eqb s "")
  | JList l => match l with [] => false | _ :: _ => true end
  | JDict items => match items with [] => false | _ :: _ => true end
  end.

Fixpoint characters (s : string) : list json :=
  match s with
  | EmptyString => []
  | String c rest => JStr (String c EmptyString) :: characters rest
  end.

(** The items a [for] loop goes through: the elements of a list, the keys
    of a dict, the characters of a str; [None] stands for the [TypeError]
    raised for a value that is not iterable. *)
Definition iterate (v : json) : option (list json) :=
  match v with
  | JList l => Some l
  | JDict items => Some (map (fun kv => JStr (fst kv)) items)
  | JStr s => Some (characters s)
  | _ => None
  end.

(** Values that can be keys of a dict. *)
Definition hashable (v : json) : bool :=
  match v with
  | JList _ | JDict _ => false
  | _ => true
  end.

(** [f == n] for a float and an int, compared exactly. *)
Definition float_eq_int (f : float) (n : Z) : bool :=
  match Prim2SF f with
  | S754_zero _ => (n =? 0)%Z
  | S754_finite s m e =>
      Bool.eqb s (n <? 0)%Z
      && (if (0 <=? e)%Z then (Z.abs n =? Z.pos m * 2 ^ e)%Z
          else (Z.abs n * 2 ^ (- e) =? Z.pos m)%Z)
  | _ => false
  end.

Definition int_of_bool (b : bool) : Z := if b then 1%Z else 0%Z.

(** [a is b or a == b] between two hashable values, as a dict compares
    its keys: bools count as the ints 1 and 0, numbers are compared by
    value, and the NaN of [json.load], which is one object wherever it
    occurs in a file, is found again. *)
Definition key_eq (a b : json) : bool :=
  match a, b with
  | JNull, JNull => true
  | JStr s, JStr t => String.eqb s t
  | JBool x, JBool y => Bool.eqb x y
  | JBool x, JInt n | JInt n, JBool x => (int_of_bool x =? n)%Z
  | JBool x, JFloat f | JFloat f, JBool x => float_eq_int f (int_of_bool x)
  | JInt n, JInt m => (n =? m)%Z
  | JInt n, JFloat f | JFloat f, JInt n => float_eq_int f n
  | JFloat f, JFloat g =>
      PrimFloat.eqb f g || (PrimFloat.is_nan f && PrimFloat.is_nan g)
  | _, _ => false
  end.

(** A dict whose keys are any hashable values, in insertion order. *)
Definition table : Type := list (json * json).

Fixpoint table_get (key : json) (t : table) : option json :=
  match t with
  | [] => None
  | (k, v) :: rest => if key_eq k key then Some v else table_get key rest
  end.

Fixpoint table_set (key value : json) (t : table) : table :=
  match t with
  | [] => [(key, value)]
  | (k, v) :: rest =>
      if key_eq k key then (k, value) :: rest
      else (k, v) :: table_set key value rest
  end.

(** [needle in s] for two strs. *)
Fixpoint substring_of (needle s : string) : bool :=
  String.prefix needle s
  || match s with
     | EmptyString => false
     | String _ rest => substring_of needle rest
     end.

(** ['text' in v]; [None] stands for the [TypeError] raised when [v] is
    not a container. *)
Definition contains (text : string) (v : json) : option bool :=
  match v with
  | JStr s => Some (substring_of text s)
  | JList l =>
      Some (existsb (fun x => match x with
                              | JStr s => String.eqb s text
                              | _ => false
                              end) l)
  | JDict items => Some (existsb (fun kv => String.eqb (fst kv) text) items)
  | _ => None
  end.

(** [v == 'text'] *)
Definition is_text (v : json) (text : string) : bool :=
  match v with
  | JStr s => String.eqb s text
  | _ => false
  end.

Section Loops.
Context {A B : Type}.

(** A loop body run on each item in turn, the first exception ending the
    loop. *)
Fixpoint for_each (body : A -> option B) (items : list A) : option (list B) :=
  match items with
  | [] => Some []
  | x :: rest =>
      match body x with
      | None => None
      | Some y =>
          match for_each body rest with
          | None => None
          | Some ys => Some (y :: ys)
          end
      end
  end.

(** The same over [enumerate(items)], counting from [index]. *)
Fixpoint for_each_indexed (body : nat -> A -> option B) (index : nat)
    (items : list A) : option (list B) :=
  match items with
  | [] => Some []
  | x :: rest =>
      match body index x with
      | None => None
      | Some y =>
          match for_each_indexed body (S index) rest with
          | None => None
          | Some ys => Some (y :: ys)
          end
      end
  end.

(** [any(test(x) for x in items)]: stops at the first item that passes, so
    that the items after it are not examined. *)
Fixpoint any (test : A -> option bool) (items : list A) : option bool :=
  match items with
  | [] => Some false
  | x :: rest =>
      match test x with
      | None => None
      | Some true => Some true
      | Some false => any test rest
      end
  end.
End Loops.

End Json.

Module FetchMatches.

Import Json.

Definition REQUIRED_FIELDS : list string :=
  ["match_id"; "team_id"; "team_name"; "player_name"; "role"; "champion";
   "win"; "game_duration"; "first_dragon"; "first_tower"].

(** The outcome of a function that may raise [ValueError]. *)
Inductive checked (A : Type) : Type :=
| Returns (a : A)
| ValueError (message : string).
Arguments Returns {A} a.
Arguments ValueError {A} message.

(** [validate_data(df)].  Of the ten columns the model of a frame keeps the
    values of the eight that the analyzers read; [team_name] and
    [player_name] are present as labels only. *)
Definition validate_data (df : DataFrame) : checked bool :=
  let missing_fields :=
    filter (fun field => negb (has_column field df)) REQUIRED_FIELDS in
  match missing_fields with
  | _ :: _ =>
      ValueError ("Validation Error: Missing required fields: "
                  ++ String.concat ", " missing_fields)%string
  | [] => Returns true
  end.

(** [normalize_matches(df)], that is [df[REQUIRED_FIELDS].copy()]; [None]
    stands for the [KeyError] pandas raises when a label is missing.  A
    label that occurs several times in [df] is selected as many times. *)
Definition normalize_matches (df : DataFrame) : option DataFrame :=
  if forallb (fun field => has_column field df) REQUIRED_FIELDS then
    Some {| columns :=
              flat_map (fun field => filter (String.eqb field) (columns df))
                       REQUIRED_FIELDS;
            rows := rows df |}
  else None.

(** *** [parse_end_state_json] *)

(** The name given to a player: the one of the series' player list, or
    [f"Player_{p_id}"], whose rendering of [p_id] is not interpreted. *)
Inductive player_label : Type :=
| Named (name : json)
| Unnamed (p_id : json).

(** A row of the table the parser builds. *)
Record row : Type := mkRow {
  match_id : string;
  team_id : json;
  team_name : json;
  player_name : player_label;
  role : string;
  champion : json;
  win : Z;
  game_duration : json;
  first_dragon : Z;
  first_tower : Z
}.

(** [str(n)] for a natural number. *)
Definition decimal (n : nat) : string :=
  NilEmpty.string_of_uint (Nat.to_uint n).

(** [os.path.basename(path)] on POSIX: what follows the last slash. *)
Fixpoint basename (path : string) : string :=
  match path with
  | EmptyString => EmptyString
  | String c rest =>
      if substring_of "/" path then basename rest else path
  end.

(** [s.replace(old, '')] for a non-empty [old]: the occurrences of [old]
    are removed from left to right; [skip] counts the characters of an
    occurrence still to drop. *)
Fixpoint remove_from (old : string) (skip : nat) (s : string) : string :=
  match s with
  | EmptyString => EmptyString
  | String c rest =>
      match skip with
      | S k => remove_from old k rest
      | O =>
          if String.prefix old s
          then remove_from old (String.length old - 1) rest
          else String c (remove_from old 0 rest)
      end
  end.

Definition remove (old s : string) : string := remove_from old 0 s.

(** Line 61. *)
Definition series_id_of (file_path : string) : string :=
  remove ".json" (remove "series_" (basename file_path)).

(** Lines 65-70: the map from player id to player name. *)
Fixpoint build_player_map (players : list json) (player_map : table)
    : option table :=
  match players with
  | [] => Some player_map
  | p :: rest =>
      match get p "id" JNull, get p "name" JNull with
      | Some p_id, Some p_name =>
          if truthy p_id && truthy p_name then
            if hashable p_id
            then build_player_map rest (table_set p_id p_name player_map)
            else None
          else build_player_map rest player_map
      | _, _ => None
      end
  end.

Definition roles_order : list string :=
  ["TOP"; "JUNGLE"; "MID"; "ADC"; "SUPPORT"].

(** [roles_order[p_idx] if p_idx < len(roles_order) else 'UNKNOWN'] *)
Definition role_at (p_idx : nat) : string :=
  if (p_idx <? List.length roles_order)%nat
  then nth p_idx roles_order "UNKNOWN"
  else "UNKNOWN".

(** Lines 85-90, on the items of [objectives]. *)
Definition slays_first_dragon (obj : json) : option bool :=
  match get obj "type" JNull with
  | Some t =>
      if is_text t "slayDragon" then
        match get obj "completedFirst" JNull with
        | Some c => Some (truthy c)
        | None => None
        end
      else Some false
  | None => None
  end.

Definition destroys_first_turret (obj : json) : option bool :=
  match get obj "type" JNull with
  | Some t =>
      if is_text t "destroyTurret" then
        match get obj "completedFirst" JNull with
        | Some c => Some (truthy c)
        | None => None
        end
      else Some false
  | None => None
  end.

Definition names_first_turret (obj : json) : option bool :=
  match get obj "type" (JStr "") with
  | Some t =>
      match contains "Turret" t with
      | Some true =>
          match get obj "completedFirst" JNull with
          | Some c => Some (truthy c)
          | None => None
          end
      | Some false => Some false
      | None => None
      end
  | None => None
  end.

Definition flag (b : bool) : Z := if b then 1%Z else 0%Z.

(** Lines 98-116: the row of one player. *)
Definition player_row (player_map : table) (match_id : string)
    (team_id team_name : json) (won : json) (duration : json)
    (first_dragon first_tower : bool) (p_idx : nat) (player : json)
    : option row :=
  match get player "id" JNull with
  | None => None
  | Some p_id =>
      if hashable p_id then
        let p_name :=
          match table_get p_id player_map with
          | Some name => Named name
          | None => Unnamed p_id
          end in
        match get player "character" (JDict []) with
        | None => None
        | Some character =>
            match get character "name" (JStr "Unknown") with
            | None => None
            | Some champion =>
                Some {| match_id := match_id;
                        team_id := team_id;
                        team_name := team_name;
                        player_name := p_name;
                        role := role_at p_idx;
                        champion := champion;
                        win := flag (truthy won);
                        game_duration := duration;
                        first_dragon := flag first_dragon;
                        first_tower := flag first_tower |}
            end
        end
      else None
  end.

(** Lines 78-116: the rows of one team of a game. *)
Definition team_rows (player_map : table) (match_id : string)
    (duration : json) (team : json) : option (list row) :=
  match get team "id" JNull, get team "name" JNull,
        get team "won" (JBool false), get team "objectives" (JList []) with
  | Some team_id, Some team_name, Some won, Some objectives =>
      match iterate objectives with
      | None => None
      | Some objs =>
          match any slays_first_dragon objs with
          | None => None
          | Some first_dragon =>
              match any destroys_first_turret objs with
              | None => None
              | Some first_tower =>
                  match (if negb first_tower
                         then any names_first_turret objs
                         else Some first_tower) with
                  | None => None
                  | Some first_tower =>
                      match get team "players" (JList []) with
                      | None => None
                      | Some players =>
                          match iterate players with
                          | None => None
                          | Some ps =>
                              for_each_indexed
                                (player_row player_map match_id team_id
                                   team_name won duration first_dragon
                                   first_tower)
                                0 ps
                          end
                      end
                  end
              end
          end
      end
  | _, _, _, _ => None
  end.

(** Lines 74-116: the rows of one game, one list per team. *)
Definition game_rows (player_map : table) (series_id : string)
    (game_idx : nat) (game : json) : option (list (list row)) :=
  let match_id := (series_id ++ "_G" ++ decimal (game_idx + 1))%string in
  match get game "clock" (JDict []) with
  | None => None
  | Some clock =>
      match get clock "currentSeconds" (JInt 0) with
      | None => None
      | Some duration =>
          match get game "teams" (JList []) with
          | None => None
          | Some teams =>
              match iterate teams with
              | None => None
              | Some ts =>
                  for_each (team_rows player_map match_id duration) ts
              end
          end
      end
  end.

(** The rows of a series, one list per game and per team. *)
Definition series_blocks (file_path : string) (data : json)
    : option (list (list (list row))) :=
  match get data "seriesState" (JDict []) with
  | None => None
  | Some series_state =>
      let series_id := series_id_of file_path in
      match get series_state "games" (JList []) with
      | None => None
      | Some games =>
          match get series_state "players" (JList []) with
          | None => None
          | Some players =>
              match iterate players with
              | None => None
              | Some ps =>
                  match build_player_map ps [] with
                  | None => None
                  | Some player_map =>
                      match iterate games with
                      | None => None
                      | Some gs =>
                          for_each_indexed (game_rows player_map series_id)
                                           0 gs
                      end
                  end
              end
          end
      end
  end.

(** [parse_end_state_json(file_path)].  [file] is the value read from the
    file, [None] when the file does not exist or does not hold JSON.  The
    result is the list of the rows of the returned frame, [None] when the
    function returns [None], which it does on any exception. *)
Definition parse_end_state_json (file_path : string) (file : option json)
    : option (list row) :=
  match file with
  | None => None
  | Some data =>
      match series_blocks file_path data with
      | None => None
      | Some blocks => Some (List.concat (List.concat blocks))
      end
  end.

End FetchMatches.

(** ** Vocabulary of the further properties *)

Module Terms.

(** A frame with the same columns and the same rows in another order. *)
Definition same_rows (df df' : DataFrame) : Prop :=
  columns df = columns df' /\ Permutation (rows df) (rows df').

(** Strict lexicographic order of role names. *)
Definition string_lt (x y : string) : Prop := String.compare x y = Lt.

(** The group of role [r] in the frame the Player Tendency Analyzer
    iterates over. *)
Definition role_group (df : DataFrame) (roles : option (list string))
    (r : string) : DataFrame :=
  {| columns := columns df;
     rows := filter (fun o => String.eqb (role o) r)
                    (Spec.analyzed_rows df roles) |}.

(** An iteration of the analyzer's loop that adds an entry. *)
Definition adds_entry {ties : Ties} (g : string * DataFrame) : bool :=
  match PlayerTendencies.analyze_role (snd g) with
  | Ok (Some _) => true
  | _ => false
  end.

(** Order of the (match, team) keys. *)
Definition key_le (a b : string * string) : Prop :=
  Compositions.key_leb a b = true.

(** A champion that the tag registry knows. *)
Definition is_tagged (champ : string) : bool :=
  match Python.dict_get champ Compositions.champion_tags with
  | Some _ => true
  | None => false
  end.

(** The first of [fields] that is not a column of the frame. *)
Definition first_missing (fields : list string) (df : DataFrame)
    : option string :=
  find (fun f => negb (has_column f df)) fields.

(** Two frames with the same rows that have the same ones of [fields] as
    columns. *)
Definition agree_on (fields : list string) (df df' : DataFrame) : Prop :=
  rows df = rows df' /\
  forall f, In f fields -> has_column f df = has_column f df'.

End Terms.

(** ** Further sample frames *)

Module Cases.

(** Roles given out of order, two of them with a champion played twice. *)
Definition three_roles_frame : DataFrame :=
  mkDataFrame Samples.all_columns
    [Samples.pick "G1" "TOP" "Garen" true;
     Samples.pick "G1" "MID" "Ahri" false;
     Samples.pick "G1" "ADC" "Jinx" true;
     Samples.pick "G2" "TOP" "Garen" false;
     Samples.pick "G2" "MID" "Zed" false;
     Samples.pick "G2" "ADC" "Jinx" true].

(** The rows of [Samples.two_games_frame], last row first. *)
Definition reordered_games_frame : DataFrame :=
  mkDataFrame Samples.all_columns (rev (rows Samples.two_games_frame)).

(** The rows of [Samples.ten_point_gap_frame], last row first. *)
Definition reordered_gap_frame : DataFrame :=
  mkDataFrame Samples.all_columns
    (rev (rows Samples.ten_point_gap_frame)).

(** Two rows with a champion and no [match_id] column. *)
Definition two_rows_frame : DataFrame :=
  mkDataFrame ["team_id"; "champion"; "win"]
    [mkObservation "" "BLUE_TEAM" "" "Garen" true 1800 true false;
     mkObservation "" "RED_TEAM" "" "Darius" false 1800 false true].


(** The columns of a fetched table that was extended with two statistics,
    and the rows of [Samples.two_games_frame] under them. *)
Definition extended_columns : list string :=
  ["kills"; "match_id"; "team_id"; "team_name"; "player_name"; "role";
   "champion"; "win"; "game_duration"; "first_dragon"; "first_tower";
   "gold"].

Definition extended_frame : DataFrame :=
  mkDataFrame extended_columns (rows Samples.two_games_frame).

(** The same rows under the required columns in another order. *)
Definition shuffled_frame : DataFrame :=
  mkDataFrame (rev FetchMatches.REQUIRED_FIELDS)
              (rows Samples.two_games_frame).

End Cases.

(** ** Vocabulary of the properties of the parser *)

Module FetchTerms.

Import Json FetchMatches.

(** Rows that carry the same team-level values. *)
Definition same_team (r r' : row) : Prop :=
  match_id r = match_id r' /\
  team_id r = team_id r' /\
  team_name r = team_name r' /\
  win r = win r' /\
  game_duration r = game_duration r' /\
  first_dragon r = first_dragon r' /\
  first_tower r = first_tower r'.

(** A 1/0 flag. *)
Definition binary (z : Z) : Prop := z = 0%Z \/ z = 1%Z.

(** The rows of one team of one game: the same team-level values on every
    row, and the roles given by position. *)
Definition team_block (block : list row) : Prop :=
  map role block = map role_at (seq 0 (List.length block)) /\
  forall r r', In r block -> In r' block -> same_team r r'.

(** A decimal digit. *)
Definition is_digit (c : ascii) : bool :=
  (48 <=? nat_of_ascii c)%nat && (nat_of_ascii c <=? 57)%nat.

Fixpoint all_digits (s : string) : bool :=
  match s with
  | EmptyString => true
  | String c rest => is_digit c && all_digits rest
  end.

(** An objective that is an object whose [type], when it has one, is a
    str. *)
Definition typed_objective (obj : json) : bool :=
  match obj with
  | JDict items =>
      match lookup "type" items with
      | Some (JStr _) | None => true
      | Some _ => false
      end
  | _ => false
  end.

(** The value of [completedFirst] counts as true. *)
Definition completed_first (obj : json) : bool :=
  match obj with
  | JDict items =>
      match lookup "completedFirst" items with
      | Some c => truthy c
      | None => false
      end
  | _ => false
  end.

(** The [type] of the objective has [text] in it. *)
Definition type_mentions (text : string) (obj : json) : bool :=
  match obj with
  | JDict items =>
      match lookup "type" items with
      | Some (JStr t) => substring_of text t
      | _ => false
      end
  | _ => false
  end.

(** The [type] of the objective is [text]. *)
Definition type_is (text : string) (obj : json) : bool :=
  match obj with
  | JDict items =>
      match lookup "type" items with
      | Some (JStr t) => String.eqb t text
      | _ => false
      end
  | _ => false
  end.

(** [game.get('clock', {}).get('currentSeconds', 0)] *)
Definition duration_of (game : json) : option json :=
  match get game "clock" (JDict []) with
  | Some clock => get clock "currentSeconds" (JInt 0)
  | None => None
  end.

(** The teams of a file, with the game each one belongs to: what the two
    outer loops of the parser go through. *)
Definition teams_of (data : json) : option (list json) :=
  match get data "seriesState" (JDict []) with
  | Some series_state =>
      match get series_state "games" (JList []) with
      | Some games =>
          match iterate games with
          | Some gs =>
              match for_each
                      (fun game =>
                         match get game "teams" (JList []) with
                         | Some teams => iterate teams
                         | None => None
                         end) gs with
              | Some tss => Some (List.concat tss)
              | None => None
              end
          | None => None
          end
      | None => None
      end
  | None => None
  end.

(** A player entry of a team that the parser cannot read: not an object,
    or with an id that cannot be a dict key, or with a [character] that is
    not an object. *)
Definition unreadable_player (p : json) : bool :=
  match p with
  | JDict items =>
      match lookup "id" items with
      | Some id => negb (hashable id)
      | None => false
      end
      || match lookup "character" items with
         | Some (JDict _) | None => false
         | Some _ => true
         end
  | _ => true
  end.

(** The entries of [seriesState.players]. *)
Definition listed_players (data : json) : option (list json) :=
  match get data "seriesState" (JDict []) with
  | Some series_state =>
      match get series_state "players" (JList []) with
      | Some players => iterate players
      | None => None
      end
  | None => None
  end.

(** [v] is the name that an entry of the list gives to a player, both the
    id and the name counting as true. *)
Definition listed_name (ps : list json) (v : json) : Prop :=
  exists p id,
    In p ps /\
    get p "id" JNull = Some id /\ truthy id = true /\
    get p "name" JNull = Some v /\ truthy v = true.

(** The player entries of a team, when they are given as a list. *)
Definition players_of (team : json) : list json :=
  match get team "players" (JList []) with
  | Some (JList ps) => ps
  | _ => []
  end.

(** [player.get('character', {}).get('name', 'Unknown')], when it is
    defined. *)
Definition champion_of (player : json) : json :=
  match get player "character" (JDict []) with
  | Some character =>
      match get character "name" (JStr "Unknown") with
      | Some name => name
      | None => JNull
      end
  | None => JNull
  end.

(** Files of the expected shape: objects where the parser reads fields,
    lists where it iterates (an absent field counts, the parser has a
    default for it), ids that can be dict keys, and objective types that
    are strs. *)
Definition list_of (test : json -> bool) (field : option json) : bool :=
  match field with
  | None => true
  | Some (JList l) => forallb test l
  | Some _ => false
  end.

Definition object_or_absent (field : option json) : bool :=
  match field with
  | None | Some (JDict _) => true
  | Some _ => false
  end.

Definition listed_player_ok (p : json) : bool :=
  match p with
  | JDict items =>
      match lookup "id" items, lookup "name" items with
      | Some id, Some name =>
          if truthy id && truthy name then hashable id else true
      | _, _ => true
      end
  | _ => false
  end.

Definition game_ok (game : json) : bool :=
  match game with
  | JDict items =>
      object_or_absent (lookup "clock" items)
      && list_of
           (fun team =>
              match team with
              | JDict fields =>
                  list_of typed_objective (lookup "objectives" fields)
                  && list_of (fun p => negb (unreadable_player p))
                             (lookup "players" fields)
              | _ => false
              end)
           (lookup "teams" items)
  | _ => false
  end.

Definition file_ok (data : json) : bool :=
  match data with
  | JDict items =>
      match lookup "seriesState" items with
      | None => true
      | Some (JDict series_state) =>
          list_of game_ok (lookup "games" series_state)
          && list_of listed_player_ok (lookup "players" series_state)
      | Some _ => false
      end
  | _ => false
  end.

End FetchTerms.

(** ** Sample files *)

Module FetchCases.

Import Json FetchMatches.

Definition objective (type : string) (first : bool) : json :=
  JDict [("type", JStr type); ("completedFirst", JBool first)].

Definition player (id champion : string) : json :=
  JDict [("id", JStr id); ("character", JDict [("name", JStr champion)])].

Definition team (id name : string) (won : bool) (objectives players : list json)
    : json :=
  JDict [("id", JStr id); ("name", JStr name); ("won", JBool won);
         ("objectives", JList objectives); ("players", JList players)].

Definition game (seconds : Z) (teams : list json) : json :=
  JDict [("clock", JDict [("currentSeconds", JInt seconds)]);
         ("teams", JList teams)].

Definition series (players games : list json) : json :=
  JDict [("seriesState",
          JDict [("players", JList players); ("games", JList games)])].

Definition listed_players : list json :=
  [JDict [("id", JStr "p1"); ("name", JStr "Zeus")];
   JDict [("id", JStr "p2"); ("name", JStr "Oner")];
   JDict [("id", JStr "p3"); ("name", JStr "Kiin")]].

(** Two games of two teams, two players a team; the fourth player is not
    in the list of the series. *)
Definition two_games_file : json :=
  series listed_players
    [game 1750
       [team "t1" "T1" true
             [objective "slayDragon" true;
              objective "destroyTurret" false]
             [player "p1" "Garen"; player "p2" "Vi"];
        team "t2" "GEN" false
             [objective "slayDragon" false;
              objective "destroyTurret" true]
             [player "p3" "Darius"; player "p4" "Sejuani"]];
     game 2100
       [team "t1" "T1" false
             [objective "destroyOuterTurret" true]
             [player "p1" "Jax"; player "p2" "Vi"];
        team "t2" "GEN" true
             [objective "slayDragon" true]
             [player "p3" "Darius"; player "p4" "Sejuani"]]].

(** A team one of whose players has [null] for [character]. *)
Definition broken_team : json :=
  team "t2" "GEN" true []
       [player "p3" "Darius";
        JDict [("id", JStr "p4"); ("character", JNull)]].

(** A team that took the first turret, reported under a type of its own,
    and its only row in the second game of series 2843069. *)
Definition turret_team : json :=
  team "t1" "T1" false [objective "destroyOuterTurret" true]
       [player "p1" "Jax"].

Definition turret_block : list row :=
  [mkRow "2843069_G2" (JStr "t1") (JStr "T1") (Unnamed (JStr "p1")) "TOP"
         (JStr "Jax") 0 (JInt 2100) 0 1].

(** Where a downloaded end state is kept. *)
Definition sample_path : string := "data/raw/series_2843069.json".

Definition broken_file : json :=
  series listed_players
    [game 1750
       [team "t1" "T1" true [] [player "p1" "Garen"; player "p2" "Vi"]];
     game 2100
       [team "t1" "T1" false [] [player "p1" "Jax"; player "p2" "Vi"];
        broken_team]].

End FetchCases.

(** ** Facts about the pandas model *)

Module PandasFacts.

Lemma getitem_present {A : Type} (name : string) (field : Observation -> A)
    (df : DataFrame) :
  has_column name df = true -> getitem name field df = Ok (map field (rows df)).
Proof. intros H; unfold getitem; rewrite H; reflexivity. Qed.

Lemma getitem_ok {A : Type} (name : string) (field : Observation -> A)
    (df : DataFrame) (col : list A) :
  getitem name field df = Ok col ->
  has_column name df = true /\ col = map field (rows df).
Proof.
  unfold getitem; destruct (has_column name df); intros H.
  - injection H as <-; split; reflexivity.
  - discriminate H.
Qed.

Lemma has_column_loc (name : string) (df : DataFrame) (mask : list bool) :
  has_column name (loc df mask) = has_column name df.
Proof. reflexivity. Qed.

Lemma select_map {A : Type} (p : A -> bool) (xs : list A) :
  select (map p xs) xs = filter p xs.
Proof.
  induction xs as [| x xs IH]; simpl; [reflexivity |].
  rewrite IH; reflexivity.
Qed.

Lemma rows_loc_map {A : Type} (p : A -> bool) (field : Observation -> A)
    (df : DataFrame) :
  rows (loc df (map p (map field (rows df))))
  = filter (fun r => p (field r)) (rows df).
Proof.
  unfold loc; simpl; rewrite map_map.
  apply (select_map (fun r => p (field r))).
Qed.

Lemma empty_rows (name : string) (df : DataFrame) :
  has_column name df = true ->
  empty df = match rows df with [] => true | _ :: _ => false end.
Proof.
  unfold has_column, empty.
  destruct (columns df); simpl; [discriminate |].
  destruct (rows df); reflexivity.
Qed.

Lemma nan_is_not (x : float) :
  PrimFloat.classify x <> NaN -> mean [] <> x.
Proof.
  intros Hx H; apply Hx; rewrite <- H; vm_compute; reflexivity.
Qed.

End PandasFacts.

Import PandasFacts.

(** ** Team Tendency Analyzer and Insight Synthesizer *)

Module TempoFacts.

Import TeamTendencies HowToWin Spec.

(** The conditional expression both modules use for a partition's rate. *)
Lemma partition_rate (df : DataFrame) (p : Z -> bool) :
  has_column "win" df = true ->
  (if negb (empty (loc df (map p (map game_duration (rows df))))) then
     w <- getitem "win" win (loc df (map p (map game_duration (rows df)))) ;;
     Ok (mean w)
   else Ok 0%float)
  = Ok (partition_win_rate (filter (fun r => p (game_duration r)) (rows df))).
Proof.
  intros Hw.
  rewrite (empty_rows "win") by (rewrite has_column_loc; exact Hw).
  rewrite getitem_present by (rewrite has_column_loc; exact Hw).
  rewrite rows_loc_map.
  destruct (filter _ (rows df)); reflexivity.
Qed.

Lemma late_mask (rs : list Observation) :
  filter (fun r => game_duration r >=? 1800)%Z rs
  = filter (fun r => 1800 <=? game_duration r)%Z rs.
Proof.
  apply filter_ext; intros r; apply Z.geb_leb.
Qed.

Lemma analyze_team_tendencies_eq (df : DataFrame) :
  has_required_fields df ->
  analyze_team_tendencies df
  = Ok {| first_dragon_rate := mean (map first_dragon (rows df));
          first_tower_rate := mean (map first_tower (rows df));
          early_game_win_rate := partition_win_rate (early_rows df);
          late_game_win_rate := partition_win_rate (late_rows df);
          win_tendency :=
            if PrimFloat.ltb (partition_win_rate (late_rows df))
                             (partition_win_rate (early_rows df))
            then "early" else "late" |}.
Proof.
  intros (Hd & Ht & Hg & Hw).
  unfold analyze_team_tendencies, masked_win_rate.
  rewrite !getitem_present by assumption; cbn [bind].
  rewrite (partition_rate df (fun d => d <? 1800)%Z Hw); cbn [bind].
  rewrite (partition_rate df (fun d => d >=? 1800)%Z Hw); cbn [bind].
  rewrite late_mask; reflexivity.
Qed.

Lemma rates_eq (df : DataFrame) :
  has_column "first_dragon" df = true ->
  has_column "game_duration" df = true ->
  has_column "win" df = true ->
  rates df = Ok (mean (map first_dragon (rows df)),
                 partition_win_rate (early_rows df),
                 partition_win_rate (late_rows df)).
Proof.
  intros Hd Hg Hw.
  unfold rates.
  rewrite !getitem_present by assumption; cbn [bind].
  rewrite (partition_rate df (fun d => d <? 1800)%Z Hw); cbn [bind].
  rewrite (partition_rate df (fun d => d >=? 1800)%Z Hw); cbn [bind].
  rewrite late_mask; reflexivity.
Qed.

(** The rows of a frame split into the two partitions: each row is in
    exactly one of them. *)
Lemma early_or_late (r : Observation) :
  ((game_duration r <? 1800)%Z = true /\ (1800 <=? game_duration r)%Z = false)
  \/ ((game_duration r <? 1800)%Z = false /\ (1800 <=? game_duration r)%Z = true).
Proof.
  destruct (Z.ltb_spec (game_duration r) 1800);
    destruct (Z.leb_spec 1800 (game_duration r)); try lia; auto.
Qed.

Lemma all_early (rs : list Observation) :
  Forall (fun r => game_duration r = 1700%Z) rs ->
  filter (fun r => game_duration r <? 1800)%Z rs = rs /\
  filter (fun r => 1800 <=? game_duration r)%Z rs = [].
Proof.
  induction 1 as [| r rs Hr _ [IH1 IH2]]; simpl; [split; reflexivity |].
  rewrite Hr; simpl; rewrite IH1, IH2; split; reflexivity.
Qed.

End TempoFacts.

(** ** Claims about the Insight Synthesizer and the Team Tendency Analyzer *)

Module TempoClaims.

Import TeamTendencies HowToWin Spec TempoFacts.

(** What [generate_how_to_win_insights] returns on a frame that has the
    required fields. *)
Lemma generate_eq (df : DataFrame) :
  has_required_fields df ->
  let dragon := mean (map first_dragon (rows df)) in
  let tower := mean (map first_tower (rows df)) in
  let early := partition_win_rate (early_rows df) in
  let late := partition_win_rate (late_rows df) in
  generate_how_to_win_insights df
  = Ok [ if PrimFloat.ltb dragon 0.4 then force_dragon dragon
         else if PrimFloat.ltb (late + 0.15)%float early
              then stall_for_late early late
              else press_the_advantage (mean (map win (rows df)));
         if PrimFloat.ltb tower 0.5 then crash_waves tower
         else if PrimFloat.ltb (early + 0.1)%float late
              then invade_early late early
              else control_vision;
         bait_baron ].
Proof.
  intros (Hd & Ht & Hg & Hw); cbn zeta.
  unfold generate_how_to_win_insights.
  rewrite (rates_eq df Hd Hg Hw); cbn [bind].
  destruct (PrimFloat.ltb (mean (map first_dragon (rows df))) 0.4);
    [| destruct (PrimFloat.ltb _ (partition_win_rate (early_rows df)))];
    rewrite ?getitem_present by assumption; cbn [bind app];
    rewrite ?getitem_present by assumption; cbn [bind app];
    destruct (PrimFloat.ltb (mean (map first_tower (rows df))) 0.5);
    try destruct (PrimFloat.ltb _ (partition_win_rate (late_rows df)));
    reflexivity.
Qed.

(** C1.  On every frame that has the fields [first_dragon], [first_tower],
    [game_duration] and [win], [generate_how_to_win_insights] returns a list
    of exactly three insights whose priorities are HIGH, MEDIUM and
    SITUATIONAL, in this order. *)
Theorem how_to_win_three_insights (df : DataFrame) :
  has_required_fields df ->
  exists high medium situational,
    generate_how_to_win_insights df = Ok [high; medium; situational] /\
    priority high = "HIGH" /\
    priority medium = "MEDIUM" /\
    priority situational = "SITUATIONAL".
Proof.
  intros H; rewrite (generate_eq df H); cbn zeta.
  eexists _, _, _; split; [reflexivity |].
  repeat split.
  - destruct (PrimFloat.ltb _ 0.4); [| destruct (PrimFloat.ltb _ _)];
      reflexivity.
  - destruct (PrimFloat.ltb _ 0.5); [| destruct (PrimFloat.ltb _ _)];
      reflexivity.
Qed.

Lemma how_to_win_three_insights_witness :
  has_required_fields Samples.all_early_frame /\
  exists high medium situational,
    generate_how_to_win_insights Samples.all_early_frame
    = Ok [high; medium; situational] /\
    priority high = "HIGH" /\
    priority medium = "MEDIUM" /\
    priority situational = "SITUATIONAL".
Proof.
  assert (H : has_required_fields Samples.all_early_frame)
    by (repeat split; reflexivity).
  split; [exact H | exact (how_to_win_three_insights _ H)].
Defined.

(** C7.  On every frame that has the required fields, the dragon rate and
    the early and late win rates that [generate_how_to_win_insights] computes
    (its lines 19-24, [rates]) are the [first_dragon_rate],
    [early_game_win_rate] and [late_game_win_rate] that
    [analyze_team_tendencies] returns on the same frame. *)
Theorem rates_match_team_tendencies (df : DataFrame) :
  has_required_fields df ->
  exists t dragon_rate early_win_rate late_win_rate,
    analyze_team_tendencies df = Ok t /\
    rates df = Ok (dragon_rate, early_win_rate, late_win_rate) /\
    dragon_rate = first_dragon_rate t /\
    early_win_rate = early_game_win_rate t /\
    late_win_rate = late_game_win_rate t.
Proof.
  intros H.
  rewrite (analyze_team_tendencies_eq df H).
  destruct H as (Hd & _ & Hg & Hw).
  rewrite (rates_eq df Hd Hg Hw).
  eexists _, _, _, _; repeat split; reflexivity.
Qed.

Lemma rates_match_team_tendencies_witness :
  has_required_fields Samples.ten_point_gap_frame /\
  exists t dragon_rate early_win_rate late_win_rate,
    analyze_team_tendencies Samples.ten_point_gap_frame = Ok t /\
    rates Samples.ten_point_gap_frame
    = Ok (dragon_rate, early_win_rate, late_win_rate) /\
    dragon_rate = first_dragon_rate t /\
    early_win_rate = early_game_win_rate t /\
    late_win_rate = late_game_win_rate t.
Proof.
  assert (H : has_required_fields Samples.ten_point_gap_frame)
    by (repeat split; reflexivity).
  split; [exact H | exact (rates_match_team_tendencies _ H)].
Defined.

(** C3.  On every frame that has the required fields, the Team Tendency
    Analyzer splits the rows into the early ones (duration < 1800) and the
    late ones (duration >= 1800), each row falling in exactly one part;
    reports for each part the mean of [win], and 0.0 for an empty part; and
    sets [win_tendency] to "early" exactly when the early rate is strictly
    greater than the late one, to "late" otherwise.  In particular, when
    every duration is 1700 and the means of [first_dragon], [first_tower]
    and [win] are 0.3, 0.6 and 0.5, the result has early rate 0.5, late rate
    0.0 and tendency "early". *)
Theorem team_tendencies_win_phase (df : DataFrame) :
  has_required_fields df ->
  exists t,
    analyze_team_tendencies df = Ok t /\
    (forall r, In r (rows df) ->
       (In r (early_rows df) /\ (game_duration r < 1800)%Z
        /\ ~ In r (late_rows df))
       \/ (In r (late_rows df) /\ (1800 <= game_duration r)%Z
           /\ ~ In r (early_rows df))) /\
    early_game_win_rate t
    = match early_rows df with
      | [] => 0%float
      | _ :: _ => mean (map win (early_rows df))
      end /\
    late_game_win_rate t
    = match late_rows df with
      | [] => 0%float
      | _ :: _ => mean (map win (late_rows df))
      end /\
    (win_tendency t = "early" <->
     PrimFloat.ltb (late_game_win_rate t) (early_game_win_rate t) = true) /\
    (win_tendency t = "late" <->
     PrimFloat.ltb (late_game_win_rate t) (early_game_win_rate t) = false) /\
    (Forall (fun r => game_duration r = 1700%Z) (rows df) ->
     mean (map first_dragon (rows df)) = 0.3%float ->
     mean (map first_tower (rows df)) = 0.6%float ->
     mean (map win (rows df)) = 0.5%float ->
     early_game_win_rate t = 0.5%float /\
     late_game_win_rate t = 0%float /\
     win_tendency t = "early").
Proof.
  intros H.
  rewrite (analyze_team_tendencies_eq df H).
  eexists; split; [reflexivity |]; cbn [early_game_win_rate
    late_game_win_rate win_tendency].
  split; [| split; [| split; [| split; [| split]]]].
  - intros r Hr; unfold early_rows, late_rows.
    rewrite !filter_In.
    destruct (early_or_late r) as [[E L] | [E L]]; [left | right];
      rewrite E, L.
    + apply Z.ltb_lt in E; repeat split; auto.
      intros [_ F]; discriminate F.
    + apply Z.leb_le in L; repeat split; auto.
      intros [_ F]; discriminate F.
  - unfold partition_win_rate; destruct (early_rows df); reflexivity.
  - unfold partition_win_rate; destruct (late_rows df); reflexivity.
  - destruct (PrimFloat.ltb _ _); split; intros E;
      try reflexivity; discriminate E.
  - destruct (PrimFloat.ltb _ _); split; intros E;
      try reflexivity; discriminate E.
  - intros Hall _ _ Hwin.
    destruct (all_early (rows df) Hall) as [He Hl].
    unfold early_rows, late_rows; rewrite He, Hl.
    assert (Hrate : partition_win_rate (rows df) = 0.5%float).
    { unfold partition_win_rate.
      destruct (rows df) as [| r rs] eqn:E; [| exact Hwin].
      exfalso; revert Hwin; apply nan_is_not; vm_compute; discriminate. }
    rewrite Hrate; repeat split; reflexivity.
Qed.

Lemma team_tendencies_win_phase_witness :
  has_required_fields Samples.all_early_frame /\
  exists t,
    analyze_team_tendencies Samples.all_early_frame = Ok t /\
    first_dragon_rate t = 0.3%float /\
    first_tower_rate t = 0.6%float /\
    early_game_win_rate t = 0.5%float /\
    late_game_win_rate t = 0%float /\
    win_tendency t = "early".
Proof.
  assert (H : has_required_fields Samples.all_early_frame)
    by (repeat split; reflexivity).
  split; [exact H |].
  destruct (team_tendencies_win_phase _ H)
    as (t & Ht & _ & _ & _ & _ & _ & Hcase).
  exists t; split; [exact Ht |].
  assert (Hd : first_dragon_rate t = 0.3%float /\
               first_tower_rate t = 0.6%float).
  { vm_compute in Ht; injection Ht as <-; split; reflexivity. }
  destruct Hd as [Hd1 Hd2]; split; [exact Hd1 | split; [exact Hd2 |]].
  apply Hcase.
  - repeat constructor.
  - reflexivity.
  - reflexivity.
  - reflexivity.
Defined.

(** C4.  The claim selects the invade-early recommendation only when the
    late win rate exceeds the early one by more than 0.10, and the
    stall-for-late recommendation only when the early win rate exceeds the
    late one by more than 0.15.  The code tests
    [late_win_rate > early_win_rate + 0.1] and
    [early_win_rate > late_win_rate + 0.15] on doubles, and the rounded sum
    can fall below the exact one.

    First frame: early win rate 7/10, late win rate 4/5, every first tower
    taken.  The gap is exactly 1/10, yet the MEDIUM insight is the
    invade-early one, because 0.7 + 0.1 evaluates to 0.7999999999999999.

    Second frame: early win rate 9/20, late win rate 3/10, every first
    dragon taken.  The gap is exactly 15/100, yet the HIGH insight is the
    stall-for-late one, because 0.3 + 0.15 evaluates to
    0.44999999999999996. *)
Theorem threshold_gap_divergence :
  generate_how_to_win_insights Samples.ten_point_gap_frame
  = Ok [ press_the_advantage
           (mean (map win (rows Samples.ten_point_gap_frame)));
         invade_early 0.8 0.7;
         bait_baron ] /\
  (exact_mean (map first_tower (rows Samples.ten_point_gap_frame)) == 1)%Q /\
  (exact_partition_win_rate (late_rows Samples.ten_point_gap_frame)
   - exact_partition_win_rate (early_rows Samples.ten_point_gap_frame)
   == 10 # 100)%Q /\
  generate_how_to_win_insights Samples.fifteen_point_gap_frame
  = Ok [ stall_for_late 0.45 0.3; control_vision; bait_baron ] /\
  (exact_mean (map first_dragon (rows Samples.fifteen_point_gap_frame))
   == 1)%Q /\
  (exact_partition_win_rate (early_rows Samples.fifteen_point_gap_frame)
   - exact_partition_win_rate (late_rows Samples.fifteen_point_gap_frame)
   == 15 # 100)%Q.
Proof.
  repeat split; vm_compute; reflexivity.
Qed.

(** Reading the claim's differences on the computed doubles does not
    reconcile it with the code either.  With early win rate 2/5 and late win
    rate 1/4 the double [0.4 - 0.25] is 0.15000000000000002, which exceeds
    0.15, and the HIGH insight is nevertheless the press-the-advantage one,
    because 0.25 + 0.15 evaluates to 0.4. *)
Remark rounded_difference_reading :
  (exists medium situational,
     generate_how_to_win_insights Samples.rounded_gap_frame
     = Ok [ press_the_advantage
              (mean (map win (rows Samples.rounded_gap_frame)));
            medium; situational ]) /\
  PrimFloat.ltb (mean (map first_dragon (rows Samples.rounded_gap_frame))) 0.4
  = false /\
  PrimFloat.ltb 0.15
    (partition_win_rate (early_rows Samples.rounded_gap_frame)
     - partition_win_rate (late_rows Samples.rounded_gap_frame))
  = true.
Proof.
  split; [eexists _, _; vm_compute; reflexivity |].
  split; vm_compute; reflexivity.
Qed.

(** The rules as the code evaluates them.  On every frame that has the
    required fields the synthesizer returns three insights.  The HIGH one is
    the force-dragon recommendation citing the first-dragon mean when that
    mean is < 0.40; otherwise the stall-for-late recommendation citing both
    rates when the early win rate is greater than the binary64 sum of the
    late win rate and 0.15; otherwise the press-the-advantage
    recommendation citing the mean of [win] over all rows.  The MEDIUM one
    is the crash-waves recommendation citing the first-tower mean when that
    mean is < 0.50; otherwise the invade-early recommendation citing both
    rates when the late win rate is greater than the binary64 sum of the
    early win rate and 0.10; otherwise the vision-control insight, whose
    metric holds no number.  Each recommendation is selected in no other
    case. *)
Theorem insight_rules (df : DataFrame) :
  has_required_fields df ->
  let dragon := mean (map first_dragon (rows df)) in
  let tower := mean (map first_tower (rows df)) in
  let early := partition_win_rate (early_rows df) in
  let late := partition_win_rate (late_rows df) in
  let overall := mean (map win (rows df)) in
  let below_40 := PrimFloat.ltb dragon 0.4 in
  let early_gap := PrimFloat.ltb (late + 0.15)%float early in
  let below_50 := PrimFloat.ltb tower 0.5 in
  let late_gap := PrimFloat.ltb (early + 0.1)%float late in
  exists high medium situational,
    generate_how_to_win_insights df = Ok [high; medium; situational] /\
    high = (if below_40 then force_dragon dragon
            else if early_gap then stall_for_late early late
                 else press_the_advantage overall) /\
    (recommendation high = recommendation (force_dragon dragon)
     <-> below_40 = true) /\
    (recommendation high = recommendation (stall_for_late early late)
     <-> below_40 = false /\ early_gap = true) /\
    (recommendation high = recommendation (press_the_advantage overall)
     <-> below_40 = false /\ early_gap = false) /\
    medium = (if below_50 then crash_waves tower
              else if late_gap then invade_early late early
                   else control_vision) /\
    (recommendation medium = recommendation (crash_waves tower)
     <-> below_50 = true) /\
    (recommendation medium = recommendation (invade_early late early)
     <-> below_50 = false /\ late_gap = true) /\
    (medium = control_vision
     <-> below_50 = false /\ late_gap = false) /\
    metric control_vision = [Lit "Standard objective pacing detected."].
Proof.
  intros H; cbn zeta.
  rewrite (generate_eq df H); cbn zeta.
  eexists _, _, _; split; [reflexivity |].
  split; [reflexivity |].
  destruct (PrimFloat.ltb (mean (map first_dragon (rows df))) 0.4);
    [| destruct (PrimFloat.ltb (_ + 0.15)%float _)];
    (destruct (PrimFloat.ltb (mean (map first_tower (rows df))) 0.5);
     [| destruct (PrimFloat.ltb (_ + 0.1)%float _)]);
    cbn [recommendation force_dragon stall_for_late press_the_advantage
         crash_waves invade_early control_vision];
    repeat split; intros; try reflexivity; try discriminate;
    try (exfalso; intuition discriminate).
Qed.

Lemma insight_rules_witness :
  has_required_fields Samples.ten_point_gap_frame /\
  exists high medium situational,
    generate_how_to_win_insights Samples.ten_point_gap_frame
    = Ok [high; medium; situational] /\
    high = press_the_advantage
             (mean (map win (rows Samples.ten_point_gap_frame))) /\
    medium = invade_early 0.8 0.7.
Proof.
  assert (H : has_required_fields Samples.ten_point_gap_frame)
    by (repeat split; reflexivity).
  split; [exact H |].
  destruct (insight_rules _ H)
    as (high & medium & situational & Hgen & Hhigh & _ & _ & _ & Hmed & _).
  exists high, medium, situational.
  split; [exact Hgen |].
  split; [rewrite Hhigh | rewrite Hmed]; vm_compute; reflexivity.
Defined.

End TempoClaims.

(** ** Facts about sorting, counting and selecting the maximum *)

Module SeriesFacts.

Section Insertion.
Context {A : Type}.
Variable leb : A -> A -> bool.

Lemma in_insert_sorted (x y : A) (l : list A) :
  In y (Python.insert_sorted leb x l) <-> y = x \/ In y l.
Proof.
  induction l as [| z l IH]; simpl.
  - intuition.
  - destruct (leb x z); simpl; [intuition | rewrite IH; intuition].
Qed.

Lemma in_sorted (y : A) (l : list A) :
  In y (Python.sorted leb l) <-> In y l.
Proof.
  induction l as [| x l IH]; simpl; [reflexivity |].
  rewrite in_insert_sorted, IH; intuition.
Qed.

(** Inserting into a list ordered by [R] keeps it ordered, when [leb]
    decides [R] between the new element and the old ones. *)
Lemma insert_sorted_ordered (R : A -> A -> Prop) (x : A) (l : list A) :
  (forall y, In y l -> leb x y = true -> R x y) ->
  (forall y, In y l -> leb x y = false -> R y x) ->
  (forall y z, In y l -> In z l -> R x y -> R y z -> R x z) ->
  StronglySorted R l ->
  StronglySorted R (Python.insert_sorted leb x l).
Proof.
  intros Ht Hf Htr Hs.
  induction Hs as [| z l Hs IH Hz]; simpl.
  - constructor; constructor.
  - destruct (leb x z) eqn:E.
    + constructor; [constructor; assumption |].
      assert (Rxz : R x z) by (apply Ht; [left; reflexivity | exact E]).
      constructor; [exact Rxz |].
      rewrite Forall_forall in Hz |- *; intros y Hy.
      apply (Htr z y); simpl; auto.
    + constructor.
      * apply IH.
        -- intros y Hy; apply Ht; right; exact Hy.
        -- intros y Hy; apply Hf; right; exact Hy.
        -- intros y w Hy Hw; apply Htr; right; assumption.
      * rewrite Forall_forall in Hz |- *; intros y Hy.
        apply in_insert_sorted in Hy; destruct Hy as [-> | Hy].
        -- apply Hf; [left; reflexivity | exact E].
        -- apply Hz; exact Hy.
Qed.

End Insertion.

Section Counting.
Context {K : Type}.
Variable eqb : K -> K -> bool.
Hypothesis eqb_eq : forall x y, eqb x y = true <-> x = y.

Lemma eqb_refl (x : K) : eqb x x = true.
Proof. apply eqb_eq; reflexivity. Qed.

Lemma in_unique (x : K) (xs : list K) : In x (unique eqb xs) <-> In x xs.
Proof.
  induction xs as [| y xs IH]; simpl; [reflexivity |].
  rewrite filter_In, IH.
  destruct (eqb x y) eqn:E.
  - apply eqb_eq in E; subst y; simpl; intuition.
  - simpl; split.
    + intros [-> | [H _]]; auto.
    + intros [-> | H]; auto.
Qed.

Lemma occurrences_pos (v : K) (xs : list K) :
  0 < occurrences eqb v xs -> In v xs.
Proof.
  unfold occurrences; induction xs as [| y xs IH]; simpl; [lia |].
  destruct (eqb y v) eqn:E.
  - apply eqb_eq in E; auto.
  - auto.
Qed.

Lemma occurrences_map {B : Type} (f : B -> K) (v : K) (l : list B) :
  occurrences eqb v (map f l)
  = List.length (filter (fun b => eqb (f b) v) l).
Proof.
  unfold occurrences; induction l as [| b l IH]; simpl; [reflexivity |].
  destruct (eqb (f b) v); simpl; rewrite IH; reflexivity.
Qed.

(** Whatever the arrangement of ties, the table keeps its entries. *)
Lemma in_arrange {ties : Ties} (e : K * nat) (l : list (K * nat)) :
  In e (arrange l) <-> In e l.
Proof.
  split; apply Permutation_in;
    [| apply Permutation_sym]; apply arrange_permutation.
Qed.

Lemma arrange_one {ties : Ties} (e : K * nat) : arrange [e] = [e].
Proof.
  apply Permutation_length_1_inv, Permutation_sym, arrange_permutation.
Qed.

(** The entries of [value_counts]: every value that occurs, with the number
    of its occurrences. *)
Lemma in_value_counts {ties : Ties} (v : K) (n : nat) (xs : list K) :
  In (v, n) (value_counts eqb xs) <-> In v xs /\ n = occurrences eqb v xs.
Proof.
  unfold value_counts; rewrite in_sorted, in_arrange, in_map_iff; split.
  - intros (w & E & Hw); injection E as Ev En; subst w n.
    rewrite in_unique in Hw; split; [exact Hw | reflexivity].
  - intros [Hv ->]; exists v; split; [reflexivity |].
    apply in_unique; exact Hv.
Qed.

End Counting.

Section Maximum.
Context {K : Type}.

Lemma max_from_in (e : K * nat) (t : list (K * nat)) :
  In (Python.max_from snd e t) (e :: t).
Proof.
  revert e; induction t as [| x t IH]; intros e; simpl; [auto |].
  destruct (snd e <? snd x)%nat.
  - right; apply IH.
  - destruct (IH e) as [H | H]; [left; exact H | right; right; exact H].
Qed.

Lemma max_from_snd (e : K * nat) (t : list (K * nat)) :
  snd (Python.max_from snd e t) = series_max (e :: t).
Proof.
  unfold series_max; revert e; induction t as [| x t IH]; intros e; simpl.
  - lia.
  - destruct (Nat.ltb_spec (snd e) (snd x)); rewrite IH; simpl; lia.
Qed.

Lemma series_max_bound (s : list (K * nat)) (e : K * nat) :
  In e s -> snd e <= series_max s.
Proof.
  unfold series_max; induction s as [| x s IH]; simpl; [contradiction |].
  intros [-> | H]; [lia | specialize (IH H); lia].
Qed.

Lemma idxmax_some (s : list (K * nat)) (k : K) :
  idxmax s = Some k -> In (k, series_max s) s.
Proof.
  destruct s as [| e t]; simpl; [discriminate |].
  intros H; injection H as <-.
  pose proof (max_from_in e t) as Hin.
  pose proof (max_from_snd e t) as Hmax.
  destruct (Python.max_from snd e t) as [k n]; simpl in *.
  rewrite <- Hmax; exact Hin.
Qed.

Lemma idxmax_none (s : list (K * nat)) : idxmax s = None -> s = [].
Proof. destruct s; simpl; [reflexivity | discriminate]. Qed.

End Maximum.

End SeriesFacts.

(** ** The loop of the Player Tendency Analyzer *)

Module PlayerFacts.

Import PlayerTendencies Spec SeriesFacts.

Lemma dict_get_set {V : Type} (k j : string) (v : V) (d : Python.dict V) :
  Python.dict_get k (Python.dict_set j v d)
  = if String.eqb j k then Some v else Python.dict_get k d.
Proof.
  induction d as [| [k' v'] d IH]; simpl; [reflexivity |].
  destruct (String.eqb_spec k' j) as [-> | Hne]; simpl.
  - destruct (String.eqb j k); reflexivity.
  - rewrite IH.
    destruct (String.eqb_spec k' k) as [-> | Hne']; [| reflexivity].
    destruct (String.eqb_spec j k) as [-> | _]; [contradiction | reflexivity].
Qed.

(** What one iteration reports about the group it is given. *)
Lemma analyze_role_some {ties : Ties} (g : DataFrame) (t : RoleTendency) :
  analyze_role g = Ok (Some t) ->
  let champs := map champion (rows g) in
  In (most_played_champion t) champs /\
  count t = occurrences String.eqb (most_played_champion t) champs /\
  2 <= count t /\
  (forall c, occurrences String.eqb c champs <= count t) /\
  win_rate t
  = mean (map win (filter (fun r => String.eqb (champion r)
                                               (most_played_champion t))
                          (rows g))) /\
  priority t = priority_of (count t) (win_rate t) /\
  action t = action_of (win_rate t).
Proof.
  unfold analyze_role.
  destruct (empty g); [discriminate |].
  unfold getitem at 1 2.
  destruct (has_column "champion" g); cbn [bind]; [| discriminate].
  remember (value_counts String.eqb (map champion (rows g))) as vc eqn:Hvc.
  destruct vc as [| e vc']; [discriminate |].
  remember (filter (fun e0 : string * nat => (2 <=? snd e0)%nat) (e :: vc'))
    as fc eqn:Hfc.
  destruct (idxmax fc) as [k |] eqn:Hk; [| discriminate].
  destruct (getitem "win" win _) as [w |] eqn:Hw; cbn [bind]; [| discriminate].
  intros H; injection H as <-; cbn zeta.
  cbn [most_played_champion count win_rate priority action].
  apply getitem_ok in Hw; destruct Hw as [_ ->].
  rewrite rows_loc_map.
  pose proof (idxmax_some fc k Hk) as Hin.
  assert (Hfilter : forall c n, In (c, n) fc <->
            (In c (map champion (rows g)) /\
             n = occurrences String.eqb c (map champion (rows g))) /\
            2 <= n).
  { intros c n; rewrite Hfc, filter_In, Hvc.
    rewrite (in_value_counts String.eqb String.eqb_eq); cbn [snd].
    rewrite Nat.leb_le; reflexivity. }
  apply Hfilter in Hin; destruct Hin as [[Hkin Hcount] Htwo].
  repeat split; try assumption; try reflexivity.
  intros c.
  destruct (le_lt_dec 2 (occurrences String.eqb c (map champion (rows g))))
    as [Hc | Hc]; [| lia].
  apply (series_max_bound fc (c, _)).
  apply Hfilter; repeat split; [| exact Hc].
  apply (occurrences_pos String.eqb String.eqb_eq); lia.
Qed.

Lemma analyze_role_none {ties : Ties} (g : DataFrame) :
  has_column "champion" g = true ->
  analyze_role g = Ok None ->
  forall c, occurrences String.eqb c (map champion (rows g)) < 2.
Proof.
  intros Hc; unfold analyze_role.
  rewrite (empty_rows "champion" g Hc).
  destruct (rows g) as [| r rs] eqn:Hrows;
    [intros _ c; unfold occurrences; simpl; lia |].
  rewrite <- Hrows.
  unfold getitem at 1 2; rewrite Hc; cbn [bind].
  remember (value_counts String.eqb (map champion (rows g))) as vc eqn:Hvc.
  assert (Hin : forall c, 2 <= occurrences String.eqb c (map champion (rows g))
                  -> In (c, occurrences String.eqb c (map champion (rows g))) vc).
  { intros c Hge; rewrite Hvc.
    apply (in_value_counts String.eqb String.eqb_eq); split; [| reflexivity].
    apply (occurrences_pos String.eqb String.eqb_eq); lia. }
  destruct vc as [| e vc'].
  - intros _ c.
    destruct (le_lt_dec 2 (occurrences String.eqb c (map champion (rows g))))
      as [Hge | Hlt]; [destruct (Hin c Hge) | exact Hlt].
  - remember (filter (fun e0 : string * nat => (2 <=? snd e0)%nat) (e :: vc'))
      as fc eqn:Hfc.
    destruct (idxmax fc) as [k |] eqn:Hk.
    + destruct (getitem "win" win _); cbn [bind]; discriminate.
    + intros _ c.
      destruct (le_lt_dec 2 (occurrences String.eqb c (map champion (rows g))))
        as [Hge | Hlt]; [| exact Hlt].
      apply idxmax_none in Hk.
      assert (Hc' : In (c, occurrences String.eqb c (map champion (rows g))) fc).
      { rewrite Hfc; apply filter_In; split; [apply Hin; exact Hge |].
        apply Nat.leb_le; exact Hge. }
      rewrite Hk in Hc'; destruct Hc'.
Qed.

Lemma analyze_role_total {ties : Ties} (g : DataFrame) :
  has_column "champion" g = true ->
  has_column "win" g = true ->
  exists o, analyze_role g = Ok o.
Proof.
  intros Hc Hw; unfold analyze_role.
  destruct (empty g); [eexists; reflexivity |].
  unfold getitem at 1 2; rewrite Hc; cbn [bind].
  destruct (value_counts String.eqb _); [eexists; reflexivity |].
  destruct (idxmax _); [| eexists; reflexivity].
  rewrite getitem_present by (rewrite has_column_loc; exact Hw).
  eexists; reflexivity.
Qed.

(** The groups of [df.groupby('role')]. *)
Lemma in_groupby_role (df : DataFrame) (k : string) (g : DataFrame) :
  In (k, g) (groupby String.eqb String.leb role df) <->
  In k (map role (rows df)) /\
  g = {| columns := columns df;
         rows := filter (fun r => String.eqb (role r) k) (rows df) |}.
Proof.
  unfold groupby; rewrite in_map_iff; split.
  - intros (j & E & Hj); injection E as Ej Eg; subst j g.
    rewrite in_sorted, (in_unique String.eqb String.eqb_eq) in Hj.
    split; [exact Hj | reflexivity].
  - intros [Hk ->]; exists k; split; [reflexivity |].
    rewrite in_sorted, (in_unique String.eqb String.eqb_eq); exact Hk.
Qed.

(** Every entry of the result was produced by the iteration on a group of
    its role. *)
Lemma role_loop_entry {ties : Ties} (groups : list (string * DataFrame))
    (acc res : Python.dict RoleTendency) (k : string) (t : RoleTendency) :
  role_loop groups acc = Ok res ->
  Python.dict_get k res = Some t ->
  Python.dict_get k acc = Some t \/
  exists g, In (k, g) groups /\ analyze_role g = Ok (Some t).
Proof.
  revert acc; induction groups as [| [j g] groups IH]; intros acc; simpl.
  - intros H; injection H as <-; auto.
  - destruct (analyze_role g) as [[u |] | key] eqn:Hg; cbn [bind];
      [| | discriminate]; intros Hloop Hget;
      destruct (IH _ Hloop Hget) as [Hacc | (g' & Hin & Hg')].
    + rewrite dict_get_set in Hacc.
      destruct (String.eqb_spec j k) as [-> | _]; [| auto].
      injection Hacc as ->; right; exists g; auto.
    + right; exists g'; auto.
    + auto.
    + right; exists g'; auto.
Qed.

Lemma role_loop_absent {ties : Ties} (groups : list (string * DataFrame))
    (acc res : Python.dict RoleTendency) (k : string) :
  role_loop groups acc = Ok res ->
  (forall g, In (k, g) groups -> analyze_role g = Ok None) ->
  Python.dict_get k res = Python.dict_get k acc.
Proof.
  revert acc; induction groups as [| [j g] groups IH]; intros acc; simpl.
  - intros H _; injection H as <-; reflexivity.
  - destruct (analyze_role g) as [[u |] | key] eqn:Hg; cbn [bind];
      [| | discriminate]; intros Hloop Hnone.
    + rewrite (IH _ Hloop) by (intros g' Hin; apply Hnone; auto).
      rewrite dict_get_set.
      destruct (String.eqb_spec j k) as [-> | _]; [| reflexivity].
      rewrite (Hnone g) in Hg by auto; discriminate Hg.
    + apply (IH _ Hloop); intros g' Hin; apply Hnone; auto.
Qed.

Lemma role_loop_present {ties : Ties} (groups : list (string * DataFrame))
    (acc res : Python.dict RoleTendency) (k : string) :
  role_loop groups acc = Ok res ->
  (Python.dict_get k acc <> None \/
   exists g t, In (k, g) groups /\ analyze_role g = Ok (Some t)) ->
  Python.dict_get k res <> None.
Proof.
  revert acc; induction groups as [| [j g] groups IH]; intros acc; simpl.
  - intros H; injection H as <-.
    intros [H | (g & t & [] & _)]; exact H.
  - destruct (analyze_role g) as [[u |] | key] eqn:Hg; cbn [bind];
      [| | discriminate]; intros Hloop Hk; apply (IH _ Hloop).
    + rewrite dict_get_set.
      destruct (String.eqb_spec j k) as [-> | Hne]; [left; discriminate |].
      destruct Hk as [Hk | (g' & t & [E | Hin] & Hg')].
      * left; exact Hk.
      * injection E as ? ?; contradiction.
      * right; exists g', t; auto.
    + destruct Hk as [Hk | (g' & t & [E | Hin] & Hg')].
      * left; exact Hk.
      * injection E as _ ->; rewrite Hg in Hg'; discriminate Hg'.
      * right; exists g', t; auto.
Qed.

Lemma role_loop_total {ties : Ties} (groups : list (string * DataFrame))
    (acc : Python.dict RoleTendency) :
  (forall k g, In (k, g) groups -> exists o, analyze_role g = Ok o) ->
  exists res, role_loop groups acc = Ok res.
Proof.
  revert acc; induction groups as [| [j g] groups IH]; intros acc Hall; simpl.
  - eexists; reflexivity.
  - destruct (Hall j g) as [o Ho]; [left; reflexivity |].
    rewrite Ho; cbn [bind].
    destruct o; apply IH; intros k g' Hin; apply (Hall k g'); right; exact Hin.
Qed.

Lemma analyze_player_tendencies_eq {ties : Ties} (df : DataFrame)
    (roles : option (list string)) :
  has_column "role" df = true ->
  has_column "champion" df = true ->
  analyze_player_tendencies df roles
  = role_loop (groupby String.eqb String.leb role (analyzed_frame df roles)) [].
Proof.
  intros Hr Hc; unfold analyze_player_tendencies, analyzed_frame.
  rewrite Hr, Hc; cbn [negb orb].
  destruct roles as [[| r l] |]; cbn [Python.truthy analyzed_rows bind].
  - destruct df; reflexivity.
  - rewrite getitem_present by exact Hr; cbn [bind].
    unfold isin, loc; rewrite map_map.
    rewrite (select_map (fun o => existsb (String.eqb (role o)) (r :: l))).
    reflexivity.
  - destruct df; reflexivity.
Qed.

End PlayerFacts.

(** ** Claims about the Player Tendency Analyzer *)

Module PlayerClaims.

Import PlayerTendencies Spec SeriesFacts PlayerFacts.

Lemma priority_of_cascade (n : nat) (wr : float) :
  (high_tier n wr -> priority_of n wr = "HIGH") /\
  (~ high_tier n wr -> medium_tier n wr -> priority_of n wr = "MEDIUM") /\
  (~ high_tier n wr -> ~ medium_tier n wr -> priority_of n wr = "LOW").
Proof.
  unfold high_tier, medium_tier, at_least, at_most, priority_of.
  destruct (Nat.leb_spec 3 n); destruct (Nat.leb_spec 2 n);
    destruct (PrimFloat.leb 0.7 wr); destruct (PrimFloat.leb wr 0.3);
    destruct (PrimFloat.leb 0.6 wr); destruct (PrimFloat.leb wr 0.4);
    cbn [andb orb]; repeat split; intros;
    try reflexivity; exfalso; intuition (try lia; try discriminate).
Qed.

Lemma action_of_cascade (wr : float) :
  (at_least 0.6 wr -> action_of wr = "DENY COMFORT PICK") /\
  (~ at_least 0.6 wr -> at_most 0.4 wr ->
   action_of wr = "FORCE LOSING MATCHUP") /\
  (~ at_least 0.6 wr -> ~ at_most 0.4 wr ->
   action_of wr = "IGNORE AND PLAY CROSS-MAP").
Proof.
  unfold at_least, at_most, action_of.
  destruct (PrimFloat.leb 0.6 wr); destruct (PrimFloat.leb wr 0.4);
    repeat split; intros; try reflexivity;
    exfalso; intuition discriminate.
Qed.

(** An entry of the result describes the champion selected in its role. *)
Lemma entry_of_result {ties : Ties}
    (df : DataFrame) (roles : option (list string))
    (res : Python.dict RoleTendency) (r : string) (t : RoleTendency) :
  analyze_player_tendencies df roles = Ok res ->
  Python.dict_get r res = Some t ->
  let rs := analyzed_rows df roles in
  count t = games rs r (most_played_champion t) /\
  2 <= count t /\
  (forall c, games rs r c <= count t) /\
  win_rate t = mean (map win (champion_rows rs r (most_played_champion t))) /\
  priority t = priority_of (count t) (win_rate t) /\
  action t = action_of (win_rate t).
Proof.
  intros Hres Hget; cbn zeta.
  destruct (has_column "role" df) eqn:Hr;
    [destruct (has_column "champion" df) eqn:Hc |].
  - rewrite (analyze_player_tendencies_eq df roles Hr Hc) in Hres.
    destruct (role_loop_entry _ _ _ _ _ Hres Hget) as [F | (g & Hin & Hg)];
      [discriminate F |].
    apply in_groupby_role in Hin; destruct Hin as [_ ->].
    apply analyze_role_some in Hg; cbn zeta in Hg; cbn [rows] in Hg.
    destruct Hg as (_ & Hcount & Htwo & Hmax & Hrate & Hprio & Hact).
    rewrite (occurrences_map String.eqb) in Hcount.
    repeat split; try assumption.
    intros c; specialize (Hmax c).
    rewrite (occurrences_map String.eqb) in Hmax; exact Hmax.
  - unfold analyze_player_tendencies in Hres; rewrite Hr, Hc in Hres.
    injection Hres as <-; discriminate Hget.
  - unfold analyze_player_tendencies in Hres; rewrite Hr in Hres.
    injection Hres as <-; discriminate Hget.
Qed.

(** C2.  For every role present in the analyzer's output, the count and the
    win rate of its entry are those of the selected champion in that role,
    and the tier follows the cascade, first match first: HIGH when the count
    is >= 3 and the win rate is >= 0.70 or <= 0.30; else MEDIUM when the
    count is >= 2 and the win rate is >= 0.60 or <= 0.40; else LOW.  The
    action is "DENY COMFORT PICK" when the win rate is >= 0.60, else
    "FORCE LOSING MATCHUP" when it is <= 0.40, else
    "IGNORE AND PLAY CROSS-MAP". *)
Theorem priority_cascade {ties : Ties}
    (df : DataFrame) (roles : option (list string))
    (res : Python.dict RoleTendency) (r : string) (t : RoleTendency) :
  analyze_player_tendencies df roles = Ok res ->
  Python.dict_get r res = Some t ->
  let selected :=
    champion_rows (analyzed_rows df roles) r (most_played_champion t) in
  count t = List.length selected /\
  win_rate t = mean (map win selected) /\
  (high_tier (count t) (win_rate t) -> priority t = "HIGH") /\
  (~ high_tier (count t) (win_rate t) ->
   medium_tier (count t) (win_rate t) -> priority t = "MEDIUM") /\
  (~ high_tier (count t) (win_rate t) ->
   ~ medium_tier (count t) (win_rate t) -> priority t = "LOW") /\
  (at_least 0.6 (win_rate t) -> action t = "DENY COMFORT PICK") /\
  (~ at_least 0.6 (win_rate t) -> at_most 0.4 (win_rate t) ->
   action t = "FORCE LOSING MATCHUP") /\
  (~ at_least 0.6 (win_rate t) -> ~ at_most 0.4 (win_rate t) ->
   action t = "IGNORE AND PLAY CROSS-MAP").
Proof.
  intros Hres Hget; cbn zeta.
  destruct (entry_of_result df roles res r t Hres Hget)
    as (Hcount & _ & _ & Hrate & Hprio & Hact).
  destruct (priority_of_cascade (count t) (win_rate t)) as (P1 & P2 & P3).
  destruct (action_of_cascade (win_rate t)) as (A1 & A2 & A3).
  rewrite Hprio, Hact.
  split; [exact Hcount |]; split; [exact Hrate |].
  repeat split; assumption.
Qed.

Lemma priority_cascade_witness :
  analyze_player_tendencies (ties := stable_ties) Samples.top_lane_frame None
  = Ok [("TOP", Samples.top_lane_tendency)] /\
  count Samples.top_lane_tendency = 3 /\
  win_rate Samples.top_lane_tendency = 1%float /\
  priority Samples.top_lane_tendency = "HIGH" /\
  action Samples.top_lane_tendency = "DENY COMFORT PICK".
Proof.
  assert (H1 : analyze_player_tendencies (ties := stable_ties)
      Samples.top_lane_frame None
               = Ok [("TOP", Samples.top_lane_tendency)])
    by (vm_compute; reflexivity).
  assert (H2 : Python.dict_get "TOP" [("TOP", Samples.top_lane_tendency)]
               = Some Samples.top_lane_tendency) by reflexivity.
  destruct (priority_cascade _ _ _ _ _ H1 H2)
    as (Hcount & Hrate & Hhigh & _ & _ & Hdeny & _).
  split; [exact H1 |].
  split; [exact Hcount |].
  split; [rewrite Hrate; vm_compute; reflexivity |].
  split.
  - apply Hhigh; split; [cbn; lia | left; vm_compute; reflexivity].
  - apply Hdeny; vm_compute; reflexivity.
Defined.

Lemma games_role_present (rs : list Observation) (r c : string) :
  0 < games rs r c -> In r (map role rs).
Proof.
  unfold games, champion_rows; intros H.
  destruct (filter _ (filter _ rs)) as [| o l] eqn:E; [simpl in H; lia |].
  assert (Ho : In o (filter (fun o => String.eqb (champion o) c)
                       (filter (fun o => String.eqb (role o) r) rs)))
    by (rewrite E; left; reflexivity).
  rewrite !filter_In in Ho; destruct Ho as [[Hin Hr] _].
  apply String.eqb_eq in Hr; subst r.
  apply in_map; exact Hin.
Qed.

(** The iteration on the group of role [r]. *)
Lemma group_iteration (df : DataFrame) (roles : option (list string))
    (r : string) (g : DataFrame) :
  has_column "champion" df = true ->
  In (r, g) (groupby String.eqb String.leb role (analyzed_frame df roles)) ->
  has_column "champion" g = true /\
  forall c, occurrences String.eqb c (map champion (rows g))
            = games (analyzed_rows df roles) r c.
Proof.
  intros Hc Hin.
  apply in_groupby_role in Hin; destruct Hin as [_ ->].
  split; [exact Hc |].
  intros c; rewrite (occurrences_map String.eqb); reflexivity.
Qed.

(** C9.  Whenever the [win] column is present the analyzer returns a
    mapping, and in it: every entry has a game count of at least 2, which is
    the number of games of its champion in its role and is not exceeded by
    any other champion of the role; a role in which every champion has
    fewer than 2 games has no entry; and, when the [role] and [champion]
    columns are present, a role has no entry only in that case. *)
Theorem low_sample_roles_omitted {ties : Ties} (df : DataFrame)
    (roles : option (list string)) :
  has_column "win" df = true ->
  let rs := analyzed_rows df roles in
  exists res,
    analyze_player_tendencies df roles = Ok res /\
    (forall r t, Python.dict_get r res = Some t ->
       2 <= count t /\
       count t = games rs r (most_played_champion t) /\
       forall c, games rs r c <= count t) /\
    (forall r, (forall c, games rs r c < 2) ->
       Python.dict_get r res = None) /\
    (has_column "role" df = true -> has_column "champion" df = true ->
     forall r, Python.dict_get r res = None -> forall c, games rs r c < 2).
Proof.
  intros Hw; cbn zeta.
  assert (Hentries : forall res, analyze_player_tendencies df roles = Ok res ->
            forall r t, Python.dict_get r res = Some t ->
              2 <= count t /\
              count t = games (analyzed_rows df roles) r
                              (most_played_champion t) /\
              forall c, games (analyzed_rows df roles) r c <= count t).
  { intros res Hres r t Hget.
    destruct (entry_of_result df roles res r t Hres Hget)
      as (Hcount & Htwo & Hmax & _); auto. }
  destruct (has_column "role" df) eqn:Hr;
    [destruct (has_column "champion" df) eqn:Hc |].
  - assert (Htotal : forall k g,
              In (k, g) (groupby String.eqb String.leb role
                                 (analyzed_frame df roles)) ->
              exists o, analyze_role g = Ok o).
    { intros k g Hin.
      apply in_groupby_role in Hin; destruct Hin as [_ ->].
      apply analyze_role_total; assumption. }
    destruct (role_loop_total _ [] Htotal) as [res Hloop].
    pose proof (analyze_player_tendencies_eq df roles Hr Hc) as Heq.
    exists res; split; [rewrite Heq; exact Hloop |].
    split; [apply Hentries; rewrite Heq; exact Hloop |].
    split.
    + intros r Hlow.
      rewrite (role_loop_absent _ _ _ r Hloop); [reflexivity |].
      intros g Hin.
      destruct (Htotal r g Hin) as [[t |] Ho]; [| exact Ho].
      exfalso.
      destruct (group_iteration df roles r g Hc Hin) as [_ Hocc].
      apply analyze_role_some in Ho; cbn zeta in Ho.
      destruct Ho as (_ & Hcount & Htwo & _).
      rewrite Hocc in Hcount.
      specialize (Hlow (most_played_champion t)); lia.
    + intros _ _ r Hnone c.
      destruct (le_lt_dec 2 (games (analyzed_rows df roles) r c))
        as [Hge | Hlt]; [exfalso | exact Hlt].
      assert (Hin : In (r, {| columns := columns df;
                              rows := filter (fun o => String.eqb (role o) r)
                                             (analyzed_rows df roles) |})
                       (groupby String.eqb String.leb role
                                (analyzed_frame df roles))).
      { apply in_groupby_role; split; [| reflexivity].
        apply (games_role_present (analyzed_rows df roles) r c); lia. }
      destruct (Htotal _ _ Hin) as [[t |] Ho].
      * apply (role_loop_present _ _ _ r Hloop); [| exact Hnone].
        right; eexists _, t; split; [exact Hin | exact Ho].
      * destruct (group_iteration df roles r _ Hc Hin) as [Hc' Hocc].
        pose proof (analyze_role_none _ Hc' Ho c) as Hlow.
        rewrite Hocc in Hlow; lia.
  - exists []; unfold analyze_player_tendencies; rewrite Hr, Hc.
    repeat split; try discriminate.
  - exists []; unfold analyze_player_tendencies; rewrite Hr.
    repeat split; try discriminate.
Qed.

Lemma low_sample_roles_omitted_witness :
  has_column "win" Samples.top_lane_frame = true /\
  exists res,
    analyze_player_tendencies (ties := stable_ties)
        Samples.top_lane_frame None = Ok res /\
    Python.dict_get "MID" res = None /\
    (forall t, Python.dict_get "TOP" res = Some t -> 2 <= count t).
Proof.
  assert (H : has_column "win" Samples.top_lane_frame = true) by reflexivity.
  split; [exact H |].
  destruct (low_sample_roles_omitted (ties := stable_ties)
      Samples.top_lane_frame None H)
    as (res & Hres & Hentries & Habsent & _).
  exists res; split; [exact Hres |]; split.
  - apply Habsent; intros c.
    unfold games, champion_rows.
    replace (filter (fun o => String.eqb (role o) "MID")
                    (analyzed_rows Samples.top_lane_frame None))
      with [Samples.pick "G1" "MID" "Sylas" true;
            Samples.pick "G2" "MID" "Azir" true] by reflexivity.
    cbn -[String.eqb].
    destruct (String.eqb_spec "Sylas" c) as [<- | _];
      [| destruct (String.eqb "Azir" c)]; simpl; lia.
  - intros t Ht; apply (Hentries "TOP" t Ht).
Defined.

End PlayerClaims.

(** ** Order facts: strings, stable ranking *)

Module OrderFacts.

Import SeriesFacts Spec.

Lemma ascii_compare_trans_le (a b c : ascii) :
  Ascii.compare a b <> Gt -> Ascii.compare b c <> Gt ->
  Ascii.compare a c <> Gt /\
  (Ascii.compare a c = Eq ->
   Ascii.compare a b = Eq /\ Ascii.compare b c = Eq).
Proof.
  unfold Ascii.compare.
  destruct (N.compare_spec (N_of_ascii a) (N_of_ascii b));
    destruct (N.compare_spec (N_of_ascii b) (N_of_ascii c));
    destruct (N.compare_spec (N_of_ascii a) (N_of_ascii c));
    intros; split; intros; try congruence; try lia; auto.
Qed.

Lemma string_leb_trans (a b c : string) :
  String.leb a b = true -> String.leb b c = true -> String.leb a c = true.
Proof.
  unfold String.leb; revert b c.
  induction a as [| x a IH]; intros [| y b] [| z c]; simpl;
    try reflexivity; try discriminate.
  intros Hab Hbc.
  destruct (ascii_compare_trans_le x y z) as [Hle Heq].
  - destruct (Ascii.compare x y); congruence.
  - destruct (Ascii.compare y z); congruence.
  - destruct (Ascii.compare x z) eqn:E; [| reflexivity | congruence].
    destruct (Heq eq_refl) as [E1 E2]; rewrite E1 in Hab; rewrite E2 in Hbc.
    apply (IH b c); assumption.
Qed.

(** [sorted] on strings returns a list in lexicographic order. *)
Lemma sorted_strings (l : list string) :
  StronglySorted string_le (Python.sorted String.leb l).
Proof.
  induction l as [| x l IH]; simpl; [constructor |].
  apply insert_sorted_ordered; unfold string_le.
  - intros y _ H; exact H.
  - intros y _ H.
    destruct (String.leb_total x y) as [H' | H']; [congruence | exact H'].
  - intros y z _ _; apply string_leb_trans.
  - exact IH.
Qed.

Lemma strongly_sorted_impl_in {A : Type} (R R' : A -> A -> Prop) (l : list A) :
  (forall a b, In a l -> In b l -> R a b -> R' a b) ->
  StronglySorted R l -> StronglySorted R' l.
Proof.
  intros Himp Hs; induction Hs as [| x l Hs IH Hx]; constructor.
  - apply IH; intros a b Ha Hb; apply Himp; right; assumption.
  - rewrite Forall_forall in Hx |- *; intros y Hy.
    apply Himp; [left; reflexivity | right; exact Hy | apply Hx; exact Hy].
Qed.

Lemma strongly_sorted_filter {A : Type} (R : A -> A -> Prop) (p : A -> bool)
    (l : list A) :
  StronglySorted R l -> StronglySorted R (filter p l).
Proof.
  induction 1 as [| x l Hs IH Hx]; simpl; [constructor |].
  destruct (p x); [| exact IH].
  constructor; [exact IH |].
  rewrite Forall_forall in Hx |- *; intros y Hy.
  apply filter_In in Hy; apply Hx; tauto.
Qed.

Lemma strongly_sorted_map {A B : Type} (R : B -> B -> Prop) (f : A -> B)
    (l : list A) :
  StronglySorted (fun a b => R (f a) (f b)) l -> StronglySorted R (map f l).
Proof.
  induction 1 as [| x l Hs IH Hx]; simpl; constructor; [exact IH |].
  rewrite Forall_forall in Hx |- *; intros y Hy.
  apply in_map_iff in Hy; destruct Hy as (a & <- & Ha); apply Hx; exact Ha.
Qed.

Lemma strongly_sorted_firstn {A : Type} (R : A -> A -> Prop) (n : nat)
    (l : list A) :
  StronglySorted R l -> StronglySorted R (firstn n l).
Proof.
  intros Hs; revert n; induction Hs as [| x l Hs IH Hx]; intros [| n]; simpl;
    try constructor.
  - apply IH.
  - rewrite Forall_forall in Hx |- *; intros y Hy.
    apply Hx; rewrite <- (firstn_skipn n l).
    apply in_or_app; left; exact Hy.
Qed.

Section Stable.
Context {K : Type}.
Variable eqb : K -> K -> bool.
Hypothesis eqb_eq : forall x y, eqb x y = true <-> x = y.

(** The distinct values are listed by increasing first position. *)
Lemma unique_by_first_index (xs : list K) :
  StronglySorted
    (fun a b => first_index eqb a xs < first_index eqb b xs) (unique eqb xs).
Proof.
  induction xs as [| x xs IH]; simpl; [constructor |].
  assert (Hother : forall y, In y (filter (fun y => negb (eqb y x))
                                          (unique eqb xs)) ->
                    eqb x y = false).
  { intros y Hy; apply filter_In in Hy; destruct Hy as [_ Hy].
    destruct (eqb x y) eqn:E; [| reflexivity].
    apply eqb_eq in E; subst y.
    rewrite (eqb_refl eqb eqb_eq) in Hy; discriminate Hy. }
  constructor.
  - apply (strongly_sorted_impl_in
             (fun a b => first_index eqb a xs < first_index eqb b xs)).
    + intros a b Ha Hb Hab.
      rewrite (Hother a Ha), (Hother b Hb); lia.
    + apply strongly_sorted_filter; exact IH.
  - rewrite Forall_forall; intros y Hy.
    rewrite (eqb_refl eqb eqb_eq), (Hother y Hy); lia.
Qed.

(** The stable descending sort ranks a table that is listed by first
    position. *)
Lemma sorted_ranked (xs : list K) (table : list (K * nat)) :
  StronglySorted
    (fun a b => first_index eqb (fst a) xs < first_index eqb (fst b) xs)
    table ->
  StronglySorted (ranked_before eqb xs)
                 (Python.sorted (count_desc (K := K)) table).
Proof.
  induction 1 as [| x t Hs IH Hx]; simpl; [constructor |].
  rewrite Forall_forall in Hx.
  apply insert_sorted_ordered; unfold ranked_before, count_desc.
  - intros y Hy Hle; apply in_sorted in Hy.
    apply Nat.leb_le in Hle; specialize (Hx y Hy); lia.
  - intros y _ Hgt; apply Nat.leb_gt in Hgt; lia.
  - intros y z _ _; lia.
  - exact IH.
Qed.

(** With a sort that leaves equal counts in place, the frequency table is
    ranked, ties in order of first appearance. *)
Lemma value_counts_ranked (xs : list K) :
  StronglySorted (ranked_before eqb xs)
                 (value_counts (ties := stable_ties) eqb xs).
Proof.
  unfold value_counts, arrange, stable_ties; apply sorted_ranked.
  apply strongly_sorted_map; cbn [fst].
  apply unique_by_first_index.
Qed.



End Stable.


End OrderFacts.

(** ** Claims about the Composition Analyzer *)

Module CompositionClaims.

Import Compositions Spec SeriesFacts OrderFacts.

Lemma tuple_eqb_eq (a b : list string) : tuple_eqb a b = true <-> a = b.
Proof.
  revert b; induction a as [| x a IH]; intros [| y b]; simpl;
    try (split; [reflexivity || discriminate | reflexivity || discriminate]).
  rewrite andb_true_iff, String.eqb_eq, IH; split.
  - intros [-> ->]; reflexivity.
  - intros E; injection E as -> ->; auto.
Qed.

(** The loop over the champions adds, for each archetype, the number of
    champions carrying its tag. *)
Lemma tally_from (comp : list string) (counts : Archetype -> nat)
    (a : Archetype) :
  fold_left
    (fun counts champ =>
       match Python.dict_get champ champion_tags with
       | Some tag => increment tag counts
       | None => counts
       end)
    comp counts a
  = counts a + tagged a comp.
Proof.
  unfold tagged; revert counts; induction comp as [| c comp IH];
    intros counts; cbn [fold_left filter]; [cbn [List.length]; lia |].
  rewrite IH.
  destruct (Python.dict_get c champion_tags) as [tag |]; [| reflexivity].
  unfold increment.
  replace (archetype_eqb tag a) with (archetype_eqb a tag)
    by (destruct a, tag; reflexivity).
  destruct (archetype_eqb a tag); cbn [List.length]; lia.
Qed.

Lemma tally_tagged (comp : list string) (a : Archetype) :
  tally comp a = tagged a comp.
Proof. unfold tally; rewrite tally_from; reflexivity. Qed.

(** [max] over the four keys returns the first key that holds the highest
    count. *)
Lemma max_from_keys (counts : Archetype -> nat) :
  let m := Python.max_from counts skirmish [protect; engage; scaling] in
  In m counts_keys /\
  counts m = Nat.max (counts skirmish)
               (Nat.max (counts protect)
                  (Nat.max (counts engage) (counts scaling))) /\
  forall b, rank b < rank m -> counts b < counts m.
Proof.
  cbn zeta; unfold counts_keys; simpl.
  repeat match goal with
         | |- context [(?x <? ?y)%nat] => destruct (Nat.ltb_spec x y)
         end;
    (split; [simpl; auto |]); (split; [lia |]);
    intros b; destruct b; simpl; lia.
Qed.

(** C5.  For every composition, the classification counts the tagged
    champions per archetype, a champion without a tag adding to no count;
    when the highest of the four counts is below 2 the composition is
    STANDARD; otherwise it is the archetype holding the highest count, and
    among several holding it the first in the order skirmish, protect,
    engage, scaling. *)
Theorem composition_archetype (comp : list string) :
  (forall a, tally comp a = tagged a comp) /\
  (forall champ a,
     Python.dict_get champ champion_tags = None ->
     tally (comp ++ [champ]) a = tally comp a) /\
  (highest_count comp < 2 ->
   primary_style comp = standard /\
   classify_team_composition comp = archetypes standard) /\
  (2 <= highest_count comp ->
   exists a,
     In a [skirmish; protect; engage; scaling] /\
     primary_style comp = a /\
     classify_team_composition comp = archetypes a /\
     tagged a comp = highest_count comp /\
     forall b, rank b < rank a -> tagged b comp < tagged a comp).
Proof.
  pose proof (max_from_keys (tally comp)) as Hmax; cbn zeta in Hmax.
  destruct Hmax as (Hin & Htop & Hfirst).
  assert (Htop' : tally comp (Python.max_from (tally comp) skirmish
                                [protect; engage; scaling])
                  = highest_count comp)
    by (rewrite Htop, !tally_tagged; reflexivity).
  clear Htop.
  split; [apply tally_tagged |].
  split.
  { intros champ a Hnone; rewrite !tally_tagged; unfold tagged.
    rewrite filter_app, length_app; cbn [filter]; rewrite Hnone.
    cbn [List.length]; lia. }
  unfold classify_team_composition, primary_style; cbn zeta.
  rewrite Htop'; split.
  - intros Hlow.
    destruct (Nat.ltb_spec (highest_count comp) 2); [| lia].
    split; reflexivity.
  - intros Hhigh.
    destruct (Nat.ltb_spec (highest_count comp) 2); [lia |].
    eexists; split; [exact Hin |].
    split; [reflexivity |]; split; [reflexivity |].
    rewrite <- tally_tagged; split; [exact Htop' |].
    intros b Hb; rewrite <- (tally_tagged comp b); apply Hfirst; exact Hb.
Qed.

Lemma composition_archetype_witness :
  highest_count ["Darius"; "Garen"] < 2 /\
  classify_team_composition ["Darius"; "Garen"] = archetypes standard /\
  2 <= highest_count ["Janna"; "Lee Sin"; "Lulu"; "Renekton"; "Zed"] /\
  primary_style ["Janna"; "Lee Sin"; "Lulu"; "Renekton"; "Zed"] = skirmish.
Proof.
  assert (Hlow : highest_count ["Darius"; "Garen"] < 2)
    by (vm_compute; lia).
  assert (Hhigh : 2 <= highest_count
                         ["Janna"; "Lee Sin"; "Lulu"; "Renekton"; "Zed"])
    by (vm_compute; lia).
  destruct (composition_archetype ["Darius"; "Garen"])
    as (_ & _ & Hstandard & _).
  destruct (composition_archetype
              ["Janna"; "Lee Sin"; "Lulu"; "Renekton"; "Zed"])
    as (_ & _ & _ & Hstyle).
  destruct (Hstyle Hhigh) as (a & Hin & Hprimary & _ & _ & Hfirst).
  split; [exact Hlow |].
  split; [apply (Hstandard Hlow) |].
  split; [exact Hhigh |].
  rewrite Hprimary.
  destruct Hin as [<- | [<- | [<- | [<- | []]]]]; [reflexivity | | |];
    exfalso; specialize (Hfirst skirmish); vm_compute in Hfirst; lia.
Defined.

(** A tie between two archetypes goes to the one declared first. *)
Example tie_goes_to_skirmish :
  category (classify_team_composition
              ["Janna"; "Lee Sin"; "Lulu"; "Renekton"; "Zed"])
  = "EARLY SKIRMISH".
Proof. vm_compute; reflexivity. Qed.



(** The outcomes of the grouping. *)
Lemma grouped_compositions_cases (df : DataFrame) :
  match grouped_compositions df with
  | Ok series =>
      (has_column "match_id" df = true /\ has_column "team_id" df = true /\
       series = composition_series df) \/
      ((has_column "match_id" df = false \/ has_column "team_id" df = false) /\
       exists r1 r2, rows df = [r1; r2] /\
                     series = [[champion r1]; [champion r2]])
  | KeyError key =>
      has_column key df = false /\
      (key = "match_id" \/ key = "team_id") /\
      List.length (rows df) <> 2
  end.
Proof.
  unfold grouped_compositions.
  destruct (has_column "match_id" df) eqn:Hm;
    [destruct (has_column "team_id" df) eqn:Ht |]; cbn [andb].
  - left; auto.
  - destruct (rows df) as [| r1 [| r2 [| r3 rs]]]; cbn [List.length];
      try (split; [exact Ht |]; split; [right; reflexivity | lia]).
    right; split; [right; reflexivity |].
    exists r1, r2; split; reflexivity.
  - destruct (rows df) as [| r1 [| r2 [| r3 rs]]]; cbn [List.length];
      try (split; [exact Hm |]; split; [left; reflexivity | lia]).
    right; split; [left; reflexivity |].
    exists r1, r2; split; reflexivity.
Qed.





(** With a sort that leaves equal counts in place, compositions with equal
    counts are listed in the order in which they are first met among the
    groups, as the specification has it. *)
Lemma stable_composition_ranking (df : DataFrame) (report : Report) :
  has_column "match_id" df = true ->
  has_column "team_id" df = true ->
  analyze_compositions (ties := stable_ties) df = Ok report ->
  StronglySorted
    (fun a b =>
       count a = count b ->
       first_index tuple_eqb (composition a) (composition_series df)
       < first_index tuple_eqb (composition b) (composition_series df))
    (common_compositions report).
Proof.
  intros Hm Ht; unfold analyze_compositions, grouped_compositions.
  rewrite Hm, Ht; cbn [andb bind].
  remember (firstn 5 (value_counts (ties := stable_ties) tuple_eqb
                        (composition_series df))) as top eqn:Htop.
  destruct (has_column "champion" df); cbn [negb];
    intros [= <-]; cbn [common_compositions]; [| constructor].
  apply strongly_sorted_map; cbn [composition count].
  rewrite Htop; apply strongly_sorted_firstn.
  generalize (value_counts_ranked tuple_eqb tuple_eqb_eq
                (composition_series df)).
  apply strongly_sorted_impl_in.
  unfold ranked_before; intros a b _ _; lia.
Qed.

(** The specification's example: one team that picked Garen and Darius. *)
Example garen_darius_composition :
  analyze_compositions (ties := stable_ties)
    (mkDataFrame Samples.all_columns
       [Samples.pick "G1" "TOP" "Garen" true;
        Samples.pick "G1" "MID" "Darius" true])
  = Ok {| common_compositions :=
            [ {| composition := ["Darius"; "Garen"];
                 count := 1;
                 classification := archetypes standard |} ] |}.
Proof. vm_compute; reflexivity. Qed.

End CompositionClaims.

(** ** Claims about missing fields *)

Module DegradationClaims.

Import TeamTendencies PlayerTendencies HowToWin Compositions Spec.

(** C8, as stated, fails on the code: the Composition Analyzer looks for the
    [champion] column only.  On a frame that lacks the [role] column and has
    the [champion], [match_id] and [team_id] columns it returns the
    compositions found, here one entry, not an empty list. *)
Lemma role_absent_counterexample :
  has_column "role" Samples.no_role_frame = false /\
  (forall ties : Ties,
     analyze_compositions (ties := ties) Samples.no_role_frame
     = Ok {| common_compositions :=
               [ {| composition := ["Garen"];
                    count := 1;
                    classification := archetypes standard |} ] |}) /\
  (forall ties : Ties,
     ~ (has_column "role" Samples.no_role_frame = false \/
        has_column "champion" Samples.no_role_frame = false ->
        analyze_compositions (ties := ties) Samples.no_role_frame
        = Ok {| common_compositions := [] |})).
Proof.
  split; [reflexivity |].
  assert (H : forall ties : Ties,
            analyze_compositions (ties := ties) Samples.no_role_frame
            = Ok {| common_compositions :=
                      [ {| composition := ["Garen"];
                           count := 1;
                           classification := archetypes standard |} ] |}).
  { intros ties; unfold analyze_compositions.
    change (has_column "champion" Samples.no_role_frame) with true.
    change (grouped_compositions Samples.no_role_frame)
      with (Ok (A := list (list string)) [["Garen"]]).
    cbn [negb bind]; unfold value_counts.
    change (map (fun v => (v, occurrences tuple_eqb v [["Garen"]]))
                (unique tuple_eqb [["Garen"]]))
      with [(["Garen"], 1)].
    rewrite SeriesFacts.arrange_one; vm_compute; reflexivity. }
  split; [exact H |].
  intros ties Hclaim; rewrite H in Hclaim.
  specialize (Hclaim (or_introl eq_refl)); discriminate Hclaim.
Qed.

(** C8, amended.  On every frame that lacks the [champion] column, the
    Player Tendency Analyzer returns an empty mapping and the Composition
    Analyzer an empty list, neither raising an error; on every frame that
    lacks the [role] column the Player Tendency Analyzer returns an empty
    mapping; and on any frame that has the fields [first_dragon],
    [first_tower], [game_duration] and [win], the Team Tendency Analyzer and
    the Insight Synthesizer succeed. *)
Theorem missing_fields_degrade {ties : Ties} (df : DataFrame)
    (roles : option (list string)) :
  (has_column "champion" df = false ->
   analyze_player_tendencies df roles = Ok [] /\
   analyze_compositions df = Ok {| common_compositions := [] |}) /\
  (has_column "role" df = false ->
   analyze_player_tendencies df roles = Ok []) /\
  (has_required_fields df ->
   (exists t, analyze_team_tendencies df = Ok t) /\
   (exists insights, generate_how_to_win_insights df = Ok insights)).
Proof.
  split; [| split].
  - intros Hc; unfold analyze_player_tendencies, analyze_compositions.
    rewrite Hc; cbn [negb]; rewrite orb_true_r; split; reflexivity.
  - intros Hr; unfold analyze_player_tendencies.
    rewrite Hr; reflexivity.
  - intros H; split.
    + rewrite (TempoFacts.analyze_team_tendencies_eq df H).
      eexists; reflexivity.
    + rewrite (TempoClaims.generate_eq df H).
      eexists; reflexivity.
Qed.

Lemma missing_fields_degrade_witness :
  has_column "champion" Samples.match_level_frame = false /\
  has_column "role" Samples.match_level_frame = false /\
  has_required_fields Samples.match_level_frame /\
  analyze_player_tendencies (ties := stable_ties)
      Samples.match_level_frame None = Ok [] /\
  analyze_compositions (ties := stable_ties) Samples.match_level_frame
  = Ok {| common_compositions := [] |} /\
  (exists t, analyze_team_tendencies Samples.match_level_frame = Ok t) /\
  (exists insights,
     generate_how_to_win_insights Samples.match_level_frame = Ok insights).
Proof.
  assert (Hc : has_column "champion" Samples.match_level_frame = false)
    by reflexivity.
  assert (Hr : has_column "role" Samples.match_level_frame = false)
    by reflexivity.
  assert (H : has_required_fields Samples.match_level_frame)
    by (repeat split; reflexivity).
  destruct (missing_fields_degrade (ties := stable_ties)
      Samples.match_level_frame None)
    as (Hchamp & _ & Hreq).
  destruct (Hchamp Hc) as [Hplayer Hcomp].
  destruct (Hreq H) as [Hteam Hwin].
  repeat split; assumption.
Defined.

End DegradationClaims.

(** ** Outcomes of the two tempo analyzers on any frame *)

Module TempoOutcomes.

Import TeamTendencies HowToWin Spec Terms TempoFacts.

Lemma no_partition_no_rows (df : DataFrame) :
  early_rows df = [] -> late_rows df = [] -> rows df = [].
Proof.
  unfold early_rows, late_rows.
  destruct (rows df) as [| r rs]; [reflexivity |]; simpl.
  destruct (early_or_late r) as [[E L] | [E L]]; rewrite E, L; discriminate.
Qed.

(** The partition rate when the [win] column is missing: only an empty
    partition has one. *)
Lemma partition_rate_no_win (df : DataFrame) (p : Z -> bool) (name : string) :
  has_column name df = true ->
  has_column "win" df = false ->
  (if negb (empty (loc df (map p (map game_duration (rows df))))) then
     w <- getitem "win" win (loc df (map p (map game_duration (rows df)))) ;;
     Ok (mean w)
   else Ok 0%float)
  = match filter (fun r => p (game_duration r)) (rows df) with
    | [] => Ok 0%float
    | _ :: _ => KeyError "win"
    end.
Proof.
  intros Hn Hw.
  rewrite (empty_rows name) by (rewrite has_column_loc; exact Hn).
  rewrite rows_loc_map.
  destruct (filter _ (rows df)); [reflexivity |]; cbn [negb].
  unfold getitem; rewrite has_column_loc, Hw; reflexivity.
Qed.

(** The value of [analyze_team_tendencies] on every frame. *)
Lemma analyze_team_tendencies_cases (df : DataFrame) :
  analyze_team_tendencies df
  = if negb (has_column "first_dragon" df) then KeyError "first_dragon"
    else if negb (has_column "first_tower" df) then KeyError "first_tower"
    else if negb (has_column "game_duration" df) then KeyError "game_duration"
    else if has_column "win" df
            || match rows df with [] => true | _ :: _ => false end
    then Ok {| first_dragon_rate := mean (map first_dragon (rows df));
               first_tower_rate := mean (map first_tower (rows df));
               early_game_win_rate := partition_win_rate (early_rows df);
               late_game_win_rate := partition_win_rate (late_rows df);
               win_tendency :=
                 if PrimFloat.ltb (partition_win_rate (late_rows df))
                                  (partition_win_rate (early_rows df))
                 then "early" else "late" |}
    else KeyError "win".
Proof.
  destruct (has_column "first_dragon" df) eqn:Hd; cbn [negb];
    [| unfold analyze_team_tendencies, getitem; rewrite Hd; reflexivity].
  destruct (has_column "first_tower" df) eqn:Ht; cbn [negb];
    [| unfold analyze_team_tendencies, getitem; rewrite Hd, Ht; reflexivity].
  destruct (has_column "game_duration" df) eqn:Hg; cbn [negb];
    [| unfold analyze_team_tendencies, getitem; rewrite Hd, Ht, Hg;
       reflexivity].
  destruct (has_column "win" df) eqn:Hw; cbn [orb].
  - apply analyze_team_tendencies_eq; repeat split; assumption.
  - unfold analyze_team_tendencies, masked_win_rate.
    rewrite !getitem_present by assumption; cbn [bind].
    rewrite (partition_rate_no_win df (fun d => d <? 1800)%Z _ Hd Hw).
    rewrite (partition_rate_no_win df (fun d => d >=? 1800)%Z _ Hd Hw).
    rewrite late_mask.
    fold (early_rows df); fold (late_rows df).
    destruct (early_rows df) as [| r rs] eqn:He; cbn [bind].
    + destruct (late_rows df) as [| r rs] eqn:Hl; cbn [bind].
      * rewrite (no_partition_no_rows df He Hl); reflexivity.
      * destruct (rows df) eqn:Hrows; [| reflexivity].
        unfold late_rows in Hl; rewrite Hrows in Hl; discriminate Hl.
    + destruct (rows df) eqn:Hrows; [| reflexivity].
      unfold early_rows in He; rewrite Hrows in He; discriminate He.
Qed.

(** The value of [generate_how_to_win_insights] on every frame. *)
Lemma generate_cases (df : DataFrame) :
  generate_how_to_win_insights df
  = if negb (has_column "first_dragon" df) then KeyError "first_dragon"
    else if negb (has_column "game_duration" df) then KeyError "game_duration"
    else if negb (has_column "win" df) then KeyError "win"
    else if negb (has_column "first_tower" df) then KeyError "first_tower"
    else
      let dragon := mean (map first_dragon (rows df)) in
      let tower := mean (map first_tower (rows df)) in
      let early := partition_win_rate (early_rows df) in
      let late := partition_win_rate (late_rows df) in
      Ok [ if PrimFloat.ltb dragon 0.4 then force_dragon dragon
           else if PrimFloat.ltb (late + 0.15)%float early
                then stall_for_late early late
                else press_the_advantage (mean (map win (rows df)));
           if PrimFloat.ltb tower 0.5 then crash_waves tower
           else if PrimFloat.ltb (early + 0.1)%float late
                then invade_early late early
                else control_vision;
           bait_baron ].
Proof.
  destruct (has_column "first_dragon" df) eqn:Hd; cbn [negb];
    [| unfold generate_how_to_win_insights, rates, getitem; rewrite Hd;
       reflexivity].
  destruct (has_column "game_duration" df) eqn:Hg; cbn [negb];
    [| unfold generate_how_to_win_insights, rates, getitem; rewrite Hd, Hg;
       reflexivity].
  destruct (has_column "win" df) eqn:Hw; cbn [negb].
  - destruct (has_column "first_tower" df) eqn:Ht; cbn [negb].
    + apply TempoClaims.generate_eq; repeat split; assumption.
    + unfold generate_how_to_win_insights.
      rewrite (rates_eq df Hd Hg Hw); cbn [bind].
      destruct (PrimFloat.ltb (mean (map first_dragon (rows df))) 0.4);
        [| destruct (PrimFloat.ltb _ (partition_win_rate (early_rows df)))];
        rewrite ?getitem_present by assumption; cbn [bind];
        unfold getitem; rewrite Ht; reflexivity.
  - unfold generate_how_to_win_insights, rates.
    rewrite !getitem_present by assumption; cbn [bind].
    rewrite (partition_rate_no_win df (fun d => d <? 1800)%Z _ Hd Hw).
    rewrite (partition_rate_no_win df (fun d => d >=? 1800)%Z _ Hd Hw).
    rewrite late_mask.
    fold (early_rows df); fold (late_rows df).
    destruct (early_rows df) as [| r rs] eqn:He; cbn [bind];
      [| reflexivity].
    destruct (late_rows df) as [| r rs] eqn:Hl; cbn [bind];
      [| reflexivity].
    rewrite (no_partition_no_rows df He Hl); cbn [map].
    replace (PrimFloat.ltb (mean []) 0.4) with false
      by (vm_compute; reflexivity).
    replace (PrimFloat.ltb (0 + 0.15)%float 0%float) with false
      by (vm_compute; reflexivity).
    unfold getitem; rewrite Hw; reflexivity.
Qed.

(** X1.  [analyze_team_tendencies] raises [KeyError] for the first of
    [first_dragon], [first_tower], [game_duration], [win] that the frame
    lacks, except that a frame without rows is not asked for [win]: it then
    returns, with rates 0.0 for both partitions.  It returns in no other
    case. *)
Theorem team_tendencies_outcome (df : DataFrame) :
  let required :=
    ["first_dragon"; "first_tower"; "game_duration"; "win"] in
  match analyze_team_tendencies df with
  | Ok t =>
      first_missing required df = None \/
      (first_missing required df = Some "win" /\ rows df = [] /\
       early_game_win_rate t = 0%float /\ late_game_win_rate t = 0%float /\
       win_tendency t = "late")
  | KeyError key =>
      first_missing required df = Some key /\
      (key = "win" -> rows df <> [])
  end.
Proof.
  cbn zeta; rewrite analyze_team_tendencies_cases.
  unfold first_missing; cbn [find].
  destruct (has_column "first_dragon" df); cbn [negb];
    [| split; [reflexivity | discriminate]].
  destruct (has_column "first_tower" df); cbn [negb];
    [| split; [reflexivity | discriminate]].
  destruct (has_column "game_duration" df); cbn [negb];
    [| split; [reflexivity | discriminate]].
  destruct (has_column "win" df); cbn [negb orb]; [left; reflexivity |].
  unfold early_rows, late_rows.
  destruct (rows df) as [| r rs].
  - right; repeat split; reflexivity.
  - split; [reflexivity | discriminate].
Qed.

(** X2.  [generate_how_to_win_insights] returns exactly on the frames that
    have the four fields; otherwise it raises [KeyError] for the first it
    lacks in the order [first_dragon], [game_duration], [win],
    [first_tower].  Unlike the Team Tendency Analyzer it asks for [win] on
    a frame without rows too. *)
Theorem how_to_win_outcome (df : DataFrame) :
  let reading_order :=
    ["first_dragon"; "game_duration"; "win"; "first_tower"] in
  match generate_how_to_win_insights df with
  | Ok insights =>
      first_missing reading_order df = None /\ has_required_fields df
  | KeyError key => first_missing reading_order df = Some key
  end.
Proof.
  cbn zeta; rewrite generate_cases.
  unfold first_missing, has_required_fields; cbn [find].
  destruct (has_column "first_dragon" df); cbn [negb]; [| reflexivity].
  destruct (has_column "game_duration" df); cbn [negb]; [| reflexivity].
  destruct (has_column "win" df); cbn [negb]; [| reflexivity].
  destruct (has_column "first_tower" df); cbn [negb]; [| reflexivity].
  cbn zeta; repeat split; reflexivity.
Qed.

Lemma permutation_filter {A : Type} (p : A -> bool) (l l' : list A) :
  Permutation l l' -> Permutation (filter p l) (filter p l').
Proof.
  induction 1 as [| x l l' _ IH | x y l | l l' l'' _ IH1 _ IH2]; simpl.
  - constructor.
  - destruct (p x); [constructor |]; exact IH.
  - destruct (p x); destruct (p y); try apply Permutation_refl.
    apply perm_swap.
  - exact (Permutation_trans IH1 IH2).
Qed.

Lemma mean_permutation (xs ys : list bool) :
  Permutation xs ys -> mean xs = mean ys.
Proof.
  intros H; unfold mean, count_true.
  rewrite (Permutation_length H).
  rewrite (Permutation_length (permutation_filter (fun b => b) _ _ H)).
  reflexivity.
Qed.

Lemma partition_win_rate_permutation (l l' : list Observation) :
  Permutation l l' -> partition_win_rate l = partition_win_rate l'.
Proof.
  intros H; unfold partition_win_rate.
  destruct l as [| r l]; destruct l' as [| r' l'].
  - reflexivity.
  - apply Permutation_nil in H; discriminate H.
  - apply Permutation_sym, Permutation_nil in H; discriminate H.
  - apply mean_permutation, Permutation_map; exact H.
Qed.

(** X3.  The Team Tendency Analyzer and the Insight Synthesizer do not
    depend on the order of the rows: two frames with the same columns and
    the same rows in different orders get the same result, failures
    included. *)
Theorem tempo_row_order (df df' : DataFrame) :
  same_rows df df' ->
  analyze_team_tendencies df = analyze_team_tendencies df' /\
  generate_how_to_win_insights df = generate_how_to_win_insights df'.
Proof.
  intros [Hcols Hrows].
  assert (Hhas : forall name, has_column name df = has_column name df')
    by (intros name; unfold has_column; rewrite Hcols; reflexivity).
  assert (Hmean : forall f : Observation -> bool,
            mean (map f (rows df)) = mean (map f (rows df')))
    by (intros f; apply mean_permutation, Permutation_map; exact Hrows).
  assert (He : partition_win_rate (early_rows df)
               = partition_win_rate (early_rows df'))
    by (apply partition_win_rate_permutation, permutation_filter; exact Hrows).
  assert (Hl : partition_win_rate (late_rows df)
               = partition_win_rate (late_rows df'))
    by (apply partition_win_rate_permutation, permutation_filter; exact Hrows).
  assert (Hnil : match rows df with [] => true | _ :: _ => false end
                 = match rows df' with [] => true | _ :: _ => false end).
  { destruct (rows df) as [| r l]; destruct (rows df') as [| r' l'];
      try reflexivity.
    - apply Permutation_nil in Hrows; discriminate Hrows.
    - apply Permutation_sym, Permutation_nil in Hrows; discriminate Hrows. }
  rewrite !analyze_team_tendencies_cases, !generate_cases; cbn zeta.
  rewrite !Hhas, !Hmean, He, Hl, Hnil; split; reflexivity.
Qed.

Lemma tempo_row_order_witness :
  same_rows Samples.ten_point_gap_frame Cases.reordered_gap_frame /\
  analyze_team_tendencies Samples.ten_point_gap_frame
  = analyze_team_tendencies Cases.reordered_gap_frame /\
  generate_how_to_win_insights Samples.ten_point_gap_frame
  = generate_how_to_win_insights Cases.reordered_gap_frame.
Proof.
  assert (H : same_rows Samples.ten_point_gap_frame Cases.reordered_gap_frame)
    by (split; [reflexivity | apply Permutation_rev]).
  split; [exact H | exact (tempo_row_order _ _ H)].
Defined.

End TempoOutcomes.

(** ** Comparisons of doubles with the thresholds of the cascade *)

Module ThresholdFacts.

Lemma sf_leb_lower (m1 m2 : positive) (e : Z) (y : spec_float) :
  (m1 <= m2)%positive ->
  SFleb (S754_finite false m2 e) y = true ->
  SFleb (S754_finite false m1 e) y = true.
Proof.
  intros Hm; unfold SFleb, SFcompare.
  destruct y as [s | s | | s m e']; try (destruct s);
    try discriminate; try reflexivity.
  destruct (Z.compare e e'); try reflexivity; try discriminate.
  rewrite !Pos.compare_cont_spec; simpl.
  destruct (Pos.compare_spec m2 m); destruct (Pos.compare_spec m1 m);
    try reflexivity; try discriminate; lia.
Qed.

Lemma sf_leb_upper (m1 m2 : positive) (e : Z) (y : spec_float) :
  (m1 <= m2)%positive ->
  SFleb y (S754_finite false m1 e) = true ->
  SFleb y (S754_finite false m2 e) = true.
Proof.
  intros Hm; unfold SFleb, SFcompare.
  destruct y as [s | s | | s m e']; try (destruct s);
    try discriminate; try reflexivity.
  destruct (Z.compare e' e); try reflexivity; try discriminate.
  rewrite !Pos.compare_cont_spec; simpl.
  destruct (Pos.compare_spec m m1); destruct (Pos.compare_spec m m2);
    try reflexivity; try discriminate; lia.
Qed.

(** A win rate that is >= 0.7 is >= 0.6. *)
Lemma at_least_07_06 (x : float) :
  PrimFloat.leb 0.7 x = true -> PrimFloat.leb 0.6 x = true.
Proof.
  rewrite !leb_spec.
  change (Prim2SF 0.7%float) with (S754_finite false 6305039478318694 (-53)).
  change (Prim2SF 0.6%float) with (S754_finite false 5404319552844595 (-53)).
  apply sf_leb_lower; lia.
Qed.

(** A win rate that is <= 0.3 is <= 0.4. *)
Lemma at_most_03_04 (x : float) :
  PrimFloat.leb x 0.3 = true -> PrimFloat.leb x 0.4 = true.
Proof.
  rewrite !leb_spec.
  change (Prim2SF 0.3%float) with (S754_finite false 5404319552844595 (-54)).
  change (Prim2SF 0.4%float) with (S754_finite false 7205759403792794 (-54)).
  apply sf_leb_upper; lia.
Qed.

End ThresholdFacts.

(** ** Outcomes of the Player Tendency Analyzer on any frame *)

Module PlayerOutcomes.

Import PlayerTendencies Spec Terms SeriesFacts PlayerFacts OrderFacts.

(** The champions that pass the two-game floor in a group. *)
Lemma floor_empty {ties : Ties} (g : DataFrame) :
  filter (fun e : string * nat => (2 <=? snd e)%nat)
         (value_counts String.eqb (map champion (rows g))) = [] <->
  forall c, occurrences String.eqb c (map champion (rows g)) < 2.
Proof.
  split.
  - intros Hnil c.
    destruct (le_lt_dec 2 (occurrences String.eqb c (map champion (rows g))))
      as [Hge | Hlt]; [exfalso | exact Hlt].
    assert (Hin : In (c, occurrences String.eqb c (map champion (rows g)))
                     (filter (fun e : string * nat => (2 <=? snd e)%nat)
                        (value_counts String.eqb (map champion (rows g))))).
    { apply filter_In; split; [| apply Nat.leb_le; exact Hge].
      apply (in_value_counts String.eqb String.eqb_eq); split; [| reflexivity].
      apply (occurrences_pos String.eqb String.eqb_eq); lia. }
    rewrite Hnil in Hin; destruct Hin.
  - intros Hlow.
    destruct (filter _ _) as [| [c n] l] eqn:E; [reflexivity | exfalso].
    assert (Hin : In (c, n)
                     (filter (fun e : string * nat => (2 <=? snd e)%nat)
                        (value_counts String.eqb (map champion (rows g)))))
      by (rewrite E; left; reflexivity).
    apply filter_In in Hin; destruct Hin as [Hin Hn]; cbn [snd] in Hn.
    apply (in_value_counts String.eqb String.eqb_eq) in Hin.
    destruct Hin as [_ ->]; apply Nat.leb_le in Hn.
    specialize (Hlow c); lia.
Qed.

(** One iteration on a group that has the [champion] column: nothing when
    no champion passes the floor, otherwise an entry, for which [win] is
    read. *)
Lemma analyze_role_outcome {ties : Ties} (g : DataFrame) :
  has_column "champion" g = true ->
  match analyze_role g with
  | Ok None =>
      forall c, occurrences String.eqb c (map champion (rows g)) < 2
  | Ok (Some t) =>
      has_column "win" g = true /\
      exists c, 2 <= occurrences String.eqb c (map champion (rows g))
  | KeyError key =>
      key = "win" /\ has_column "win" g = false /\
      exists c, 2 <= occurrences String.eqb c (map champion (rows g))
  end.
Proof.
  intros Hc.
  destruct (analyze_role g) as [[t |] | key] eqn:E.
  - pose proof (analyze_role_some g t E) as H; cbn zeta in H.
    destruct H as (_ & Hcount & Htwo & _).
    split; [| exists (most_played_champion t); lia].
    revert E; unfold analyze_role.
    destruct (empty g); [discriminate |].
    unfold getitem at 1 2; rewrite Hc; cbn [bind].
    destruct (value_counts _ _); [discriminate |].
    destruct (idxmax _); [| discriminate].
    unfold getitem; rewrite has_column_loc.
    destruct (has_column "win" g); [reflexivity | discriminate].
  - apply analyze_role_none; assumption.
  - revert E; unfold analyze_role.
    rewrite (empty_rows "champion" g Hc).
    destruct (rows g) as [| r rs] eqn:Hrows; [discriminate |].
    rewrite <- Hrows.
    unfold getitem at 1 2; rewrite Hc; cbn [bind].
    destruct (value_counts String.eqb (map champion (rows g)))
      as [| e vc] eqn:Hvc; [discriminate |].
    destruct (idxmax _) as [k |] eqn:Hk; [| discriminate].
    unfold getitem; rewrite has_column_loc.
    destruct (has_column "win" g); cbn [bind]; [discriminate |].
    intros H; injection H as <-.
    split; [reflexivity |]; split; [reflexivity |].
    rewrite <- Hvc in Hk.
    apply idxmax_some in Hk; apply filter_In in Hk.
    destruct Hk as [Hin Hn]; cbn [snd] in Hn.
    apply (in_value_counts String.eqb String.eqb_eq) in Hin.
    destruct Hin as [_ Hmax]; apply Nat.leb_le in Hn.
    exists k; lia.
Qed.

(** The loop stops at the first iteration that raises. *)
Lemma role_loop_outcome {ties : Ties} (groups : list (string * DataFrame))
    (acc : Python.dict RoleTendency) :
  match role_loop groups acc with
  | Ok _ => forall g, In g groups -> exists o, analyze_role (snd g) = Ok o
  | KeyError key =>
      exists g, In g groups /\ analyze_role (snd g) = KeyError key
  end.
Proof.
  revert acc; induction groups as [| [j g] groups IH]; intros acc; simpl.
  - intros g [].
  - destruct (analyze_role g) as [[t |] | key] eqn:E; cbn [bind].
    + specialize (IH (Python.dict_set j t acc)).
      destruct (role_loop groups _).
      * intros g' [<- | Hin]; [eexists; exact E | apply IH; exact Hin].
      * destruct IH as (g' & Hin & Hg'); exists g'; auto.
    + specialize (IH acc).
      destruct (role_loop groups _).
      * intros g' [<- | Hin]; [eexists; exact E | apply IH; exact Hin].
      * destruct IH as (g' & Hin & Hg'); exists g'; auto.
    + exists (j, g); auto.
Qed.

Lemma in_groups (df : DataFrame) (roles : option (list string))
    (g : string * DataFrame) :
  In g (groupby String.eqb String.leb role (analyzed_frame df roles)) <->
  In (fst g) (map role (analyzed_rows df roles)) /\
  snd g = role_group df roles (fst g).
Proof. destruct g as [k g]; apply in_groupby_role. Qed.

Lemma occurrences_games (df : DataFrame) (roles : option (list string))
    (r c : string) :
  occurrences String.eqb c (map champion (rows (role_group df roles r)))
  = games (analyzed_rows df roles) r c.
Proof. apply (occurrences_map String.eqb). Qed.

(** X4.  The Player Tendency Analyzer raises only [KeyError] for [win], and
    exactly when the [role] and [champion] columns are present, the [win]
    column is missing and some champion has at least 2 games in one of the
    analyzed roles; in particular a table without [win] is analyzed without
    error as long as no role qualifies. *)
Theorem player_tendencies_outcome {ties : Ties} (df : DataFrame)
    (roles : option (list string)) :
  let rs := analyzed_rows df roles in
  match analyze_player_tendencies df roles with
  | Ok res =>
      has_column "win" df = true \/
      has_column "role" df = false \/
      has_column "champion" df = false \/
      (res = [] /\ forall r c, games rs r c < 2)
  | KeyError key =>
      key = "win" /\
      has_column "win" df = false /\
      has_column "role" df = true /\
      has_column "champion" df = true /\
      exists r c, 2 <= games rs r c
  end.
Proof.
  cbn zeta.
  destruct (has_column "role" df) eqn:Hr;
    [destruct (has_column "champion" df) eqn:Hc |].
  2:{ unfold analyze_player_tendencies; rewrite Hr, Hc; cbn; auto. }
  2:{ unfold analyze_player_tendencies; rewrite Hr; cbn; auto. }
  rewrite (analyze_player_tendencies_eq df roles Hr Hc).
  pose proof (role_loop_outcome
                (groupby String.eqb String.leb role (analyzed_frame df roles))
                []) as Hloop.
  destruct (role_loop _ []) as [res | key] eqn:E.
  - destruct (has_column "win" df) eqn:Hw; [left; reflexivity |].
    right; right; right.
    assert (Hlow : forall r c, games (analyzed_rows df roles) r c < 2).
    { intros r c.
      destruct (le_lt_dec 2 (games (analyzed_rows df roles) r c))
        as [Hge | Hlt]; [exfalso | exact Hlt].
      assert (Hin : In (r, role_group df roles r)
                       (groupby String.eqb String.leb role
                                (analyzed_frame df roles))).
      { apply in_groups; split; [| reflexivity].
        apply (PlayerClaims.games_role_present _ r c); lia. }
      destruct (Hloop _ Hin) as [o Ho]; cbn [snd] in Ho.
      pose proof (analyze_role_outcome (role_group df roles r) Hc) as Hout.
      rewrite Ho in Hout; destruct o as [t |].
      - destruct Hout as [Hwin _]; change (has_column "win" df = true) in Hwin.
        congruence.
      - specialize (Hout c); rewrite occurrences_games in Hout; lia. }
    split; [| exact Hlow].
    destruct res as [| [r t] res]; [reflexivity | exfalso].
    assert (Hget : Python.dict_get r ((r, t) :: res) = Some t)
      by (simpl; rewrite String.eqb_refl; reflexivity).
    destruct (role_loop_entry _ _ _ _ _ E Hget) as [F | (g & Hin & Hg)];
      [discriminate F |].
    apply in_groupby_role in Hin; destruct Hin as [_ ->].
    apply analyze_role_some in Hg; cbn zeta in Hg.
    destruct Hg as (_ & Hcount & Htwo & _).
    change (count t = occurrences String.eqb (most_played_champion t)
              (map champion (rows (role_group df roles r)))) in Hcount.
    rewrite occurrences_games in Hcount.
    specialize (Hlow r (most_played_champion t)); lia.
  - destruct Hloop as (g & Hin & Hg).
    apply in_groups in Hin; destruct Hin as [_ Hframe].
    pose proof (analyze_role_outcome (snd g)) as Hout.
    rewrite Hframe in Hout, Hg; specialize (Hout Hc); rewrite Hg in Hout.
    destruct Hout as (-> & Hw & c & Hc2).
    rewrite occurrences_games in Hc2.
    repeat split; try assumption; try reflexivity.
    exists (fst g), c; exact Hc2.
Qed.

(** What the result holds for a role: the entry of the iteration on the
    group of that role, and nothing for a role that has no row. *)
Lemma result_lookup {ties : Ties}
    (df : DataFrame) (roles : option (list string))
    (res : Python.dict RoleTendency) (r : string) :
  has_column "role" df = true ->
  has_column "champion" df = true ->
  analyze_player_tendencies df roles = Ok res ->
  (In r (map role (analyzed_rows df roles)) ->
   analyze_role (role_group df roles r) = Ok (Python.dict_get r res)) /\
  (~ In r (map role (analyzed_rows df roles)) ->
   Python.dict_get r res = None).
Proof.
  intros Hr Hc Hres.
  rewrite (analyze_player_tendencies_eq df roles Hr Hc) in Hres.
  pose proof (role_loop_outcome
                (groupby String.eqb String.leb role (analyzed_frame df roles))
                []) as Hall.
  rewrite Hres in Hall.
  split.
  - intros Hin.
    assert (Hg : In (r, role_group df roles r)
                    (groupby String.eqb String.leb role
                             (analyzed_frame df roles)))
      by (apply in_groups; split; [exact Hin | reflexivity]).
    destruct (Hall _ Hg) as [o Ho]; cbn [snd] in Ho.
    rewrite Ho; f_equal.
    destruct o as [t |].
    + destruct (Python.dict_get r res) as [t' |] eqn:Hget.
      * destruct (role_loop_entry _ _ _ _ _ Hres Hget)
          as [F | (g & Hin' & Hg')]; [discriminate F |].
        apply in_groupby_role in Hin'; destruct Hin' as [_ ->].
        change (analyze_role (role_group df roles r) = Ok (Some t')) in Hg'.
        congruence.
      * exfalso; apply (role_loop_present _ _ _ r Hres); [| exact Hget].
        right; exists (role_group df roles r), t; auto.
    + symmetry; rewrite (role_loop_absent _ _ _ r Hres); [reflexivity |].
      intros g Hin'.
      apply in_groupby_role in Hin'; destruct Hin' as [_ ->]; exact Ho.
  - intros Hnot.
    rewrite (role_loop_absent _ _ _ r Hres); [reflexivity |].
    intros g Hin; apply in_groupby_role in Hin; tauto.
Qed.

Lemma player_tendencies_total {ties : Ties} (df : DataFrame)
    (roles : option (list string)) :
  has_column "win" df = true ->
  exists res, analyze_player_tendencies df roles = Ok res.
Proof.
  intros Hw.
  destruct (has_column "role" df) eqn:Hr;
    [destruct (has_column "champion" df) eqn:Hc |].
  2:{ unfold analyze_player_tendencies; rewrite Hr, Hc; cbn.
      eexists; reflexivity. }
  2:{ unfold analyze_player_tendencies; rewrite Hr; cbn.
      eexists; reflexivity. }
  rewrite (analyze_player_tendencies_eq df roles Hr Hc).
  apply role_loop_total; intros k g Hin.
  apply in_groupby_role in Hin; destruct Hin as [_ ->].
  apply analyze_role_total; [exact Hc | exact Hw].
Qed.

Lemma role_group_filtered (df : DataFrame) (f : string) (fs : list string)
    (r : string) :
  rows (role_group df (Some (f :: fs)) r)
  = if existsb (String.eqb r) (f :: fs)
    then rows (role_group df None r) else [].
Proof.
  unfold role_group; cbn [rows analyzed_rows]; unfold rows_in_roles.
  induction (rows df) as [| o l IH]; cbn [filter].
  - destruct (existsb _ _); reflexivity.
  - destruct (String.eqb (role o) r) eqn:Hor.
    + assert (Heq : role o = r) by (apply String.eqb_eq; exact Hor).
      rewrite Heq.
      destruct (existsb (String.eqb r) (f :: fs)) eqn:E; cbn [filter].
      * rewrite Hor, IH; reflexivity.
      * exact IH.
    + destruct (existsb (String.eqb (role o)) (f :: fs)); cbn [filter].
      * rewrite Hor; exact IH.
      * exact IH.
Qed.

(** X5.  Filtering by roles and analyzing gives, for each role of the
    filter, the entry that the analysis of the whole table gives, and no
    entry for the other roles: a non-empty filter only restricts the
    result. *)
Theorem roles_filter_restricts {ties : Ties} (df : DataFrame) (f : string)
    (fs : list string) :
  has_column "win" df = true ->
  exists every selected,
    analyze_player_tendencies df None = Ok every /\
    analyze_player_tendencies df (Some (f :: fs)) = Ok selected /\
    forall r,
      Python.dict_get r selected
      = if existsb (String.eqb r) (f :: fs)
        then Python.dict_get r every else None.
Proof.
  intros Hw.
  destruct (player_tendencies_total df None Hw) as [every Hevery].
  destruct (player_tendencies_total df (Some (f :: fs)) Hw)
    as [selected Hselected].
  exists every, selected; split; [exact Hevery |]; split; [exact Hselected |].
  intros r.
  destruct (has_column "role" df) eqn:Hr;
    [destruct (has_column "champion" df) eqn:Hc |].
  2:{ unfold analyze_player_tendencies in Hevery, Hselected.
      rewrite Hr, Hc in Hevery, Hselected; cbn in Hevery, Hselected.
      injection Hevery as <-; injection Hselected as <-.
      destruct (existsb _ _); reflexivity. }
  2:{ unfold analyze_player_tendencies in Hevery, Hselected.
      rewrite Hr in Hevery, Hselected; cbn in Hevery, Hselected.
      injection Hevery as <-; injection Hselected as <-.
      destruct (existsb _ _); reflexivity. }
  destruct (result_lookup df None every r Hr Hc Hevery) as [Ein Eout].
  destruct (result_lookup df (Some (f :: fs)) selected r Hr Hc Hselected)
    as [Sin Sout].
  assert (Hgroup : forall roles,
            In r (map role (analyzed_rows df roles)) <->
            rows (role_group df roles r) <> []).
  { intros roles; unfold role_group; cbn [rows].
    induction (analyzed_rows df roles) as [| o l IH]; cbn [map filter In].
    - tauto.
    - destruct (String.eqb_spec (role o) r) as [-> | Hne].
      + split; [discriminate | auto].
      + rewrite <- IH; split; [intros [E | E]; [contradiction | exact E] | auto]. }
  pose proof (role_group_filtered df f fs r) as Hrows.
  destruct (existsb (String.eqb r) (f :: fs)) eqn:Hmem.
  - assert (Hsame : role_group df (Some (f :: fs)) r = role_group df None r).
    { unfold role_group at 1; unfold role_group at 1 in Hrows.
      cbn [rows] in Hrows; rewrite Hrows; reflexivity. }
    destruct (in_dec string_dec r (map role (analyzed_rows df None)))
      as [Hin | Hnot].
    + assert (Hin' : In r (map role (analyzed_rows df (Some (f :: fs)))))
        by (apply Hgroup; rewrite Hsame; apply Hgroup; exact Hin).
      specialize (Ein Hin); specialize (Sin Hin').
      rewrite Hsame in Sin; congruence.
    + assert (Hnot' : ~ In r (map role (analyzed_rows df (Some (f :: fs))))).
      { intros Hin'; apply Hnot, Hgroup.
        rewrite <- Hsame; apply Hgroup; exact Hin'. }
      rewrite (Eout Hnot), (Sout Hnot'); reflexivity.
  - apply Sout; intros Hin; apply Hgroup in Hin; apply Hin; exact Hrows.
Qed.

Lemma roles_filter_restricts_witness :
  has_column "win" Cases.three_roles_frame = true /\
  exists every selected,
    analyze_player_tendencies (ties := stable_ties)
        Cases.three_roles_frame None = Ok every /\
    analyze_player_tendencies (ties := stable_ties)
        Cases.three_roles_frame (Some ["TOP"; "MID"])
    = Ok selected /\
    Python.dict_get "TOP" selected = Python.dict_get "TOP" every /\
    Python.dict_get "ADC" selected = None.
Proof.
  assert (H : has_column "win" Cases.three_roles_frame = true) by reflexivity.
  split; [exact H |].
  destruct (roles_filter_restricts (ties := stable_ties)
      Cases.three_roles_frame "TOP" ["MID"] H)
    as (every & selected & He & Hs & Hget).
  exists every, selected; split; [exact He |]; split; [exact Hs |].
  split; [exact (Hget "TOP") | exact (Hget "ADC")].
Defined.

Lemma dict_set_fresh {V : Type} (k : string) (v : V) (d : Python.dict V) :
  ~ In k (map fst d) -> Python.dict_set k v d = d ++ [(k, v)].
Proof.
  induction d as [| [k' v'] d IH]; simpl; [reflexivity |].
  intros Hnot.
  destruct (String.eqb_spec k' k) as [-> | _]; [tauto |].
  rewrite IH by tauto; reflexivity.
Qed.

(** The keys of the result: those already there, then the keys of the
    iterations that add an entry, in the order of the groups. *)
Lemma role_loop_keys {ties : Ties} (groups : list (string * DataFrame))
    (acc res : Python.dict RoleTendency) :
  NoDup (map fst acc ++ map fst groups) ->
  role_loop groups acc = Ok res ->
  map fst res = map fst acc ++ map fst (filter adds_entry groups).
Proof.
  revert acc; induction groups as [| [j g] groups IH]; intros acc Hdup; simpl.
  - intros H; injection H as <-; rewrite app_nil_r; reflexivity.
  - unfold adds_entry at 1; cbn [snd].
    destruct (analyze_role g) as [[t |] | key] eqn:E; cbn [bind];
      [| | discriminate]; intros Hloop.
    + assert (Hfresh : ~ In j (map fst acc)).
      { intros Hin; apply NoDup_remove_2 in Hdup; apply Hdup.
        apply in_or_app; left; exact Hin. }
      rewrite (dict_set_fresh j t acc Hfresh) in Hloop.
      assert (Hdup' : NoDup (map fst (acc ++ [(j, t)]) ++ map fst groups))
        by (rewrite map_app, <- app_assoc; exact Hdup).
      rewrite (IH _ Hdup' Hloop).
      rewrite map_app, <- app_assoc; reflexivity.
    + apply (IH _ (NoDup_remove_1 _ _ _ Hdup) Hloop).
Qed.

Lemma nodup_unique_roles (xs : list string) : NoDup (unique String.eqb xs).
Proof.
  induction xs as [| x xs IH]; simpl; constructor.
  - intros Hin; apply filter_In in Hin; destruct Hin as [_ Hx].
    rewrite String.eqb_refl in Hx; discriminate Hx.
  - apply NoDup_filter; exact IH.
Qed.

Lemma nodup_insert_sorted (x : string) (l : list string) :
  ~ In x l -> NoDup l -> NoDup (Python.insert_sorted String.leb x l).
Proof.
  intros Hx Hl; induction Hl as [| y l Hy Hl IH]; simpl.
  - constructor; [intros [] | constructor].
  - destruct (String.leb x y).
    + constructor; [exact Hx | constructor; assumption].
    + constructor.
      * rewrite in_insert_sorted; intros [-> | Hin];
          [apply Hx; left; reflexivity | contradiction].
      * apply IH; intros Hin; apply Hx; right; exact Hin.
Qed.

Lemma nodup_sorted (l : list string) :
  NoDup l -> NoDup (Python.sorted String.leb l).
Proof.
  induction 1 as [| x l Hx Hl IH]; simpl; [constructor |].
  apply nodup_insert_sorted; [rewrite in_sorted; exact Hx | exact IH].
Qed.

(** Distinct role names in lexicographic order are in strict order. *)
Lemma strictly_sorted (l : list string) :
  NoDup l -> StronglySorted string_le l -> StronglySorted string_lt l.
Proof.
  intros Hdup Hs; induction Hs as [| x l Hs IH Hx]; constructor.
  - apply IH; apply NoDup_cons_iff in Hdup; tauto.
  - apply NoDup_cons_iff in Hdup; destruct Hdup as [Hnot _].
    rewrite Forall_forall in Hx |- *; intros y Hy.
    specialize (Hx y Hy); unfold string_le, String.leb in Hx.
    unfold string_lt.
    destruct (String.compare x y) eqn:E; [| reflexivity | discriminate Hx].
    apply String.compare_eq_iff in E; subst y; contradiction.
Qed.

Lemma group_keys (df : DataFrame) :
  map fst (groupby String.eqb String.leb role df)
  = Python.sorted String.leb (unique String.eqb (map role (rows df))).
Proof.
  unfold groupby; rewrite map_map; cbn [fst]; apply map_id.
Qed.

Lemma strongly_sorted_unmap {A B : Type} (R : B -> B -> Prop) (f : A -> B)
    (l : list A) :
  StronglySorted R (map f l) -> StronglySorted (fun a b => R (f a) (f b)) l.
Proof.
  induction l as [| x l IH]; simpl; intros H; [constructor |].
  inversion H as [| ? ? Hs Hx]; subst; constructor; [apply IH; exact Hs |].
  rewrite Forall_forall in Hx |- *; intros y Hy.
  apply Hx, in_map; exact Hy.
Qed.

(** X6.  The roles of the returned mapping come in strictly ascending
    lexicographic order, so that no role is listed twice, whatever the
    order of the rows; each of them is a role of an analyzed row, hence one
    of the roles asked for when a filter is given. *)
Theorem result_roles_ascending {ties : Ties} (df : DataFrame)
    (roles : option (list string)) (res : Python.dict RoleTendency) :
  analyze_player_tendencies df roles = Ok res ->
  StronglySorted string_lt (map fst res) /\
  (forall r, In r (map fst res) ->
     In r (map role (analyzed_rows df roles))) /\
  (forall f fs r, roles = Some (f :: fs) -> In r (map fst res) ->
     In r (f :: fs)).
Proof.
  intros Hres.
  assert (Hkeys : StronglySorted string_lt (map fst res) /\
                  forall r, In r (map fst res) ->
                    In r (map role (analyzed_rows df roles))).
  { destruct (has_column "role" df) eqn:Hr;
      [destruct (has_column "champion" df) eqn:Hc |].
    2:{ unfold analyze_player_tendencies in Hres; rewrite Hr, Hc in Hres.
        injection Hres as <-; split; [constructor | intros r []]. }
    2:{ unfold analyze_player_tendencies in Hres; rewrite Hr in Hres.
        injection Hres as <-; split; [constructor | intros r []]. }
    rewrite (analyze_player_tendencies_eq df roles Hr Hc) in Hres.
    assert (Hdup : NoDup (map fst (groupby String.eqb String.leb role
                                           (analyzed_frame df roles))))
      by (rewrite group_keys; apply nodup_sorted, nodup_unique_roles).
    assert (Hsorted : StronglySorted string_lt
                        (map fst (groupby String.eqb String.leb role
                                          (analyzed_frame df roles)))).
    { apply strictly_sorted; [exact Hdup |].
      rewrite group_keys; apply sorted_strings. }
    rewrite (role_loop_keys _ [] res Hdup Hres); cbn [map app].
    split.
    - apply strongly_sorted_map, strongly_sorted_filter.
      apply strongly_sorted_unmap; exact Hsorted.
    - intros r Hin; apply in_map_iff in Hin.
      destruct Hin as ([k g] & <- & Hg); apply filter_In in Hg.
      destruct Hg as [Hg _]; apply in_groupby_role in Hg; tauto. }
  destruct Hkeys as [Hsorted Hdata].
  split; [exact Hsorted |]; split; [exact Hdata |].
  intros f fs r -> Hin; specialize (Hdata r Hin).
  cbn [analyzed_rows] in Hdata; unfold rows_in_roles in Hdata.
  apply in_map_iff in Hdata; destruct Hdata as (o & <- & Ho).
  apply filter_In in Ho; destruct Ho as [_ Ho].
  apply existsb_exists in Ho; destruct Ho as (x & Hx & E).
  apply String.eqb_eq in E; rewrite E; exact Hx.
Qed.

Lemma result_roles_ascending_witness :
  exists res,
    analyze_player_tendencies (ties := stable_ties)
        Cases.three_roles_frame None = Ok res /\
    map fst res = ["ADC"; "TOP"] /\
    StronglySorted string_lt (map fst res).
Proof.
  destruct (player_tendencies_total (ties := stable_ties)
      Cases.three_roles_frame None eq_refl)
    as [res H].
  exists res; split; [exact H |].
  destruct (result_roles_ascending (ties := stable_ties) _ _ _ H) as [Hs _].
  split; [| exact Hs].
  pose proof H as E; vm_compute in E; injection E as <-; reflexivity.
Defined.

Lemma low_iff_ignore (n : nat) (wr : float) :
  2 <= n ->
  (priority_of n wr = "LOW" <-> action_of wr = "IGNORE AND PLAY CROSS-MAP") /\
  (priority_of n wr = "HIGH" ->
   3 <= n /\ (action_of wr = "DENY COMFORT PICK" \/
              action_of wr = "FORCE LOSING MATCHUP")).
Proof.
  intros Hn; unfold priority_of, action_of.
  pose proof (ThresholdFacts.at_least_07_06 wr) as H76.
  pose proof (ThresholdFacts.at_most_03_04 wr) as H34.
  destruct (Nat.leb_spec 3 n); destruct (Nat.leb_spec 2 n); try lia;
    destruct (PrimFloat.leb 0.7 wr); destruct (PrimFloat.leb wr 0.3);
    try (rewrite (H76 eq_refl)); try (rewrite (H34 eq_refl));
    destruct (PrimFloat.leb 0.6 wr); destruct (PrimFloat.leb wr 0.4);
    cbn [andb orb]; repeat split; intros; auto;
    try discriminate; try lia.
Qed.

(** X7.  In every entry of the result the tier and the action agree: the
    tier is LOW exactly when the action is "IGNORE AND PLAY CROSS-MAP", and
    a HIGH entry has at least 3 games and tells to deny the pick or to
    force the matchup.  (An entry has at least 2 games, and a win rate
    >= 0.7 is >= 0.6, one <= 0.3 is <= 0.4.) *)
Theorem tier_agrees_with_action {ties : Ties} (df : DataFrame)
    (roles : option (list string)) (res : Python.dict RoleTendency)
    (r : string) (t : RoleTendency) :
  analyze_player_tendencies df roles = Ok res ->
  Python.dict_get r res = Some t ->
  (priority t = "LOW" <-> action t = "IGNORE AND PLAY CROSS-MAP") /\
  (priority t = "HIGH" ->
   3 <= count t /\ (action t = "DENY COMFORT PICK" \/
                    action t = "FORCE LOSING MATCHUP")).
Proof.
  intros Hres Hget.
  destruct (PlayerClaims.entry_of_result df roles res r t Hres Hget)
    as (_ & Htwo & _ & _ & Hprio & Hact).
  rewrite Hprio, Hact; apply low_iff_ignore; exact Htwo.
Qed.

Lemma tier_agrees_with_action_witness :
  analyze_player_tendencies (ties := stable_ties) Samples.top_lane_frame None
  = Ok [("TOP", Samples.top_lane_tendency)] /\
  (priority Samples.top_lane_tendency = "HIGH" ->
   3 <= count Samples.top_lane_tendency /\
   (action Samples.top_lane_tendency = "DENY COMFORT PICK" \/
    action Samples.top_lane_tendency = "FORCE LOSING MATCHUP")).
Proof.
  assert (H1 : analyze_player_tendencies (ties := stable_ties)
      Samples.top_lane_frame None
               = Ok [("TOP", Samples.top_lane_tendency)])
    by (vm_compute; reflexivity).
  assert (H2 : Python.dict_get "TOP" [("TOP", Samples.top_lane_tendency)]
               = Some Samples.top_lane_tendency) by reflexivity.
  split; [exact H1 |].
  exact (proj2 (tier_agrees_with_action _ _ _ _ _ H1 H2)).
Defined.

End PlayerOutcomes.

(** ** The empty roles filter *)

Module FilterClaims.

Import PlayerTendencies Spec Terms PlayerFacts PlayerOutcomes.

(** C10.  An empty list given as the roles filter is treated as no filter.
    The analyzer returns what it returns when the argument is left out,
    and that is the analysis of every role of the table: the entry of a
    role is the outcome of the loop body on all the rows of that role, and
    every role in which some champion has at least 2 games has an entry.
    Applied literally, the empty filter would keep no row.  The only error
    is the [KeyError] for a missing [win] column, as without a filter. *)
Theorem empty_roles_filter_is_no_filter {ties : Ties} (df : DataFrame) :
  analyze_player_tendencies df (Some []) = analyze_player_tendencies df None /\
  rows_in_roles [] (rows df) = [] /\
  match analyze_player_tendencies df (Some []) with
  | Ok res =>
      has_column "role" df = true ->
      has_column "champion" df = true ->
      (forall r, In r (map role (rows df)) ->
         analyze_role (role_group df None r)
         = Ok (Python.dict_get r res)) /\
      (forall r c, 2 <= games (rows df) r c ->
         exists t,
           Python.dict_get r res = Some t /\
           2 <= count t /\
           count t = games (rows df) r (most_played_champion t))
  | KeyError key => key = "win" /\ has_column "win" df = false
  end.
Proof.
  split; [reflexivity |].
  split.
  { unfold rows_in_roles; induction (rows df) as [| r rs IH]; simpl; auto. }
  change (analyze_player_tendencies df (Some []))
    with (analyze_player_tendencies df None).
  destruct (has_column "role" df) eqn:Hr;
    [destruct (has_column "champion" df) eqn:Hc |].
  2:{ unfold analyze_player_tendencies; rewrite Hr, Hc; cbn.
      intros _ F; discriminate F. }
  2:{ unfold analyze_player_tendencies; rewrite Hr; cbn.
      intros F; discriminate F. }
  destruct (analyze_player_tendencies df None) as [res | key] eqn:E.
  - intros _ _.
    assert (Hlook : forall r, In r (map role (rows df)) ->
              analyze_role (role_group df None r)
              = Ok (Python.dict_get r res))
      by (intros r Hin; apply (result_lookup df None res r Hr Hc E), Hin).
    split; [exact Hlook |].
    intros r c Hge.
    assert (Hin : In r (map role (rows df)))
      by (apply (PlayerClaims.games_role_present (rows df) r c); lia).
    specialize (Hlook r Hin).
    destruct (Python.dict_get r res) as [t |] eqn:Hget.
    + exists t; split; [reflexivity |].
      destruct (PlayerClaims.entry_of_result df None res r t E Hget)
        as (Hcount & Htwo & _).
      split; [exact Htwo | exact Hcount].
    + exfalso.
      assert (Hc' : has_column "champion" (role_group df None r) = true)
        by exact Hc.
      pose proof (analyze_role_none _ Hc' Hlook c) as Hlow.
      rewrite occurrences_games in Hlow.
      change (analyzed_rows df None) with (rows df) in Hlow; lia.
  - rewrite (analyze_player_tendencies_eq df None Hr Hc) in E.
    pose proof (role_loop_outcome
                  (groupby String.eqb String.leb role (analyzed_frame df None))
                  []) as Hloop.
    rewrite E in Hloop; destruct Hloop as (g & Hin & Hg).
    apply in_groups in Hin; destruct Hin as [_ Hframe].
    pose proof (analyze_role_outcome (snd g)) as Hout.
    rewrite Hframe in Hout, Hg; specialize (Hout Hc); rewrite Hg in Hout.
    destruct Hout as (-> & Hw & _); split; [reflexivity | exact Hw].
Qed.

Lemma empty_roles_filter_is_no_filter_witness :
  rows_in_roles [] (rows Samples.top_lane_frame) = [] /\
  exists res t,
    analyze_player_tendencies (ties := stable_ties) Samples.top_lane_frame
                              (Some []) = Ok res /\
    Python.dict_get "TOP" res = Some t /\
    count t = 3.
Proof.
  destruct (empty_roles_filter_is_no_filter (ties := stable_ties)
              Samples.top_lane_frame) as (_ & Hliteral & H).
  split; [exact Hliteral |].
  destruct (analyze_player_tendencies (ties := stable_ties)
              Samples.top_lane_frame (Some [])) as [res | key] eqn:E.
  - destruct (H eq_refl eq_refl) as [_ Hentry].
    destruct (Hentry "TOP" "A") as (t & Hget & _ & Hcount);
      [vm_compute; lia |].
    exists res, t; split; [reflexivity |]; split; [exact Hget |].
    vm_compute in E; injection E as <-.
    vm_compute in Hget; injection Hget as <-; reflexivity.
  - exfalso; destruct H as [_ F]; discriminate F.
Defined.

End FilterClaims.

(** ** Sorting a list and one of its permutations *)

Module SortingFacts.

Import SeriesFacts OrderFacts Spec Terms.

Section Sorting.
Context {A : Type}.
Variable leb : A -> A -> bool.
Hypothesis leb_total : forall x y, leb x y = false -> leb y x = true.
Hypothesis leb_trans :
  forall x y z, leb x y = true -> leb y z = true -> leb x z = true.
Hypothesis leb_antisym :
  forall x y, leb x y = true -> leb y x = true -> x = y.

Lemma permutation_insert_sorted (x : A) (l : list A) :
  Permutation (Python.insert_sorted leb x l) (x :: l).
Proof.
  induction l as [| y l IH]; simpl; [apply Permutation_refl |].
  destruct (leb x y); [apply Permutation_refl |].
  apply (Permutation_trans (perm_skip y IH)), perm_swap.
Qed.

Lemma permutation_sorted (l : list A) : Permutation (Python.sorted leb l) l.
Proof.
  induction l as [| x l IH]; simpl; [constructor |].
  apply (Permutation_trans (permutation_insert_sorted x _)).
  constructor; exact IH.
Qed.

Lemma sorted_ordered (l : list A) :
  StronglySorted (fun x y => leb x y = true) (Python.sorted leb l).
Proof.
  induction l as [| x l IH]; simpl; [constructor |].
  apply insert_sorted_ordered.
  - intros y _ H; exact H.
  - intros y _ H; apply leb_total; exact H.
  - intros y z _ _; apply leb_trans.
  - exact IH.
Qed.

(** Two ordered lists with the same elements are the same list. *)
Lemma ordered_permutation_eq (l l' : list A) :
  StronglySorted (fun x y => leb x y = true) l ->
  StronglySorted (fun x y => leb x y = true) l' ->
  Permutation l l' -> l = l'.
Proof.
  intros Hs; revert l'; induction Hs as [| x l Hs IH Hx]; intros l' Hs' Hp.
  - apply Permutation_nil in Hp; subst; reflexivity.
  - destruct Hs' as [| y l' Hs' Hy].
    + apply Permutation_sym, Permutation_nil in Hp; discriminate Hp.
    + rewrite Forall_forall in Hx, Hy.
      assert (Exy : x = y).
      { assert (Hxin : In x (y :: l'))
          by (apply (Permutation_in _ Hp); left; reflexivity).
        assert (Hyin : In y (x :: l))
          by (apply (Permutation_in _ (Permutation_sym Hp)); left;
              reflexivity).
        destruct Hxin as [E | Hxin]; [symmetry; exact E |].
        destruct Hyin as [E | Hyin]; [exact E |].
        apply leb_antisym; [apply Hx | apply Hy]; assumption. }
      subst y; f_equal; apply IH; [exact Hs' |].
      apply (Permutation_cons_inv Hp).
Qed.

(** [sorted] returns the same list on a list and on its permutations. *)
Lemma sorted_permutation (l l' : list A) :
  Permutation l l' -> Python.sorted leb l = Python.sorted leb l'.
Proof.
  intros Hp; apply ordered_permutation_eq; try apply sorted_ordered.
  apply (Permutation_trans (permutation_sorted l)).
  apply (Permutation_trans Hp), Permutation_sym, permutation_sorted.
Qed.

End Sorting.

Section Distinct.
Context {K : Type}.
Variable eqb : K -> K -> bool.
Hypothesis eqb_eq : forall x y, eqb x y = true <-> x = y.

Lemma nodup_unique (xs : list K) : NoDup (unique eqb xs).
Proof.
  induction xs as [| x xs IH]; simpl; constructor.
  - intros Hin; apply filter_In in Hin; destruct Hin as [_ Hx].
    rewrite (eqb_refl eqb eqb_eq) in Hx; discriminate Hx.
  - apply NoDup_filter; exact IH.
Qed.

Lemma unique_permutation (xs ys : list K) :
  Permutation xs ys -> Permutation (unique eqb xs) (unique eqb ys).
Proof.
  intros Hp; apply NoDup_Permutation; try apply nodup_unique.
  intros x; rewrite !(in_unique eqb eqb_eq).
  split; apply Permutation_in; [exact Hp | apply Permutation_sym; exact Hp].
Qed.

End Distinct.

(** The order of the (match, team) keys is total, transitive and
    antisymmetric. *)
Lemma compare_lt_iff (a b : string) :
  String.compare a b = Lt <-> String.leb a b = true /\ a <> b.
Proof.
  unfold String.leb; split.
  - intros E; rewrite E; split; [reflexivity |].
    intros ->.
    pose proof (String.compare_antisym b b) as H; rewrite E in H.
    discriminate H.
  - intros [Hle Hne].
    destruct (String.compare a b) eqn:E; [| reflexivity | discriminate Hle].
    apply String.compare_eq_iff in E; contradiction.
Qed.

Lemma compare_refl (a : string) : String.compare a a = Eq.
Proof.
  pose proof (String.compare_antisym a a) as H.
  destruct (String.compare a a); [reflexivity | |]; discriminate H.
Qed.

Lemma compare_lt_trans (a b c : string) :
  String.compare a b = Lt -> String.compare b c = Lt ->
  String.compare a c = Lt.
Proof.
  rewrite !compare_lt_iff; intros [Hab Nab] [Hbc Nbc]; split.
  - apply (string_leb_trans a b c); assumption.
  - intros ->; apply Nab, String.leb_antisym; assumption.
Qed.

Lemma key_leb_total (a b : string * string) :
  Compositions.key_leb a b = false -> Compositions.key_leb b a = true.
Proof.
  unfold Compositions.key_leb.
  rewrite (String.compare_antisym (fst a) (fst b)).
  destruct (String.compare (fst b) (fst a)); cbn [CompOpp];
    try discriminate; try reflexivity.
  intros H; destruct (String.leb_total (snd a) (snd b)) as [H' | H'];
    [congruence | exact H'].
Qed.

Lemma key_leb_antisym (a b : string * string) :
  Compositions.key_leb a b = true -> Compositions.key_leb b a = true -> a = b.
Proof.
  unfold Compositions.key_leb.
  rewrite (String.compare_antisym (fst a) (fst b)).
  destruct (String.compare (fst b) (fst a)) eqn:E'; cbn [CompOpp];
    try discriminate.
  intros H1 H2.
  apply String.compare_eq_iff in E'.
  destruct a, b; cbn [fst snd] in *; subst; f_equal.
  apply String.leb_antisym; assumption.
Qed.

Lemma key_leb_trans (a b c : string * string) :
  Compositions.key_leb a b = true -> Compositions.key_leb b c = true ->
  Compositions.key_leb a c = true.
Proof.
  unfold Compositions.key_leb.
  destruct (String.compare (fst a) (fst b)) eqn:Eab; try discriminate;
    destruct (String.compare (fst b) (fst c)) eqn:Ebc; try discriminate;
    intros H1 H2.
  - apply String.compare_eq_iff in Eab, Ebc.
    rewrite Eab, Ebc, compare_refl.
    apply (string_leb_trans _ (snd b)); assumption.
  - apply String.compare_eq_iff in Eab; rewrite Eab, Ebc; reflexivity.
  - apply String.compare_eq_iff in Ebc; rewrite <- Ebc, Eab; reflexivity.
  - rewrite (compare_lt_trans _ _ _ Eab Ebc); reflexivity.
Qed.

Lemma key_eqb_eq (a b : string * string) :
  Compositions.key_eqb a b = true <-> a = b.
Proof.
  unfold Compositions.key_eqb; rewrite andb_true_iff, !String.eqb_eq.
  destruct a, b; cbn [fst snd]; split.
  - intros [-> ->]; reflexivity.
  - intros E; injection E as -> ->; auto.
Qed.

Lemma string_leb_total (x y : string) :
  String.leb x y = false -> String.leb y x = true.
Proof.
  intros H; destruct (String.leb_total x y) as [H' | H'];
    [congruence | exact H'].
Qed.

End SortingFacts.

(** ** Further properties of the Composition Analyzer *)

Module CompositionOutcomes.

Import Compositions Spec Terms SeriesFacts OrderFacts SortingFacts.
Import TempoOutcomes CompositionClaims.

Lemma groups_permutation (df df' : DataFrame) :
  same_rows df df' ->
  map fst (groupby key_eqb key_leb (fun r => (match_id r, team_id r)) df)
  = map fst (groupby key_eqb key_leb (fun r => (match_id r, team_id r)) df').
Proof.
  intros [_ Hrows]; unfold groupby; rewrite !map_map; cbn [fst].
  rewrite !map_id.
  apply (sorted_permutation key_leb key_leb_total key_leb_trans
                            key_leb_antisym).
  apply (unique_permutation key_eqb key_eqb_eq), Permutation_map; exact Hrows.
Qed.

Lemma composition_series_of_keys (df : DataFrame) :
  composition_series df
  = map (fun k =>
           Python.sorted String.leb
             (map champion
                (filter (fun r => key_eqb (match_id r, team_id r) k)
                        (rows df))))
        (map fst (groupby key_eqb key_leb
                          (fun r => (match_id r, team_id r)) df)).
Proof.
  unfold composition_series, groupby; rewrite !map_map; reflexivity.
Qed.

Lemma composition_series_permutation (df df' : DataFrame) :
  same_rows df df' -> composition_series df = composition_series df'.
Proof.
  intros H; rewrite !composition_series_of_keys.
  rewrite (groups_permutation df df' H).
  apply map_ext; intros k.
  apply (sorted_permutation String.leb string_leb_total string_leb_trans
                            String.leb_antisym).
  apply Permutation_map, permutation_filter; destruct H as [_ H]; exact H.
Qed.

(** X8.  On frames that have the two grouping columns, and on frames that
    lack one of them and do not have exactly two rows, the Composition
    Analyzer does not depend on the order of the rows: two such frames with
    the same columns and the same rows in different orders get the same
    compositions, counts, ranking and classifications, or the same
    error. *)
Theorem compositions_row_order {ties : Ties} (df df' : DataFrame) :
  same_rows df df' ->
  (has_column "match_id" df = false \/ has_column "team_id" df = false ->
   List.length (rows df) <> 2) ->
  analyze_compositions df = analyze_compositions df'.
Proof.
  intros H Hgroups; unfold analyze_compositions, grouped_compositions.
  rewrite (composition_series_permutation df df' H).
  destruct H as [Hcols Hrows].
  assert (Hsame : forall name, has_column name df = has_column name df')
    by (intros name; unfold has_column; rewrite Hcols; reflexivity).
  rewrite <- !Hsame.
  destruct (has_column "champion" df); [| reflexivity]; cbn [negb].
  destruct (has_column "match_id" df && has_column "team_id" df) eqn:E;
    [reflexivity |].
  assert (Hlen : List.length (rows df) <> 2)
    by (apply Hgroups; apply andb_false_iff in E; exact E).
  assert (Hlen' : List.length (rows df') <> 2)
    by (rewrite <- (Permutation_length Hrows); exact Hlen).
  destruct (rows df) as [| r1 [| r2 [| r3 rs]]];
    destruct (rows df') as [| q1 [| q2 [| q3 qs]]];
    cbn [List.length] in Hlen, Hlen'; try congruence; reflexivity.
Qed.

Lemma compositions_row_order_witness :
  same_rows Samples.two_games_frame Cases.reordered_games_frame /\
  analyze_compositions (ties := stable_ties) Samples.two_games_frame
  = analyze_compositions (ties := stable_ties) Cases.reordered_games_frame.
Proof.
  assert (H : same_rows Samples.two_games_frame Cases.reordered_games_frame)
    by (split; [reflexivity | apply Permutation_rev]).
  split; [exact H |].
  apply (compositions_row_order (ties := stable_ties) _ _ H).
  intros [F | F]; discriminate F.
Defined.

(** On a frame of two rows that lacks a grouping column the rows are the
    groups, in the order of the frame. *)
Example two_rows_are_two_groups :
  grouped_compositions Cases.two_rows_frame = Ok [["Garen"]; ["Darius"]] /\
  grouped_compositions
    (mkDataFrame (columns Cases.two_rows_frame)
                 (rev (rows Cases.two_rows_frame)))
  = Ok [["Darius"]; ["Garen"]].
Proof. split; reflexivity. Qed.

Section Totals.
Context {K : Type}.
Variable eqb : K -> K -> bool.
Hypothesis eqb_eq : forall x y, eqb x y = true <-> x = y.

Lemma occurrences_cons (x v : K) (xs : list K) :
  occurrences eqb v (x :: xs)
  = (if eqb x v then 1 else 0) + occurrences eqb v xs.
Proof. unfold occurrences; simpl; destruct (eqb x v); reflexivity. Qed.

Lemma occurrences_absent (v : K) (xs : list K) :
  ~ In v xs -> occurrences eqb v xs = 0.
Proof.
  intros Hnot.
  destruct (occurrences eqb v xs) eqn:E; [reflexivity | exfalso].
  apply Hnot, (occurrences_pos eqb eqb_eq); lia.
Qed.

(** Taking one value out of a list of distinct values. *)
Lemma sum_without (f : K -> nat) (x : K) (l : list K) :
  NoDup l ->
  list_sum (map f l)
  = (if existsb (eqb x) l then f x else 0)
    + list_sum (map f (filter (fun y => negb (eqb y x)) l)).
Proof.
  induction 1 as [| y l Hy Hl IH]; simpl; [reflexivity |].
  destruct (eqb y x) eqn:Eyx.
  - apply eqb_eq in Eyx; subst y.
    rewrite (eqb_refl eqb eqb_eq); cbn [orb negb].
    rewrite IH.
    replace (existsb (eqb x) l) with false; [lia |].
    symmetry; apply not_true_is_false; intros H.
    apply existsb_exists in H; destruct H as (z & Hz & E).
    apply eqb_eq in E; subst z; contradiction.
  - replace (eqb x y) with false.
    + simpl; rewrite IH; lia.
    + symmetry; apply not_true_is_false; intros E.
      apply eqb_eq in E; subst y.
      rewrite (eqb_refl eqb eqb_eq) in Eyx; discriminate Eyx.
Qed.

(** The counts of the distinct values add up to the length of the
    series. *)
Lemma sum_of_occurrences (xs : list K) :
  list_sum (map (fun v => occurrences eqb v xs) (unique eqb xs))
  = List.length xs.
Proof.
  induction xs as [| x xs IH]; [reflexivity |].
  cbn [unique map List.length].
  change (list_sum (?a :: ?l)) with (a + list_sum l).
  rewrite occurrences_cons, (eqb_refl eqb eqb_eq).
  rewrite (map_ext_in (fun v => occurrences eqb v (x :: xs))
                      (fun v => occurrences eqb v xs)).
  - pose proof (sum_without (fun v => occurrences eqb v xs) x
                            (unique eqb xs) (nodup_unique eqb eqb_eq xs))
      as Hsplit.
    rewrite IH in Hsplit.
    destruct (existsb (eqb x) (unique eqb xs)) eqn:E; [lia |].
    rewrite occurrences_absent; [lia |].
    intros Hin; apply (in_unique eqb eqb_eq) in Hin.
    assert (F : existsb (eqb x) (unique eqb xs) = true)
      by (apply existsb_exists; exists x; split;
          [exact Hin | apply (eqb_refl eqb eqb_eq)]).
    congruence.
  - intros v Hv; apply filter_In in Hv; destruct Hv as [_ Hv].
    rewrite occurrences_cons.
    replace (eqb x v) with false; [reflexivity |].
    symmetry; apply not_true_is_false; intros E.
    apply eqb_eq in E; subst v.
    rewrite (eqb_refl eqb eqb_eq) in Hv; discriminate Hv.
Qed.

Lemma list_sum_permutation (l l' : list nat) :
  Permutation l l' -> list_sum l = list_sum l'.
Proof.
  induction 1; simpl; lia.
Qed.

Lemma value_counts_permutation {ties : Ties} (xs : list K) :
  Permutation (value_counts eqb xs)
              (map (fun v => (v, occurrences eqb v xs)) (unique eqb xs)).
Proof.
  unfold value_counts.
  apply (Permutation_trans
           (l' := arrange (map (fun v => (v, occurrences eqb v xs))
                               (unique eqb xs))));
    [| apply arrange_permutation].
  induction (arrange _) as [| e l IH]; simpl; [constructor |].
  apply (Permutation_trans (l' := e :: Python.sorted count_desc l)).
  - clear IH; induction (Python.sorted count_desc l) as [| y t IHt]; simpl;
      [apply Permutation_refl |].
    destruct (count_desc e y); [apply Permutation_refl |].
    apply (Permutation_trans (perm_skip y IHt)), perm_swap.
  - constructor; exact IH.
Qed.

Lemma sum_value_counts {ties : Ties} (xs : list K) :
  list_sum (map snd (value_counts eqb xs)) = List.length xs.
Proof.
  rewrite (list_sum_permutation _ _
             (Permutation_map snd (value_counts_permutation xs))).
  rewrite map_map; cbn [snd]; apply sum_of_occurrences.
Qed.

Lemma nodup_value_counts {ties : Ties} (xs : list K) :
  NoDup (map fst (value_counts eqb xs)).
Proof.
  apply (Permutation_NoDup
           (Permutation_sym
              (Permutation_map fst (value_counts_permutation xs)))).
  rewrite map_map; cbn [fst]; rewrite map_id.
  apply (nodup_unique eqb eqb_eq).
Qed.

End Totals.

Lemma list_sum_firstn (n : nat) (l : list nat) :
  list_sum (firstn n l) <= list_sum l.
Proof.
  rewrite <- (firstn_skipn n l) at 2; rewrite list_sum_app; lia.
Qed.

Lemma nodup_firstn {A : Type} (n : nat) (l : list A) :
  NoDup l -> NoDup (firstn n l).
Proof.
  intros H; rewrite <- (firstn_skipn n l) in H.
  apply NoDup_app_remove_r in H; exact H.
Qed.

(** X9.  In the list the Composition Analyzer returns no composition occurs
    twice, every count is at least 1, and the counts add up to at most the
    number of groups of the table, which are its (match, team) groups when
    it has the two grouping columns; they add up to exactly that number
    when the table has at most five distinct compositions. *)
Theorem composition_counts {ties : Ties} (df : DataFrame) (report : Report) :
  analyze_compositions df = Ok report ->
  has_column "champion" df = true ->
  let out := common_compositions report in
  exists groups,
    grouped_compositions df = Ok groups /\
    (has_column "match_id" df = true -> has_column "team_id" df = true ->
     groups = composition_series df) /\
    NoDup (map composition out) /\
    Forall (fun e => 1 <= count e) out /\
    list_sum (map count out) <= List.length groups /\
    (List.length (unique tuple_eqb groups) <= 5 ->
     list_sum (map count out) = List.length groups).
Proof.
  unfold analyze_compositions; intros H Hc; rewrite Hc in H; cbn [negb] in H.
  pose proof (grouped_compositions_cases df) as Hcases.
  destruct (grouped_compositions df) as [groups | key]; [| discriminate H].
  remember (firstn 5 (value_counts tuple_eqb groups)) as top eqn:Htop.
  cbn [bind] in H; cbn zeta in H; rewrite <- Htop in H.
  injection H as <-; cbn zeta; cbn [common_compositions].
  exists groups; split; [reflexivity |].
  split.
  { intros Hm Ht.
    destruct Hcases as [(_ & _ & Hs) | ([F | F] & _)]; [exact Hs | |];
      congruence. }
  rewrite !map_map; cbn [composition count]; subst top.
  split; [| split; [| split]].
  - rewrite <- firstn_map; apply nodup_firstn.
    apply (nodup_value_counts tuple_eqb tuple_eqb_eq).
  - rewrite Forall_map; cbn [count].
    rewrite Forall_forall; intros [v n] Hin; cbn [snd].
    assert (Hv : In (v, n) (value_counts tuple_eqb groups)).
    { rewrite <- (firstn_skipn 5 (value_counts _ _)).
      apply in_or_app; left; exact Hin. }
    apply (in_value_counts tuple_eqb tuple_eqb_eq) in Hv.
    destruct Hv as [Hv ->].
    unfold occurrences.
    destruct (filter _ _) as [| y l] eqn:E; [exfalso | simpl; lia].
    assert (F : In v (filter (fun y => tuple_eqb y v) groups))
      by (apply filter_In; split; [exact Hv | apply tuple_eqb_eq; reflexivity]).
    rewrite E in F; destruct F.
  - rewrite <- firstn_map.
    rewrite <- (sum_value_counts tuple_eqb tuple_eqb_eq groups).
    apply list_sum_firstn.
  - intros Hfew.
    rewrite firstn_all2.
    + apply (sum_value_counts tuple_eqb tuple_eqb_eq).
    + rewrite (Permutation_length
                 (value_counts_permutation tuple_eqb groups)).
      rewrite length_map; exact Hfew.
Qed.

Lemma composition_counts_witness :
  exists report,
    analyze_compositions (ties := stable_ties)
        Samples.two_games_frame = Ok report /\
    NoDup (map composition (common_compositions report)) /\
    list_sum (map count (common_compositions report)) = 4.
Proof.
  assert (Hc : has_column "champion" Samples.two_games_frame = true)
    by reflexivity.
  pose proof (fun report =>
                composition_counts (ties := stable_ties)
                  Samples.two_games_frame report) as H.
  destruct (analyze_compositions (ties := stable_ties) Samples.two_games_frame)
    as [report | key] eqn:E.
  - exists report; split; [reflexivity |].
    destruct (H report eq_refl Hc)
      as (groups & Hgroups & _ & Hdup & _ & _ & Hsum).
    vm_compute in Hgroups; injection Hgroups as <-.
    split; [exact Hdup |].
    rewrite Hsum; [reflexivity | vm_compute; lia].
  - exfalso; vm_compute in E; discriminate E.
Defined.

Lemma primary_style_of_counts (comp comp' : list string) :
  (forall a, tagged a comp = tagged a comp') ->
  primary_style comp = primary_style comp'.
Proof.
  intros H; unfold primary_style; cbn zeta; cbn [Python.max_from].
  rewrite !tally_tagged, !H, <- !tally_tagged.
  repeat (match goal with
          | |- context [(?x <? ?y)%nat] => destruct (x <? y)%nat
          end;
          rewrite ?tally_tagged, ?H, <- ?tally_tagged);
    reflexivity.
Qed.

Lemma tagged_permutation (a : Archetype) (comp comp' : list string) :
  Permutation comp comp' -> tagged a comp = tagged a comp'.
Proof.
  intros H; unfold tagged.
  apply Permutation_length, permutation_filter; exact H.
Qed.

Lemma tagged_only (a : Archetype) (comp : list string) :
  tagged a (filter is_tagged comp) = tagged a comp.
Proof.
  unfold tagged, is_tagged; induction comp as [| c comp IH]; [reflexivity |].
  cbn [filter].
  destruct (Python.dict_get c champion_tags) as [t |] eqn:E; [| exact IH].
  cbn [filter]; rewrite E.
  destruct (archetype_eqb t a); cbn [List.length]; rewrite IH; reflexivity.
Qed.

(** X10.  The classification of a composition depends only on how many of
    its champions carry each tag: it is the same for the champions in any
    order, and the same after the champions without a tag are left out. *)
Theorem classification_by_tag_counts (comp comp' : list string) :
  (Permutation comp comp' ->
   classify_team_composition comp = classify_team_composition comp') /\
  classify_team_composition (filter is_tagged comp)
  = classify_team_composition comp.
Proof.
  unfold classify_team_composition; split.
  - intros H; f_equal; apply primary_style_of_counts.
    intros a; apply tagged_permutation; exact H.
  - f_equal; apply primary_style_of_counts.
    intros a; apply tagged_only.
Qed.

Lemma dict_get_value {V : Type} (k : string) (v : V) (d : Python.dict V) :
  Python.dict_get k d = Some v -> In v (map snd d).
Proof.
  induction d as [| [k' v'] d IH]; simpl; [discriminate |].
  destruct (String.eqb k' k); [intros E; injection E as ->; auto | auto].
Qed.

Lemma classification_by_tag_counts_witness :
  Permutation ["Lee Sin"; "Lulu"; "Renekton"] ["Renekton"; "Lulu"; "Lee Sin"] /\
  classify_team_composition ["Lee Sin"; "Lulu"; "Renekton"]
  = classify_team_composition ["Renekton"; "Lulu"; "Lee Sin"].
Proof.
  assert (H : Permutation ["Lee Sin"; "Lulu"; "Renekton"]
                          ["Renekton"; "Lulu"; "Lee Sin"])
    by (apply (Permutation_rev ["Lee Sin"; "Lulu"; "Renekton"])).
  split; [exact H |].
  exact (proj1 (classification_by_tag_counts _ _) H).
Defined.

(** No champion of the registry carries the tag [standard]. *)
Lemma registry_tags (champ : string) (t : Archetype) :
  Python.dict_get champ champion_tags = Some t -> In t counts_keys.
Proof.
  intros H; apply dict_get_value in H.
  assert (Hall : forallb (fun v => existsb (archetype_eqb v) counts_keys)
                         (map snd champion_tags) = true)
    by (vm_compute; reflexivity).
  rewrite forallb_forall in Hall; specialize (Hall t H).
  apply existsb_exists in Hall; destruct Hall as (a & Ha & E).
  destruct t, a; try discriminate E; exact Ha.
Qed.

(** The four counts add up to the number of tagged champions. *)
Lemma tagged_total (comp : list string) :
  tagged skirmish comp + tagged protect comp + tagged engage comp
  + tagged scaling comp
  = List.length (filter is_tagged comp).
Proof.
  unfold tagged, is_tagged; induction comp as [| c comp IH]; [reflexivity |].
  cbn [filter].
  destruct (Python.dict_get c champion_tags) as [t |] eqn:E; [| exact IH].
  apply registry_tags in E.
  destruct E as [<- | [<- | [<- | [<- | []]]]]; cbn [archetype_eqb List.length];
    lia.
Qed.

(** X11.  A composition is classified STANDARD exactly when no archetype
    has two of its champions; so a composition with five tagged champions
    (four tags only exist) is never STANDARD. *)
Theorem standard_only_without_pair (comp : list string) :
  (category (classify_team_composition comp) = "STANDARD"
   <-> highest_count comp < 2) /\
  (5 <= List.length (filter is_tagged comp) ->
   category (classify_team_composition comp) <> "STANDARD").
Proof.
  assert (Hiff : category (classify_team_composition comp) = "STANDARD"
                 <-> highest_count comp < 2).
  { pose proof (max_from_keys (tally comp)) as Hmax; cbn zeta in Hmax.
    destruct Hmax as (Hin & Htop & _).
    assert (Htop' : tally comp (Python.max_from (tally comp) skirmish
                                  [protect; engage; scaling])
                    = highest_count comp)
      by (rewrite Htop, !tally_tagged; reflexivity).
    unfold classify_team_composition, primary_style; cbn zeta.
    rewrite Htop'.
    destruct (Nat.ltb_spec (highest_count comp) 2) as [Hlt | Hge].
    - split; [intros _; exact Hlt | intros _; reflexivity].
    - split; [| lia].
      unfold counts_keys in Hin.
      destruct Hin as [<- | [<- | [<- | [<- | []]]]]; cbn; discriminate. }
  split; [exact Hiff |].
  intros Hfive Hstd; apply Hiff in Hstd.
  pose proof (tagged_total comp) as Htotal.
  unfold highest_count in Hstd; lia.
Qed.

Lemma standard_only_without_pair_witness :
  5 <= List.length
         (filter is_tagged ["Lee Sin"; "Lulu"; "Malphite"; "Kayle"; "Janna"]) /\
  category (classify_team_composition
              ["Lee Sin"; "Lulu"; "Malphite"; "Kayle"; "Janna"])
  <> "STANDARD".
Proof.
  assert (H : 5 <= List.length
                     (filter is_tagged
                        ["Lee Sin"; "Lulu"; "Malphite"; "Kayle"; "Janna"]))
    by (vm_compute; lia).
  split; [exact H |].
  exact (proj2 (standard_only_without_pair _) H).
Defined.

End CompositionOutcomes.

(** ** Validation and normalization of a table *)

Module ValidationFacts.

Import FetchMatches Spec Terms.

Lemma missing_none (df : DataFrame) :
  filter (fun field => negb (has_column field df)) REQUIRED_FIELDS = [] <->
  forallb (fun field => has_column field df) REQUIRED_FIELDS = true.
Proof.
  induction REQUIRED_FIELDS as [| f l IH]; simpl; [tauto |].
  destruct (has_column f df); simpl; [exact IH |].
  split; discriminate.
Qed.

Lemma has_column_selected (name : string) (cols fields : list string) :
  existsb (String.eqb name)
          (flat_map (fun field => filter (String.eqb field) cols) fields)
  = existsb (String.eqb name) fields && existsb (String.eqb name) cols.
Proof.
  induction fields as [| f fields IH]; simpl; [reflexivity |].
  rewrite existsb_app, IH.
  destruct (String.eqb_spec name f) as [-> | Hne]; simpl.
  - assert (E : existsb (String.eqb f) (filter (String.eqb f) cols)
                = existsb (String.eqb f) cols).
    { clear IH; induction cols as [| c cols IHc]; simpl; [reflexivity |].
      destruct (String.eqb f c) eqn:Efc; simpl; rewrite ?Efc, IHc;
        reflexivity. }
    rewrite E.
    destruct (existsb (String.eqb f) cols); simpl;
      [reflexivity | apply andb_false_r].
  - assert (E : existsb (String.eqb name) (filter (String.eqb f) cols) = false).
    { clear IH; induction cols as [| c cols IHc]; simpl; [reflexivity |].
      destruct (String.eqb_spec f c) as [<- | _]; simpl; [| exact IHc].
      destruct (String.eqb_spec name f); [contradiction | exact IHc]. }
    rewrite E; reflexivity.
Qed.

(** The columns a normalized frame has are the required fields. *)
Lemma normalized_columns (df n : DataFrame) (name : string) :
  normalize_matches df = Some n ->
  rows n = rows df /\
  has_column name n = existsb (String.eqb name) REQUIRED_FIELDS /\
  (In name REQUIRED_FIELDS -> has_column name df = true).
Proof.
  unfold normalize_matches.
  remember REQUIRED_FIELDS as fields eqn:Hfields; clear Hfields.
  destruct (forallb _ fields) eqn:Hall; [| discriminate].
  intros H; injection H as <-; cbn [rows].
  split; [reflexivity |].
  rewrite forallb_forall in Hall.
  split; [| intros Hin; apply Hall; exact Hin].
  unfold has_column at 1; cbn [columns].
  rewrite has_column_selected.
  destruct (existsb (String.eqb name) fields) eqn:E; [| reflexivity].
  apply existsb_exists in E; destruct E as (f & Hf & E).
  apply String.eqb_eq in E; subst f.
  apply (Hall name Hf).
Qed.

Lemma selected_distinct (cols fields : list string) :
  NoDup cols ->
  (forall f, In f fields -> In f cols) ->
  flat_map (fun field => filter (String.eqb field) cols) fields = fields.
Proof.
  intros Hdup Hin; induction fields as [| f fields IH]; simpl; [reflexivity |].
  rewrite IH by (intros g Hg; apply Hin; right; exact Hg).
  assert (E : filter (String.eqb f) cols = [f]).
  { assert (Hf : In f cols) by (apply Hin; left; reflexivity).
    clear Hin IH; induction Hdup as [| c cols Hc Hdup IHd]; [destruct Hf |].
    simpl; destruct (String.eqb_spec f c) as [<- | Hne].
    - f_equal.
      assert (Hnone : forall l, ~ In f l -> filter (String.eqb f) l = []).
      { induction l as [| x l IHl]; simpl; [reflexivity |].
        intros Hl; destruct (String.eqb_spec f x) as [-> | _];
          [exfalso; apply Hl; left; reflexivity |].
        apply IHl; intros H; apply Hl; right; exact H. }
      apply Hnone; exact Hc.
    - apply IHd; destruct Hf as [E | Hf]; [congruence | exact Hf]. }
  rewrite E; reflexivity.
Qed.

(** X12.  [validate_data] returns exactly when the frame has all ten
    required fields, and otherwise raises [ValueError] with the missing
    fields listed in the order of [REQUIRED_FIELDS].  [normalize_matches]
    succeeds on exactly the frames that pass; the frame it returns has the
    same rows, has the required fields as its only columns (exactly
    [REQUIRED_FIELDS], in that order, when the labels of the input are
    distinct), and passes the validation again. *)
Theorem validation_gate (df : DataFrame) :
  match validate_data df with
  | Returns ok =>
      ok = true /\
      (forall f, In f REQUIRED_FIELDS -> has_column f df = true) /\
      exists n,
        normalize_matches df = Some n /\
        rows n = rows df /\
        (forall name, has_column name n = true <-> In name REQUIRED_FIELDS) /\
        (NoDup (columns df) -> columns n = REQUIRED_FIELDS) /\
        validate_data n = Returns true
  | ValueError message =>
      normalize_matches df = None /\
      exists missing,
        missing <> [] /\
        (forall f, In f missing <->
                   In f REQUIRED_FIELDS /\ has_column f df = false) /\
        message
        = ("Validation Error: Missing required fields: "
           ++ String.concat ", " missing)%string
  end.
Proof.
  unfold validate_data; cbn zeta.
  destruct (filter (fun field => negb (has_column field df)) REQUIRED_FIELDS)
    as [| m ms] eqn:Hmiss.
  - assert (Hall : forallb (fun field => has_column field df) REQUIRED_FIELDS
                   = true) by (apply missing_none; exact Hmiss).
    split; [reflexivity |].
    split; [apply forallb_forall; exact Hall |].
    assert (Hnorm : exists n, normalize_matches df = Some n)
      by (unfold normalize_matches; rewrite Hall; eexists; reflexivity).
    destruct Hnorm as [n Hn]; exists n.
    split; [exact Hn |].
    assert (Hcols : forall name,
              has_column name n = existsb (String.eqb name) REQUIRED_FIELDS)
      by (intros name; apply (normalized_columns df n name Hn)).
    split; [apply (normalized_columns df n "" Hn) |].
    split; [| split].
    + intros name; rewrite Hcols; split.
      * intros E; apply existsb_exists in E; destruct E as (f & Hf & E).
        apply String.eqb_eq in E; subst f; exact Hf.
      * intros Hin; apply existsb_exists; exists name.
        split; [exact Hin | apply String.eqb_refl].
    + revert Hn Hall; unfold normalize_matches.
      clear; remember REQUIRED_FIELDS as fields eqn:Hfields; clear Hfields.
      intros Hn Hall Hdup; rewrite Hall in Hn; revert Hn.
      intros H; injection H as <-; cbn [columns].
      apply selected_distinct; [exact Hdup |].
      intros f Hf; rewrite forallb_forall in Hall; specialize (Hall f Hf).
      unfold has_column in Hall; apply existsb_exists in Hall.
      destruct Hall as (c & Hc & E); apply String.eqb_eq in E; subst c.
      exact Hc.
    + assert (Hnone : filter (fun field => negb (has_column field n))
                             REQUIRED_FIELDS = []).
      { apply missing_none, forallb_forall; intros f Hf.
        rewrite Hcols; apply existsb_exists; exists f.
        split; [exact Hf | apply String.eqb_refl]. }
      rewrite Hnone; reflexivity.
  - split.
    + unfold normalize_matches.
      destruct (forallb _ REQUIRED_FIELDS) eqn:Hall; [| reflexivity].
      apply missing_none in Hall; congruence.
    + exists (m :: ms); split; [discriminate |]; split; [| reflexivity].
      intros f; rewrite <- Hmiss, filter_In, negb_true_iff; reflexivity.
Qed.

End ValidationFacts.

(** ** The columns the analyzers read *)

Module ViewFacts.

Import TeamTendencies PlayerTendencies HowToWin Compositions Spec Terms.
Import PandasFacts PlayerFacts TempoOutcomes PlayerOutcomes.

Lemma team_tendencies_view (df df' : DataFrame) :
  agree_on ["first_dragon"; "first_tower"; "game_duration"; "win"] df df' ->
  analyze_team_tendencies df = analyze_team_tendencies df'.
Proof.
  intros [Hrows Hcols].
  rewrite !analyze_team_tendencies_cases; unfold early_rows, late_rows.
  rewrite Hrows, !Hcols by (simpl; tauto); reflexivity.
Qed.

Lemma how_to_win_view (df df' : DataFrame) :
  agree_on ["first_dragon"; "first_tower"; "game_duration"; "win"] df df' ->
  generate_how_to_win_insights df = generate_how_to_win_insights df'.
Proof.
  intros [Hrows Hcols].
  rewrite !generate_cases; unfold early_rows, late_rows.
  rewrite Hrows, !Hcols by (simpl; tauto); reflexivity.
Qed.

Lemma compositions_view {ties : Ties} (df df' : DataFrame) :
  agree_on ["champion"; "match_id"; "team_id"] df df' ->
  analyze_compositions df = analyze_compositions df'.
Proof.
  intros [Hrows Hcols].
  unfold analyze_compositions, grouped_compositions, composition_series,
    groupby.
  rewrite Hrows, !Hcols by (simpl; tauto).
  rewrite !map_map; cbn [snd rows]; reflexivity.
Qed.

Lemma nonempty_columns (name : string) (df : DataFrame) :
  has_column name df = true -> columns df <> [].
Proof. unfold has_column; destruct (columns df); [discriminate | discriminate]. Qed.

Lemma analyze_role_view {ties : Ties} (g g' : DataFrame) :
  has_column "champion" g = true ->
  agree_on ["champion"; "win"] g g' ->
  analyze_role g = analyze_role g'.
Proof.
  intros Hc [Hrows Hcols].
  assert (Hc' : has_column "champion" g' = true)
    by (rewrite <- Hcols by (simpl; tauto); exact Hc).
  assert (Hw : has_column "win" g = has_column "win" g')
    by (apply Hcols; simpl; tauto).
  unfold analyze_role.
  assert (He : empty g = empty g').
  { unfold empty; rewrite Hrows.
    pose proof (nonempty_columns _ _ Hc) as Hn.
    pose proof (nonempty_columns _ _ Hc') as Hn'.
    destruct (rows g'), (columns g), (columns g'); congruence. }
  rewrite He; destruct (empty g'); [reflexivity |].
  rewrite !getitem_present by assumption; cbn [bind].
  rewrite Hrows.
  destruct (value_counts String.eqb (map champion (rows g')));
    [reflexivity |].
  destruct (idxmax _); [| reflexivity].
  unfold getitem; rewrite !has_column_loc, Hw.
  unfold loc; cbn [rows]; rewrite Hrows; reflexivity.
Qed.

Lemma role_loop_view {ties : Ties}
    (keys : list string) (make make' : string -> DataFrame) :
  (forall k, In k keys -> analyze_role (make k) = analyze_role (make' k)) ->
  forall acc,
    role_loop (map (fun k => (k, make k)) keys) acc
    = role_loop (map (fun k => (k, make' k)) keys) acc.
Proof.
  induction keys as [| k keys IH]; intros Hall acc; [reflexivity |].
  cbn [map role_loop].
  rewrite (Hall k) by (left; reflexivity).
  destruct (analyze_role (make' k)) as [[t |] | key]; cbn [bind];
    [| | reflexivity];
    apply IH; intros j Hj; apply Hall; right; exact Hj.
Qed.

Lemma player_tendencies_view {ties : Ties} (df df' : DataFrame)
    (roles : option (list string)) :
  agree_on ["role"; "champion"; "win"] df df' ->
  analyze_player_tendencies df roles = analyze_player_tendencies df' roles.
Proof.
  intros [Hrows Hcols].
  assert (Hr : has_column "role" df = has_column "role" df')
    by (apply Hcols; simpl; tauto).
  assert (Hc : has_column "champion" df = has_column "champion" df')
    by (apply Hcols; simpl; tauto).
  assert (Hw : has_column "win" df = has_column "win" df')
    by (apply Hcols; simpl; tauto).
  destruct (has_column "role" df') eqn:Hr';
    [destruct (has_column "champion" df') eqn:Hc' |].
  2:{ unfold analyze_player_tendencies; rewrite Hr, Hc, Hr', Hc'.
      reflexivity. }
  2:{ unfold analyze_player_tendencies; rewrite Hr, Hr'; reflexivity. }
  rewrite (analyze_player_tendencies_eq df roles Hr Hc).
  rewrite (analyze_player_tendencies_eq df' roles Hr' Hc').
  unfold groupby, analyzed_frame, analyzed_rows; cbn [rows columns].
  rewrite Hrows.
  apply role_loop_view; intros k _.
  apply analyze_role_view; [exact Hc |].
  split; [reflexivity |].
  intros f [<- | [<- | []]];
    [change (has_column "champion" df = has_column "champion" df')
    | change (has_column "win" df = has_column "win" df')];
    congruence.
Qed.

(** X13.  On frames with distinct column labels the four analyzers read
    nothing but the rows and the presence of the columns [first_dragon],
    [first_tower], [game_duration], [win], [role], [champion], [match_id]
    and [team_id], all of them required fields: on two such frames with the
    same rows that agree on which required fields they have, each analyzer
    gives the same result or raises the same error, whatever other columns
    the frames have and in whatever order the columns come. *)
Theorem analyzers_read_required_fields {ties : Ties} (df df' : DataFrame) :
  NoDup (columns df) ->
  NoDup (columns df') ->
  agree_on FetchMatches.REQUIRED_FIELDS df df' ->
  analyze_team_tendencies df = analyze_team_tendencies df' /\
  generate_how_to_win_insights df = generate_how_to_win_insights df' /\
  analyze_compositions df = analyze_compositions df' /\
  forall roles,
    analyze_player_tendencies df roles = analyze_player_tendencies df' roles.
Proof.
  intros _ _ [Hrows Hcols].
  assert (Hsub : forall fields,
             (forall f, In f fields -> In f FetchMatches.REQUIRED_FIELDS) ->
             agree_on fields df df').
  { intros fields Hin; split; [exact Hrows |].
    intros f Hf; apply Hcols, Hin, Hf. }
  split; [| split; [| split]].
  - apply team_tendencies_view, Hsub; unfold FetchMatches.REQUIRED_FIELDS.
    simpl; intuition.
  - apply how_to_win_view, Hsub; unfold FetchMatches.REQUIRED_FIELDS.
    simpl; intuition.
  - apply compositions_view, Hsub; unfold FetchMatches.REQUIRED_FIELDS.
    simpl; intuition.
  - intros roles.
    apply player_tendencies_view, Hsub; unfold FetchMatches.REQUIRED_FIELDS.
    simpl; intuition.
Qed.

Ltac distinct_labels :=
  repeat (constructor;
          [simpl; intros Hin;
           repeat (destruct Hin as [Hin | Hin]; [discriminate Hin |]);
           exact Hin |]);
  constructor.

Lemma analyzers_read_required_fields_witness :
  NoDup (columns Cases.extended_frame) /\
  NoDup (columns Cases.shuffled_frame) /\
  agree_on FetchMatches.REQUIRED_FIELDS
           Cases.extended_frame Cases.shuffled_frame /\
  analyze_compositions (ties := stable_ties) Cases.extended_frame
  = analyze_compositions (ties := stable_ties) Cases.shuffled_frame.
Proof.
  assert (H : agree_on FetchMatches.REQUIRED_FIELDS
                       Cases.extended_frame Cases.shuffled_frame).
  { split; [reflexivity |].
    intros f Hf; simpl in Hf.
    repeat (destruct Hf as [<- | Hf]; [vm_compute; reflexivity |]).
    destruct Hf. }
  assert (Hd : NoDup (columns Cases.extended_frame)) by distinct_labels.
  assert (Hd' : NoDup (columns Cases.shuffled_frame)) by distinct_labels.
  split; [exact Hd |]; split; [exact Hd' |]; split; [exact H |].
  apply (analyzers_read_required_fields (ties := stable_ties) _ _ Hd Hd' H).
Defined.

Ltac exists_ok Hn Hcols Hp :=
  do 2 eexists; eexists ?[players]; eexists;
  repeat split; first [exact Hn | exact Hcols | exact Hp | reflexivity].

(** X14.  A table with distinct column labels that passes [validate_data]
    is normalized without error to a table whose columns are the required
    fields in their order, and each of the four analyzers returns a result
    on the normalized table, the one it returns on the table itself. *)
Theorem validated_pipeline {ties : Ties} (df : DataFrame) :
  NoDup (columns df) ->
  FetchMatches.validate_data df = FetchMatches.Returns true ->
  exists n team insights players report,
    FetchMatches.normalize_matches df = Some n /\
    columns n = FetchMatches.REQUIRED_FIELDS /\
    analyze_team_tendencies n = Ok team /\
    analyze_team_tendencies df = Ok team /\
    generate_how_to_win_insights n = Ok insights /\
    generate_how_to_win_insights df = Ok insights /\
    List.length insights = 3 /\
    analyze_player_tendencies n None = Ok players /\
    analyze_player_tendencies df None = Ok players /\
    analyze_compositions n = Ok report /\
    analyze_compositions df = Ok report.
Proof.
  intros Hdistinct Hvalid.
  assert (Hall : forallb (fun field => has_column field df)
                         FetchMatches.REQUIRED_FIELDS = true).
  { apply ValidationFacts.missing_none.
    revert Hvalid; unfold FetchMatches.validate_data; cbn zeta.
    destruct (filter _ FetchMatches.REQUIRED_FIELDS);
      [reflexivity | discriminate]. }
  assert (Hnorm : exists n, FetchMatches.normalize_matches df = Some n)
    by (unfold FetchMatches.normalize_matches; rewrite Hall;
        eexists; reflexivity).
  destruct Hnorm as [n Hn]; exists n.
  assert (Hhas : forall f, In f FetchMatches.REQUIRED_FIELDS ->
                           has_column f df = true)
    by (apply forallb_forall; exact Hall).
  assert (Hcols : columns n = FetchMatches.REQUIRED_FIELDS).
  { revert Hn Hall Hhas; unfold FetchMatches.normalize_matches.
    remember FetchMatches.REQUIRED_FIELDS as fields eqn:Hfields.
    clear Hfields; intros Hn Hall Hhas; rewrite Hall in Hn.
    injection Hn as <-; cbn [columns].
    apply ValidationFacts.selected_distinct; [exact Hdistinct |].
    intros f Hf; specialize (Hhas f Hf).
    unfold has_column in Hhas; apply existsb_exists in Hhas.
    destruct Hhas as (c & Hc & E); apply String.eqb_eq in E; subst c.
    exact Hc. }
  assert (Hagree : agree_on FetchMatches.REQUIRED_FIELDS n df).
  { split; [apply (ValidationFacts.normalized_columns df n "" Hn) |].
    intros f Hf.
    destruct (ValidationFacts.normalized_columns df n f Hn) as (_ & -> & _).
    rewrite (Hhas f Hf); apply existsb_exists; exists f.
    split; [exact Hf | apply String.eqb_refl]. }
  assert (Hsub : forall fields,
             (forall f, In f fields -> In f FetchMatches.REQUIRED_FIELDS) ->
             agree_on fields n df).
  { intros fields Hin; split; [apply Hagree |].
    intros f Hf; apply Hagree, Hin, Hf. }
  assert (Hd : has_column "first_dragon" df = true)
    by (apply Hhas; simpl; tauto).
  assert (Ht : has_column "first_tower" df = true)
    by (apply Hhas; simpl; tauto).
  assert (Hg : has_column "game_duration" df = true)
    by (apply Hhas; simpl; tauto).
  assert (Hw : has_column "win" df = true) by (apply Hhas; simpl; tauto).
  assert (Hm : has_column "match_id" df = true) by (apply Hhas; simpl; tauto).
  assert (Hi : has_column "team_id" df = true) by (apply Hhas; simpl; tauto).
  assert (E1 : analyze_team_tendencies n = analyze_team_tendencies df)
    by (apply team_tendencies_view, Hsub;
        unfold FetchMatches.REQUIRED_FIELDS; simpl; intuition).
  assert (E2 : generate_how_to_win_insights n
               = generate_how_to_win_insights df)
    by (apply how_to_win_view, Hsub;
        unfold FetchMatches.REQUIRED_FIELDS; simpl; intuition).
  assert (E3 : analyze_player_tendencies n None
               = analyze_player_tendencies df None)
    by (apply player_tendencies_view, Hsub;
        unfold FetchMatches.REQUIRED_FIELDS; simpl; intuition).
  assert (E4 : analyze_compositions n = analyze_compositions df)
    by (apply compositions_view, Hsub;
        unfold FetchMatches.REQUIRED_FIELDS; simpl; intuition).
  rewrite E1, E2, E3, E4.
  destruct (player_tendencies_total df None Hw) as [players Hp].
  rewrite analyze_team_tendencies_cases, generate_cases.
  rewrite Hd, Ht, Hg, Hw; cbn [negb orb].
  unfold analyze_compositions, grouped_compositions.
  rewrite Hm, Hi; cbn [andb bind].
  destruct (has_column "champion" df); cbn [negb];
    exists_ok Hn Hcols Hp.
Qed.

Lemma validated_pipeline_witness :
  NoDup (columns Cases.extended_frame) /\
  FetchMatches.validate_data Cases.extended_frame = FetchMatches.Returns true /\
  exists n,
    FetchMatches.normalize_matches Cases.extended_frame = Some n /\
    columns n = FetchMatches.REQUIRED_FIELDS.
Proof.
  assert (Hd : NoDup (columns Cases.extended_frame)) by distinct_labels.
  assert (H : FetchMatches.validate_data Cases.extended_frame
              = FetchMatches.Returns true) by (vm_compute; reflexivity).
  split; [exact Hd |]; split; [exact H |].
  destruct (validated_pipeline (ties := stable_ties) _ Hd H)
    as (n & _ & _ & _ & _ & Hn & Hcols & _).
  exists n; split; [exact Hn | exact Hcols].
Defined.

End ViewFacts.

(** ** Loops that an exception ends *)

Module LoopFacts.

Import Json.

Section Loops.
Context {A B : Type}.

Lemma for_each_items (body : A -> option B) (items : list A) (ys : list B) :
  for_each body items = Some ys ->
  Forall2 (fun x y => body x = Some y) items ys.
Proof.
  revert ys; induction items as [| x items IH]; intros ys; simpl.
  - intros [= <-]; constructor.
  - destruct (body x) as [y |] eqn:Ex; [| discriminate].
    destruct (for_each body items) as [ys' |]; [| discriminate].
    intros [= <-]; constructor; [exact Ex | apply IH; reflexivity].
Qed.

Lemma for_each_raises (body : A -> option B) (items : list A) (x : A) :
  In x items -> body x = None -> for_each body items = None.
Proof.
  intros Hin Hx; induction items as [| a items IH]; [destruct Hin |]; simpl.
  destruct Hin as [-> | Hin]; [rewrite Hx; reflexivity |].
  destruct (body a); [| reflexivity].
  rewrite (IH Hin); reflexivity.
Qed.

Lemma for_each_indexed_items (body : nat -> A -> option B) (index : nat)
    (items : list A) (ys : list B) :
  for_each_indexed body index items = Some ys ->
  Forall2 (fun kx y => body (fst kx) (snd kx) = Some y)
          (combine (seq index (List.length items)) items) ys.
Proof.
  revert index ys; induction items as [| x items IH]; intros index ys; simpl.
  - intros [= <-]; constructor.
  - destruct (body index x) as [y |] eqn:Ex; [| discriminate].
    destruct (for_each_indexed body (S index) items) as [ys' |] eqn:E;
      [| discriminate].
    intros [= <-]; constructor; [exact Ex | apply IH; exact E].
Qed.

Lemma for_each_indexed_raises (body : nat -> A -> option B) (index : nat)
    (items : list A) (x : A) :
  In x items -> (forall k, body k x = None) ->
  for_each_indexed body index items = None.
Proof.
  intros Hin Hx; revert index.
  induction items as [| a items IH]; intros index; [destruct Hin |]; simpl.
  destruct Hin as [-> | Hin]; [rewrite Hx; reflexivity |].
  destruct (body index a); [| reflexivity].
  rewrite (IH Hin); reflexivity.
Qed.

Lemma any_exists (test : A -> option bool) (p : A -> bool) (items : list A) :
  (forall x, In x items -> test x = Some (p x)) ->
  any test items = Some (existsb p items).
Proof.
  induction items as [| x items IH]; intros Hall; simpl; [reflexivity |].
  rewrite (Hall x) by (left; reflexivity).
  destruct (p x); [reflexivity |].
  apply IH; intros y Hy; apply Hall; right; exact Hy.
Qed.

End Loops.

Lemma forall2_length {A B : Type} (R : A -> B -> Prop) (l : list A)
    (l' : list B) :
  Forall2 R l l' -> List.length l = List.length l'.
Proof. induction 1; simpl; congruence. Qed.

Lemma forall2_right {A B : Type} (R : A -> B -> Prop) (l : list A)
    (l' : list B) (y : B) :
  Forall2 R l l' -> In y l' -> exists x, In x l /\ R x y.
Proof.
  induction 1 as [| a b l l' Hab _ IH]; intros Hin; [destruct Hin |].
  destruct Hin as [<- | Hin].
  - exists a; split; [left; reflexivity | exact Hab].
  - destruct (IH Hin) as (x & Hx & Hr); exists x; split;
      [right; exact Hx | exact Hr].
Qed.

End LoopFacts.

(** ** The rows the parser builds *)

Module ParserFacts.

Import Json FetchMatches FetchTerms LoopFacts.

Lemma flag_binary (b : bool) : binary (flag b).
Proof. destruct b; [right | left]; reflexivity. Qed.

(** The row of a player carries the values it was given. *)
Lemma player_row_fields (pm : table) (mid : string) (tid tname won d : json)
    (fd ft : bool) (k : nat) (p : json) (r : row) :
  player_row pm mid tid tname won d fd ft k p = Some r ->
  match_id r = mid /\ team_id r = tid /\ team_name r = tname /\
  win r = flag (truthy won) /\ game_duration r = d /\
  first_dragon r = flag fd /\ first_tower r = flag ft /\
  role r = role_at k.
Proof.
  unfold player_row.
  destruct (get p "id" JNull) as [p_id |]; [| discriminate].
  destruct (hashable p_id); [| discriminate].
  destruct (get p "character" (JDict [])) as [c |]; [| discriminate].
  destruct (get c "name" (JStr "Unknown")) as [n |]; [| discriminate].
  intros [= <-]; cbn; repeat split; reflexivity.
Qed.

(** The rows of a team: common team-level values, roles by position. *)
Lemma team_rows_fields (pm : table) (mid : string) (d team : json)
    (block : list row) :
  team_rows pm mid d team = Some block ->
  map role block = map role_at (seq 0 (List.length block)) /\
  exists tid tname won fd ft,
    forall r, In r block ->
      match_id r = mid /\ team_id r = tid /\ team_name r = tname /\
      win r = flag won /\ game_duration r = d /\
      first_dragon r = flag fd /\ first_tower r = flag ft.
Proof.
  unfold team_rows.
  destruct (get team "id" JNull) as [tid |]; [| discriminate].
  destruct (get team "name" JNull) as [tname |]; [| discriminate].
  destruct (get team "won" (JBool false)) as [won |]; [| discriminate].
  destruct (get team "objectives" (JList [])) as [objectives |];
    [| discriminate].
  destruct (iterate objectives) as [objs |]; [| discriminate].
  destruct (any slays_first_dragon objs) as [fd |]; [| discriminate].
  destruct (any destroys_first_turret objs) as [ft0 |]; [| discriminate].
  destruct (if negb ft0 then any names_first_turret objs else Some ft0)
    as [ft |]; [| discriminate].
  destruct (get team "players" (JList [])) as [players |]; [| discriminate].
  destruct (iterate players) as [ps |]; [| discriminate].
  intros Hrows; apply for_each_indexed_items in Hrows.
  split.
  - revert Hrows; generalize 0.
    revert block; induction ps as [| p ps IH]; intros block i Hrows;
      inversion Hrows as [| kx r l l' Hr Hrest]; subst; [reflexivity |].
    cbn [map List.length seq]; f_equal.
    + apply player_row_fields in Hr; cbn [fst] in Hr; tauto.
    + apply IH; exact Hrest.
  - exists tid, tname, (truthy won), fd, ft; intros r Hin.
    destruct (forall2_right _ _ _ r Hrows Hin) as (kx & _ & Hr).
    apply player_row_fields in Hr; tauto.
Qed.

Lemma team_rows_block (pm : table) (mid : string) (d team : json)
    (block : list row) :
  team_rows pm mid d team = Some block ->
  team_block block /\
  forall r, In r block ->
    match_id r = mid /\ game_duration r = d /\
    binary (win r) /\ binary (first_dragon r) /\ binary (first_tower r).
Proof.
  intros H; apply team_rows_fields in H.
  destruct H as (Hroles & tid & tname & won & fd & ft & Hall).
  split; [split; [exact Hroles |] |].
  - intros r r' Hr Hr'.
    destruct (Hall r Hr) as (E1 & E2 & E3 & E4 & E5 & E6 & E7).
    destruct (Hall r' Hr') as (F1 & F2 & F3 & F4 & F5 & F6 & F7).
    unfold same_team; repeat split; congruence.
  - intros r Hr.
    destruct (Hall r Hr) as (E1 & _ & _ & E4 & E5 & E6 & E7).
    rewrite E4, E6, E7.
    repeat split; try assumption; apply flag_binary.
Qed.

(** The rows of a game: one block per team, all with the match id and the
    duration of the game. *)
Lemma game_rows_blocks (pm : table) (sid : string) (i : nat) (game : json)
    (blocks : list (list row)) :
  game_rows pm sid i game = Some blocks ->
  exists d,
    duration_of game = Some d /\
    forall block, In block blocks ->
      team_block block /\
      forall r, In r block ->
        match_id r = (sid ++ "_G" ++ decimal (i + 1))%string /\
        game_duration r = d /\
        binary (win r) /\ binary (first_dragon r) /\ binary (first_tower r).
Proof.
  unfold game_rows, duration_of; cbn zeta.
  destruct (get game "clock" (JDict [])) as [clock |]; [| discriminate].
  destruct (get clock "currentSeconds" (JInt 0)) as [d |]; [| discriminate].
  destruct (get game "teams" (JList [])) as [teams |]; [| discriminate].
  destruct (iterate teams) as [ts |]; [| discriminate].
  intros H; apply for_each_items in H.
  exists d; split; [reflexivity |]; intros block Hin.
  destruct (forall2_right _ _ _ block H Hin) as (team & _ & Hteam).
  apply team_rows_block in Hteam; exact Hteam.
Qed.

Lemma series_games (path : string) (data : json)
    (blocks : list (list (list row))) :
  series_blocks path data = Some blocks ->
  exists pm gs,
    for_each_indexed (game_rows pm (series_id_of path)) 0 gs = Some blocks.
Proof.
  unfold series_blocks; cbn zeta.
  destruct (get data "seriesState" (JDict [])) as [ss |]; [| discriminate].
  destruct (get ss "games" (JList [])) as [games |]; [| discriminate].
  destruct (get ss "players" (JList [])) as [players |]; [| discriminate].
  destruct (iterate players) as [ps |]; [| discriminate].
  destruct (build_player_map ps []) as [pm |]; [| discriminate].
  destruct (iterate games) as [gs |]; [| discriminate].
  intros H; exists pm, gs; exact H.
Qed.

(** X15.  When [parse_end_state_json] returns a table, its rows come in
    blocks, one per team of a game and in the order of the file: within a
    block the match id, the team id and name, [win], [game_duration],
    [first_dragon] and [first_tower] are the same on every row, and the
    roles are TOP, JUNGLE, MID, ADC, SUPPORT by position, UNKNOWN from the
    sixth player on; [win], [first_dragon] and [first_tower] are 1 or 0 on
    every row. *)
Theorem parsed_rows_by_team (path : string) (file : option json)
    (rows : list row) :
  parse_end_state_json path file = Some rows ->
  (exists blocks, rows = List.concat blocks /\ Forall team_block blocks) /\
  (forall r, In r rows ->
     binary (win r) /\ binary (first_dragon r) /\ binary (first_tower r)).
Proof.
  unfold parse_end_state_json.
  destruct file as [data |]; [| discriminate].
  destruct (series_blocks path data) as [blocks |] eqn:E; [| discriminate].
  intros [= <-].
  apply series_games in E; destruct E as (pm & gs & E).
  apply for_each_indexed_items in E.
  assert (Hall : forall tb block, In tb blocks -> In block tb ->
            team_block block /\
            forall r, In r block ->
              binary (win r) /\ binary (first_dragon r)
              /\ binary (first_tower r)).
  { intros tb block Htb Hblock.
    destruct (forall2_right _ _ _ tb E Htb) as (kx & _ & Hgame).
    apply game_rows_blocks in Hgame; destruct Hgame as (d & _ & Hgame).
    destruct (Hgame block Hblock) as [Hteam Hrows].
    split; [exact Hteam |].
    intros r Hr; destruct (Hrows r Hr) as (_ & _ & H); exact H. }
  split.
  - exists (List.concat blocks); split; [reflexivity |].
    apply Forall_forall; intros block Hin.
    apply in_concat in Hin; destruct Hin as (tb & Htb & Hblock).
    apply (Hall tb block Htb Hblock).
  - intros r Hin.
    apply in_concat in Hin; destruct Hin as (block & Hblock & Hr).
    apply in_concat in Hblock; destruct Hblock as (tb & Htb & Hblock).
    apply (Hall tb block Htb Hblock); exact Hr.
Qed.

Lemma parsed_rows_by_team_witness :
  exists rows,
    parse_end_state_json FetchCases.sample_path
                         (Some FetchCases.two_games_file) = Some rows /\
    List.length rows = 8 /\
    exists blocks, rows = List.concat blocks /\ Forall team_block blocks.
Proof.
  eexists; split; [vm_compute; reflexivity |].
  split; [reflexivity |].
  refine (proj1 (parsed_rows_by_team FetchCases.sample_path
                   (Some FetchCases.two_games_file) _ _)).
  vm_compute; reflexivity.
Defined.

(** *** Match ids *)

Lemma append_cancel (s a b : string) :
  (s ++ a)%string = (s ++ b)%string -> a = b.
Proof.
  induction s as [| c s IH]; simpl; [tauto |].
  intros [= H]; apply IH; exact H.
Qed.

Lemma decimal_inj (a b : nat) : decimal a = decimal b -> a = b.
Proof.
  unfold decimal; intros H.
  apply Unsigned.to_uint_inj.
  assert (E : Some (Nat.to_uint a) = Some (Nat.to_uint b))
    by (rewrite <- !NilEmpty.usu, H; reflexivity).
  injection E as E; exact E.
Qed.

Lemma indexed_item {A : Type} (l : list A) (i k : nat) (x y : A) :
  In (k, x) (combine (seq i (List.length l)) l) ->
  In (k, y) (combine (seq i (List.length l)) l) ->
  x = y.
Proof.
  revert i; induction l as [| a l IH]; intros i; simpl; [tauto |].
  intros [Hx | Hx] [Hy | Hy].
  - congruence.
  - injection Hx as <- _.
    apply in_combine_l, in_seq in Hy; lia.
  - injection Hy as <- _.
    apply in_combine_l, in_seq in Hx; lia.
  - apply (IH (S i)); assumption.
Qed.

Lemma indexed_from {A : Type} (l : list A) (i k : nat) (x : A) :
  In (k, x) (combine (seq i (List.length l)) l) -> i <= k.
Proof. intros H; apply in_combine_l, in_seq in H; lia. Qed.

(** X16.  Every row of a parsed table has the match id
    [<series id>_G<k>], [k] counting the games of the file from 1 and the
    series id being read off the file name; two rows have the same match
    id only when they come from the same game, and then they carry the
    same [game_duration]. *)
Theorem parsed_match_ids (path : string) (file : option json)
    (rows : list row) :
  parse_end_state_json path file = Some rows ->
  (forall r, In r rows ->
     exists k, 1 <= k /\
       match_id r = (series_id_of path ++ "_G" ++ decimal k)%string) /\
  (forall r r', In r rows -> In r' rows ->
     match_id r = match_id r' -> game_duration r = game_duration r').
Proof.
  unfold parse_end_state_json.
  destruct file as [data |]; [| discriminate].
  destruct (series_blocks path data) as [blocks |] eqn:E; [| discriminate].
  intros [= <-].
  apply series_games in E; destruct E as (pm & gs & E).
  apply for_each_indexed_items in E.
  assert (Hrow : forall r, In r (List.concat (List.concat blocks)) ->
            exists k game d,
              In (k, game) (combine (seq 0 (List.length gs)) gs) /\
              duration_of game = Some d /\
              match_id r
              = (series_id_of path ++ "_G" ++ decimal (k + 1))%string /\
              game_duration r = d).
  { intros r Hin.
    apply in_concat in Hin; destruct Hin as (block & Hblock & Hr).
    apply in_concat in Hblock; destruct Hblock as (tb & Htb & Hblock).
    destruct (forall2_right _ _ _ tb E Htb) as ([k game] & Hk & Hgame).
    cbn [fst snd] in Hgame.
    apply game_rows_blocks in Hgame; destruct Hgame as (d & Hd & Hgame).
    destruct (Hgame block Hblock) as [_ Hrows].
    destruct (Hrows r Hr) as (Hm & Hdur & _).
    exists k, game, d; auto. }
  split.
  - intros r Hin.
    destruct (Hrow r Hin) as (k & game & d & _ & _ & Hm & _).
    exists (k + 1); split; [lia | exact Hm].
  - intros r r' Hin Hin' Hsame.
    destruct (Hrow r Hin) as (k & game & d & Hk & Hd & Hm & ->).
    destruct (Hrow r' Hin') as (k' & game' & d' & Hk' & Hd' & Hm' & ->).
    rewrite Hm, Hm' in Hsame.
    apply append_cancel in Hsame.
    change ("_G" ++ decimal (k + 1))%string
      with (String "_" (String "G" (decimal (k + 1)))) in Hsame.
    change ("_G" ++ decimal (k' + 1))%string
      with (String "_" (String "G" (decimal (k' + 1)))) in Hsame.
    injection Hsame as Hsame; apply decimal_inj in Hsame.
    assert (k = k') by lia; subst k'.
    assert (game = game') by (apply (indexed_item gs 0 k); assumption).
    congruence.
Qed.

Lemma parsed_match_ids_witness :
  exists rows,
    parse_end_state_json FetchCases.sample_path
                         (Some FetchCases.two_games_file) = Some rows /\
    map match_id rows
    = repeat "2843069_G1" 4 ++ repeat "2843069_G2" 4 /\
    forall r r', In r rows -> In r' rows ->
      match_id r = match_id r' -> game_duration r = game_duration r'.
Proof.
  eexists; split; [vm_compute; reflexivity |].
  split; [reflexivity |].
  refine (proj2 (parsed_match_ids FetchCases.sample_path
                   (Some FetchCases.two_games_file) _ _)).
  vm_compute; reflexivity.
Defined.

(** *** The series id *)

Lemma prefix_nil (s : string) : String.prefix "" s = true.
Proof. destruct s; reflexivity. Qed.

Lemma prefix_char (a b : ascii) (rest s : string) :
  String.prefix (String a rest) (String b s)
  = Ascii.eqb a b && String.prefix rest s.
Proof.
  cbn [String.prefix].
  destruct (Ascii.ascii_dec a b) as [-> | Hne].
  - rewrite Ascii.eqb_refl; reflexivity.
  - destruct (Ascii.eqb_spec a b); [contradiction | reflexivity].
Qed.

Lemma digit_not (c d : ascii) (s rest : string) :
  is_digit c = true -> is_digit d = false ->
  String.prefix (String d s) (String c rest) = false.
Proof.
  intros Hc Hd; rewrite prefix_char.
  destruct (Ascii.eqb_spec d c) as [-> |]; [congruence | reflexivity].
Qed.

Lemma slash_found (dir name : string) :
  substring_of "/" (dir ++ "/" ++ name) = true.
Proof.
  induction dir as [| c dir IH].
  - change (("" ++ "/" ++ name)%string) with (String "/" name).
    cbn [substring_of]; rewrite prefix_char, prefix_nil; reflexivity.
  - change ((String c dir ++ "/" ++ name)%string)
      with (String c (dir ++ "/" ++ name)).
    cbn [substring_of]; rewrite IH; apply orb_true_r.
Qed.

Lemma basename_of_path (dir name : string) :
  substring_of "/" name = false ->
  basename (dir ++ "/" ++ name) = name.
Proof.
  intros Hname.
  assert (Hbase : basename name = name)
    by (destruct name; [reflexivity |]; cbn [basename]; rewrite Hname;
        reflexivity).
  induction dir as [| c dir IH].
  - change (("" ++ "/" ++ name)%string) with (String "/" name).
    cbn [basename].
    pose proof (slash_found "" name) as E.
    change (("" ++ "/" ++ name)%string) with (String "/" name) in E.
    rewrite E; exact Hbase.
  - change ((String c dir ++ "/" ++ name)%string)
      with (String c (dir ++ "/" ++ name)).
    cbn [basename].
    assert (E : substring_of "/" (String c (dir ++ "/" ++ name)) = true)
      by (cbn [substring_of]; rewrite slash_found; apply orb_true_r).
    rewrite E; exact IH.
Qed.

Lemma digits_kept (old : ascii) (olds id tail : string) :
  is_digit old = false ->
  all_digits id = true ->
  remove_from (String old olds) 0 (id ++ tail)
  = (id ++ remove_from (String old olds) 0 tail)%string.
Proof.
  intros Hold; induction id as [| c id IH]; intros Hid; [reflexivity |].
  cbn [all_digits] in Hid; apply andb_prop in Hid; destruct Hid as [Hc Hid].
  change ((String c id ++ tail)%string) with (String c (id ++ tail)).
  cbn [remove_from].
  rewrite (digit_not c old olds _ Hc Hold).
  rewrite (IH Hid); reflexivity.
Qed.

Lemma digits_no_slash (id tail : string) :
  all_digits id = true ->
  substring_of "/" (id ++ tail) = substring_of "/" tail.
Proof.
  induction id as [| c id IH]; intros Hid; [reflexivity |].
  cbn [all_digits] in Hid; apply andb_prop in Hid; destruct Hid as [Hc Hid].
  change ((String c id ++ tail)%string) with (String c (id ++ tail)).
  cbn [substring_of].
  rewrite (digit_not c "/" "" _ Hc eq_refl), (IH Hid); reflexivity.
Qed.

Lemma append_empty (s : string) : (s ++ "")%string = s.
Proof. induction s as [| c s IH]; simpl; [| rewrite IH]; reflexivity. Qed.

(** X17.  For a file named [series_<id>.json] in any directory, [<id>] a
    string of decimal digits, the series id that the parser puts into the
    match ids is [<id>]. *)
Theorem series_id_of_file_name (dir id : string) :
  all_digits id = true ->
  series_id_of (dir ++ "/" ++ "series_" ++ id ++ ".json") = id.
Proof.
  intros Hid; unfold series_id_of, remove.
  assert (Hname : ("series_" ++ id ++ ".json")%string
                  = String "s" (String "e" (String "r" (String "i"
                      (String "e" (String "s" (String "_"
                         (id ++ ".json")))))))) by reflexivity.
  rewrite basename_of_path.
  2:{ rewrite Hname; cbn [substring_of].
      rewrite !prefix_char; cbn [Ascii.eqb Bool.eqb andb orb].
      rewrite digits_no_slash by exact Hid; reflexivity. }
  rewrite Hname; cbn [remove_from String.length Nat.sub].
  rewrite !prefix_char, prefix_nil; cbn [Ascii.eqb Bool.eqb andb].
  rewrite (digits_kept "s" "eries_" id ".json" eq_refl Hid).
  change (remove_from "series_" 0 ".json") with ".json".
  rewrite (digits_kept "." "json" id ".json" eq_refl Hid).
  change (remove_from ".json" 0 ".json") with "".
  apply append_empty.
Qed.

Lemma series_id_of_file_name_witness :
  all_digits "2843069" = true /\
  series_id_of "data/raw/series_2843069.json" = "2843069".
Proof.
  split; [reflexivity |].
  apply (series_id_of_file_name "data/raw" "2843069"); reflexivity.
Defined.

(** *** Entries that cannot be read *)

Lemma unreadable_row (p : json) :
  unreadable_player p = true ->
  forall pm mid tid tname won d fd ft k,
    player_row pm mid tid tname won d fd ft k p = None.
Proof.
  intros Hp pm mid tid tname won d fd ft k; unfold player_row, get.
  destruct p as [| b | n | f | t | l | items]; try reflexivity.
  cbn [unreadable_player] in Hp.
  destruct (lookup "id" items) as [id |]; cbn [hashable].
  - destruct (hashable id); [| reflexivity].
    cbn [negb orb] in Hp.
    destruct (lookup "character" items) as [[| b | n | f | t | l | c] |];
      try discriminate Hp; reflexivity.
  - cbn [orb] in Hp.
    destruct (lookup "character" items) as [[| b | n | f | t | l | c] |];
      try discriminate Hp; reflexivity.
Qed.

Lemma in_players_of (team p : json) :
  In p (players_of team) ->
  exists ps, get team "players" (JList []) = Some (JList ps) /\ In p ps.
Proof.
  unfold players_of.
  destruct (get team "players" (JList []))
    as [[| b | n | f | t | l | items] |]; try (intros []).
  intros Hin; exists l; split; [reflexivity | exact Hin].
Qed.

Lemma team_of_file (data team : json) (teams : list json) :
  teams_of data = Some teams -> In team teams ->
  exists ss games gs game tv ts,
    get data "seriesState" (JDict []) = Some ss /\
    get ss "games" (JList []) = Some games /\
    iterate games = Some gs /\ In game gs /\
    get game "teams" (JList []) = Some tv /\
    iterate tv = Some ts /\ In team ts.
Proof.
  unfold teams_of.
  destruct (get data "seriesState" (JDict [])) as [ss |]; [| discriminate].
  destruct (get ss "games" (JList [])) as [games |] eqn:Egames;
    [| discriminate].
  destruct (iterate games) as [gs |] eqn:Egs; [| discriminate].
  destruct (for_each _ gs) as [tss |] eqn:E; [| discriminate].
  intros [= <-] Hin.
  apply in_concat in Hin; destruct Hin as (ts & Hts & Hteam).
  apply for_each_items in E.
  destruct (forall2_right _ _ _ ts E Hts) as (game & Hgame & Hg).
  destruct (get game "teams" (JList [])) as [tv |] eqn:Etv; [| discriminate].
  exists ss, games, gs, game, tv, ts; auto 10.
Qed.

(** X18.  One player entry that cannot be read (an entry that is not an
    object, an id that is a list or an object, a [character] that is
    [null] or anything else than an object), in any team of any game, makes
    [parse_end_state_json] return [None]: the rows of the other games and
    teams of the file are not returned. *)
Theorem unreadable_player_discards_file (path : string) (data team p : json)
    (teams : list json) :
  teams_of data = Some teams ->
  In team teams ->
  In p (players_of team) ->
  unreadable_player p = true ->
  parse_end_state_json path (Some data) = None.
Proof.
  intros Hteams Hteam Hp Hbad.
  destruct (team_of_file data team teams Hteams Hteam)
    as (ss & games & gs & game & tv & ts & Hss & Hgames & Hgs & Hgame
        & Htv & Hts & Hin).
  destruct (in_players_of team p Hp) as (ps & Hps & Hpin).
  assert (Hrows : forall pm mid d, team_rows pm mid d team = None).
  { intros pm mid d; unfold team_rows.
    destruct (get team "id" JNull); [| reflexivity].
    destruct (get team "name" JNull); [| reflexivity].
    destruct (get team "won" (JBool false)); [| reflexivity].
    destruct (get team "objectives" (JList [])) as [objectives |];
      [| reflexivity].
    destruct (iterate objectives) as [objs |]; [| reflexivity].
    destruct (any slays_first_dragon objs); [| reflexivity].
    destruct (any destroys_first_turret objs) as [ft |]; [| reflexivity].
    destruct (if negb ft then any names_first_turret objs else Some ft);
      [| reflexivity].
    rewrite Hps; cbn [iterate].
    apply (for_each_indexed_raises _ _ _ p Hpin).
    intros k; apply unreadable_row; exact Hbad. }
  assert (Hgamerows : forall pm sid k, game_rows pm sid k game = None).
  { intros pm sid k; unfold game_rows; cbn zeta.
    destruct (get game "clock" (JDict [])) as [clock |]; [| reflexivity].
    destruct (get clock "currentSeconds" (JInt 0)); [| reflexivity].
    rewrite Htv, Hts.
    apply (for_each_raises _ _ team Hin), Hrows. }
  unfold parse_end_state_json, series_blocks; cbn zeta.
  rewrite Hss, Hgames.
  destruct (get ss "players" (JList [])) as [players |]; [| reflexivity].
  destruct (iterate players) as [listed |]; [| reflexivity].
  destruct (build_player_map listed []); [| reflexivity].
  rewrite Hgs.
  rewrite (for_each_indexed_raises _ _ _ game Hgame); [reflexivity |].
  intros k; apply Hgamerows.
Qed.

Lemma unreadable_player_discards_file_witness :
  In FetchCases.broken_team
     [FetchCases.team "t1" "T1" true []
        [FetchCases.player "p1" "Garen"; FetchCases.player "p2" "Vi"];
      FetchCases.team "t1" "T1" false []
        [FetchCases.player "p1" "Jax"; FetchCases.player "p2" "Vi"];
      FetchCases.broken_team] /\
  parse_end_state_json FetchCases.sample_path (Some FetchCases.broken_file)
  = None.
Proof.
  split; [right; right; left; reflexivity |].
  apply (unreadable_player_discards_file _ FetchCases.broken_file
           FetchCases.broken_team
           (JDict [("id", JStr "p4"); ("character", JNull)])
           [FetchCases.team "t1" "T1" true []
              [FetchCases.player "p1" "Garen"; FetchCases.player "p2" "Vi"];
            FetchCases.team "t1" "T1" false []
              [FetchCases.player "p1" "Jax"; FetchCases.player "p2" "Vi"];
            FetchCases.broken_team]).
  - reflexivity.
  - right; right; left; reflexivity.
  - right; left; reflexivity.
  - reflexivity.
Defined.

(** *** Objectives *)

Lemma slays_first_dragon_typed (obj : json) :
  typed_objective obj = true ->
  slays_first_dragon obj
  = Some (type_is "slayDragon" obj && completed_first obj).
Proof.
  destruct obj as [| b | n | f | t | l | items]; try discriminate.
  intros _; unfold slays_first_dragon, get, type_is, completed_first, is_text.
  destruct (lookup "type" items) as [[| b | n | f | t | l | c] |];
    try reflexivity.
  destruct (String.eqb t "slayDragon"); [| reflexivity].
  destruct (lookup "completedFirst" items); reflexivity.
Qed.

Lemma destroys_first_turret_typed (obj : json) :
  typed_objective obj = true ->
  destroys_first_turret obj
  = Some (type_is "destroyTurret" obj && completed_first obj).
Proof.
  destruct obj as [| b | n | f | t | l | items]; try discriminate.
  intros _;
    unfold destroys_first_turret, get, type_is, completed_first, is_text.
  destruct (lookup "type" items) as [[| b | n | f | t | l | c] |];
    try reflexivity.
  destruct (String.eqb t "destroyTurret"); [| reflexivity].
  destruct (lookup "completedFirst" items); reflexivity.
Qed.

Lemma names_first_turret_typed (obj : json) :
  typed_objective obj = true ->
  names_first_turret obj
  = Some (type_mentions "Turret" obj && completed_first obj).
Proof.
  destruct obj as [| b | n | f | t | l | items]; try discriminate.
  cbn [typed_objective].
  unfold names_first_turret, get, type_mentions, completed_first, contains.
  destruct (lookup "type" items) as [[| b | n | f | t | l | c] |];
    try discriminate; intros _.
  - destruct (substring_of "Turret" t); [| reflexivity].
    destruct (lookup "completedFirst" items); reflexivity.
  - reflexivity.
Qed.

Lemma exact_type_mentions (obj : json) :
  type_is "destroyTurret" obj = true -> type_mentions "Turret" obj = true.
Proof.
  destruct obj as [| b | n | f | t | l | items]; try discriminate.
  unfold type_is, type_mentions.
  destruct (lookup "type" items) as [[| b | n | f | t | l | c] |];
    try discriminate.
  intros H; apply String.eqb_eq in H; subst t; reflexivity.
Qed.

(** X19.  For a team whose objectives are objects with a str for [type],
    [first_dragon] is 1 exactly when some objective of type [slayDragon]
    has a true [completedFirst], and [first_tower] is 1 exactly when some
    objective whose type has [Turret] in it has a true [completedFirst]:
    the test for the exact type [destroyTurret] adds nothing to the
    fallback. *)
Theorem objective_flags (pm : table) (mid : string) (d team : json)
    (objs : list json) (block : list row) :
  team_rows pm mid d team = Some block ->
  get team "objectives" (JList []) = Some (JList objs) ->
  forallb typed_objective objs = true ->
  forall r, In r block ->
    first_dragon r
    = flag (existsb (fun o => type_is "slayDragon" o && completed_first o)
                    objs) /\
    first_tower r
    = flag (existsb (fun o => type_mentions "Turret" o && completed_first o)
                    objs).
Proof.
  intros Hrows Hobjs Htyped r Hr.
  rewrite forallb_forall in Htyped.
  revert Hrows; unfold team_rows.
  destruct (get team "id" JNull) as [tid |]; [| discriminate].
  destruct (get team "name" JNull) as [tname |]; [| discriminate].
  destruct (get team "won" (JBool false)) as [won |]; [| discriminate].
  rewrite Hobjs; cbn [iterate].
  rewrite (any_exists slays_first_dragon
             (fun o => type_is "slayDragon" o && completed_first o))
    by (intros o Ho; apply slays_first_dragon_typed, Htyped, Ho).
  rewrite (any_exists destroys_first_turret
             (fun o => type_is "destroyTurret" o && completed_first o))
    by (intros o Ho; apply destroys_first_turret_typed, Htyped, Ho).
  rewrite (any_exists names_first_turret
             (fun o => type_mentions "Turret" o && completed_first o))
    by (intros o Ho; apply names_first_turret_typed, Htyped, Ho).
  assert (Hft : (if negb (existsb (fun o => type_is "destroyTurret" o
                                            && completed_first o) objs)
                 then Some (existsb (fun o => type_mentions "Turret" o
                                              && completed_first o) objs)
                 else Some (existsb (fun o => type_is "destroyTurret" o
                                              && completed_first o) objs))
                = Some (existsb (fun o => type_mentions "Turret" o
                                          && completed_first o) objs)).
  { destruct (existsb (fun o => type_is "destroyTurret" o
                                && completed_first o) objs) eqn:E;
      [| reflexivity].
    cbn [negb]; f_equal; symmetry.
    apply existsb_exists in E; destruct E as (o & Ho & E).
    apply andb_prop in E; destruct E as [Ht Hc].
    apply existsb_exists; exists o; split; [exact Ho |].
    rewrite (exact_type_mentions o Ht), Hc; reflexivity. }
  rewrite Hft.
  destruct (get team "players" (JList [])) as [players |]; [| discriminate].
  destruct (iterate players) as [ps |]; [| discriminate].
  intros Hrows; apply for_each_indexed_items in Hrows.
  destruct (forall2_right _ _ _ r Hrows Hr) as (kx & _ & Hrow).
  apply player_row_fields in Hrow; tauto.
Qed.

Lemma objective_flags_witness :
  team_rows [] "2843069_G2" (JInt 2100) FetchCases.turret_team
  = Some FetchCases.turret_block /\
  forall r, In r FetchCases.turret_block ->
    first_dragon r = 0%Z /\ first_tower r = 1%Z.
Proof.
  assert (H : team_rows [] "2843069_G2" (JInt 2100) FetchCases.turret_team
              = Some FetchCases.turret_block) by (vm_compute; reflexivity).
  split; [exact H |].
  intros r Hr.
  apply (objective_flags _ _ _ _
           [FetchCases.objective "destroyOuterTurret" true] _ H eq_refl
           eq_refl r Hr).
Defined.

(** *** Player names *)

Lemma table_get_in (k v : json) (t : table) :
  table_get k t = Some v -> exists k', In (k', v) t.
Proof.
  induction t as [| [k0 v0] t IH]; simpl; [discriminate |].
  destruct (key_eq k0 k).
  - intros [= <-]; exists k0; left; reflexivity.
  - intros H; destruct (IH H) as [k' Hk']; exists k'; right; exact Hk'.
Qed.

Lemma table_set_in (id name k v : json) (t : table) :
  In (k, v) (table_set id name t) -> In (k, v) t \/ v = name.
Proof.
  induction t as [| [k0 v0] t IH]; simpl.
  - intros [[= _ <-] | []]; right; reflexivity.
  - destruct (key_eq k0 id); simpl.
    + intros [[= _ <-] | H]; [right; reflexivity | left; right; exact H].
    + intros [H | H]; [left; left; exact H |].
      destruct (IH H) as [H' | H']; [left; right; exact H' | right; exact H'].
Qed.

Lemma player_map_values (ps : list json) (pm0 pm : table) :
  build_player_map ps pm0 = Some pm ->
  forall k v, In (k, v) pm ->
    (exists k0, In (k0, v) pm0) \/ listed_name ps v.
Proof.
  revert pm0; induction ps as [| p ps IH]; intros pm0; simpl.
  - intros [= <-] k v Hin; left; exists k; exact Hin.
  - destruct (get p "id" JNull) as [id |] eqn:Eid; [| discriminate].
    destruct (get p "name" JNull) as [name |] eqn:Ename; [| discriminate].
    assert (Hlater : forall v, listed_name ps v -> listed_name (p :: ps) v).
    { intros v (q & i & Hq & H); exists q, i; split; [right; exact Hq |].
      exact H. }
    destruct (truthy id && truthy name) eqn:Etruthy.
    + destruct (hashable id); [| discriminate].
      intros Hmap k v Hin.
      destruct (IH _ Hmap k v Hin) as [[k0 Hk0] | Hl];
        [| right; apply Hlater, Hl].
      apply table_set_in in Hk0; destruct Hk0 as [Hk0 | ->].
      * left; exists k0; exact Hk0.
      * right; apply andb_prop in Etruthy; destruct Etruthy as [Hi Hn].
        exists p, id; split; [left; reflexivity | auto].
    + intros Hmap k v Hin.
      destruct (IH _ Hmap k v Hin) as [H | Hl];
        [left; exact H | right; apply Hlater, Hl].
Qed.

Lemma player_row_label (pm : table) (mid : string) (tid tname won d : json)
    (fd ft : bool) (k : nat) (p : json) (r : row) :
  player_row pm mid tid tname won d fd ft k p = Some r ->
  match player_name r with
  | Named v => exists k', In (k', v) pm
  | Unnamed id => hashable id = true
  end /\
  champion r = champion_of p.
Proof.
  unfold player_row, champion_of.
  destruct (get p "id" JNull) as [p_id |]; [| discriminate].
  destruct (hashable p_id) eqn:Eh; [| discriminate].
  destruct (get p "character" (JDict [])) as [c |]; [| discriminate].
  destruct (get c "name" (JStr "Unknown")) as [n |]; [| discriminate].
  intros [= <-]; cbn [player_name champion]; split; [| reflexivity].
  destruct (table_get p_id pm) as [v |] eqn:Eget; [| exact Eh].
  apply (table_get_in p_id); exact Eget.
Qed.

(** Every row is the row of a player entry of a team. *)
Lemma row_origin (path : string) (data : json)
    (blocks : list (list (list row))) :
  series_blocks path data = Some blocks ->
  exists ps pm,
    listed_players data = Some ps /\
    build_player_map ps [] = Some pm /\
    forall r, In r (List.concat (List.concat blocks)) ->
      exists mid tid tname won d fd ft k p,
        player_row pm mid tid tname won d fd ft k p = Some r.
Proof.
  unfold series_blocks, listed_players; cbn zeta.
  destruct (get data "seriesState" (JDict [])) as [ss |]; [| discriminate].
  destruct (get ss "games" (JList [])) as [games |]; [| discriminate].
  destruct (get ss "players" (JList [])) as [players |]; [| discriminate].
  destruct (iterate players) as [ps |]; [| discriminate].
  destruct (build_player_map ps []) as [pm |] eqn:Epm; [| discriminate].
  destruct (iterate games) as [gs |]; [| discriminate].
  intros E; exists ps, pm; split; [reflexivity |]; split; [exact Epm |].
  apply for_each_indexed_items in E.
  intros r Hin.
  apply in_concat in Hin; destruct Hin as (block & Hblock & Hr).
  apply in_concat in Hblock; destruct Hblock as (tb & Htb & Hblock).
  destruct (forall2_right _ _ _ tb E Htb) as ([i game] & _ & Hgame).
  cbn [fst snd] in Hgame; revert Hgame; unfold game_rows; cbn zeta.
  destruct (get game "clock" (JDict [])) as [clock |]; [| discriminate].
  destruct (get clock "currentSeconds" (JInt 0)) as [d |]; [| discriminate].
  destruct (get game "teams" (JList [])) as [teams |]; [| discriminate].
  destruct (iterate teams) as [ts |]; [| discriminate].
  intros Hteams; apply for_each_items in Hteams.
  destruct (forall2_right _ _ _ block Hteams Hblock) as (team & _ & Hteam).
  revert Hteam; unfold team_rows.
  destruct (get team "id" JNull) as [tid |]; [| discriminate].
  destruct (get team "name" JNull) as [tname |]; [| discriminate].
  destruct (get team "won" (JBool false)) as [won |]; [| discriminate].
  destruct (get team "objectives" (JList [])) as [objectives |];
    [| discriminate].
  destruct (iterate objectives) as [objs |]; [| discriminate].
  destruct (any slays_first_dragon objs) as [fd |]; [| discriminate].
  destruct (any destroys_first_turret objs) as [ft0 |]; [| discriminate].
  destruct (if negb ft0 then any names_first_turret objs else Some ft0)
    as [ft |]; [| discriminate].
  destruct (get team "players" (JList [])) as [tplayers |]; [| discriminate].
  destruct (iterate tplayers) as [tps |]; [| discriminate].
  intros Hrows; apply for_each_indexed_items in Hrows.
  destruct (forall2_right _ _ _ r Hrows Hr) as ([k p] & _ & Hrow).
  cbn [fst snd] in Hrow.
  exists (series_id_of path ++ "_G" ++ decimal (i + 1))%string,
         tid, tname, won, d, fd, ft, k, p.
  exact Hrow.
Qed.

(** X20.  The name on a row of a parsed table is either a name that the
    player list of the series gives, in an entry whose id and name count as
    true (so never an empty name, and never the name of a player listed
    with the id 0 or the empty id), or the placeholder [Player_<id>] made
    from the id of the team's player entry. *)
Theorem parsed_player_names (path : string) (data : json) (rows : list row) :
  parse_end_state_json path (Some data) = Some rows ->
  exists ps,
    listed_players data = Some ps /\
    forall r, In r rows ->
      match player_name r with
      | Named v => listed_name ps v
      | Unnamed id => hashable id = true
      end.
Proof.
  unfold parse_end_state_json.
  destruct (series_blocks path data) as [blocks |] eqn:E; [| discriminate].
  intros [= <-].
  destruct (row_origin path data blocks E) as (ps & pm & Hps & Hpm & Hall).
  exists ps; split; [exact Hps |].
  intros r Hr.
  destruct (Hall r Hr)
    as (mid & tid & tname & won & d & fd & ft & k & p & Hrow).
  apply player_row_label in Hrow; destruct Hrow as [Hlabel _].
  destruct (player_name r) as [v | id]; [| exact Hlabel].
  destruct Hlabel as [k' Hk'].
  destruct (player_map_values ps [] pm Hpm k' v Hk') as [[k0 []] | H].
  exact H.
Qed.

Lemma parsed_player_names_witness :
  exists rows,
    parse_end_state_json FetchCases.sample_path
                         (Some FetchCases.two_games_file) = Some rows /\
    map player_name (firstn 4 rows)
    = [Named (JStr "Zeus"); Named (JStr "Oner"); Named (JStr "Kiin");
       Unnamed (JStr "p4")] /\
    exists ps,
      listed_players FetchCases.two_games_file = Some ps /\
      forall r, In r rows ->
        match player_name r with
        | Named v => listed_name ps v
        | Unnamed id => hashable id = true
        end.
Proof.
  eexists; split; [vm_compute; reflexivity |].
  split; [reflexivity |].
  refine (parsed_player_names FetchCases.sample_path
            FetchCases.two_games_file _ _).
  vm_compute; reflexivity.
Defined.

(** *** Files of the expected shape *)

Section Totality.
Context {A B C D : Type}.
Variable measure : B -> C.
Variable expected : D -> C.

Lemma for_each_indexed_total (body : nat -> A -> option B) (item : A -> D)
    (items : list A) :
  (forall k x, In x items ->
     exists y, body k x = Some y /\ measure y = expected (item x)) ->
  forall index,
    exists ys, for_each_indexed body index items = Some ys /\
               map measure ys = map expected (map item items).
Proof.
  induction items as [| x items IH]; intros Hall index; simpl.
  - exists []; split; reflexivity.
  - destruct (Hall index x) as (y & Hy & Hm); [left; reflexivity |].
    destruct (IH (fun k z Hz => Hall k z (or_intror Hz)) (S index))
      as (ys & Hys & Hms).
    rewrite Hy, Hys; exists (y :: ys); split; [reflexivity |].
    simpl; rewrite Hm, Hms; reflexivity.
Qed.

Lemma for_each_total (body : A -> option (list B)) (parts : A -> list D)
    (items : list A) :
  (forall x, In x items ->
     exists ys, body x = Some ys /\
                map measure ys = map expected (parts x)) ->
  exists yss, for_each body items = Some yss /\
              map measure (List.concat yss)
              = map expected (flat_map parts items).
Proof.
  induction items as [| x items IH]; intros Hall; simpl.
  - exists []; split; reflexivity.
  - destruct (Hall x) as (y & Hy & Hm); [left; reflexivity |].
    destruct (IH (fun z Hz => Hall z (or_intror Hz))) as (ys & Hys & Hms).
    rewrite Hy, Hys; exists (y :: ys); split; [reflexivity |].
    simpl; rewrite !map_app, Hm, Hms; reflexivity.
Qed.

Lemma for_each_indexed_flat (body : nat -> A -> option (list (list B)))
    (parts : A -> list D) (items : list A) :
  (forall k x, In x items ->
     exists yss, body k x = Some yss /\
                 map measure (List.concat yss) = map expected (parts x)) ->
  forall index,
    exists ysss, for_each_indexed body index items = Some ysss /\
                 map measure (List.concat (List.concat ysss))
                 = map expected (flat_map parts items).
Proof.
  induction items as [| x items IH]; intros Hall index; simpl.
  - exists []; split; reflexivity.
  - destruct (Hall index x) as (y & Hy & Hm); [left; reflexivity |].
    destruct (IH (fun k z Hz => Hall k z (or_intror Hz)) (S index))
      as (ys & Hys & Hms).
    rewrite Hy, Hys; exists (y :: ys); split; [reflexivity |].
    simpl; rewrite concat_app, !map_app, Hm, Hms; reflexivity.
Qed.

End Totality.

Lemma readable_row (pm : table) (mid : string) (tid tname won d : json)
    (fd ft : bool) (k : nat) (p : json) :
  unreadable_player p = false ->
  exists r, player_row pm mid tid tname won d fd ft k p = Some r /\
            champion r = champion_of p.
Proof.
  intros Hp.
  destruct (player_row pm mid tid tname won d fd ft k p) as [r |] eqn:E.
  - exists r; split; [reflexivity |].
    apply player_row_label in E; tauto.
  - exfalso; revert E; unfold player_row, get.
    destruct p as [| b | n | f | t | l | items]; try discriminate Hp.
    cbn [unreadable_player] in Hp.
    apply orb_false_elim in Hp; destruct Hp as [Hid Hc].
    destruct (lookup "id" items) as [id |].
    + apply negb_false_iff in Hid; rewrite Hid.
      destruct (lookup "character" items) as [[| b | n | f | t | l | c] |];
        discriminate.
    + cbn [hashable].
      destruct (lookup "character" items) as [[| b | n | f | t | l | c] |];
        discriminate.
Qed.

Lemma list_of_field (test : json -> bool) (items : list (string * json))
    (key : string) :
  list_of test (lookup key items) = true ->
  exists l, get (JDict items) key (JList []) = Some (JList l) /\
            forallb test l = true.
Proof.
  unfold list_of, get.
  destruct (lookup key items) as [[| b | n | f | t | l | c] |];
    try discriminate.
  - intros H; exists l; split; [reflexivity | exact H].
  - intros _; exists []; split; reflexivity.
Qed.

Lemma objectives_total (objs : list json) :
  forallb typed_objective objs = true ->
  exists fd ft,
    any slays_first_dragon objs = Some fd /\
    match any destroys_first_turret objs with
    | Some ft0 =>
        (if negb ft0 then any names_first_turret objs else Some ft0) = Some ft
    | None => False
    end.
Proof.
  intros Htyped; rewrite forallb_forall in Htyped.
  rewrite (any_exists slays_first_dragon
             (fun o => type_is "slayDragon" o && completed_first o))
    by (intros o Ho; apply slays_first_dragon_typed, Htyped, Ho).
  rewrite (any_exists destroys_first_turret
             (fun o => type_is "destroyTurret" o && completed_first o))
    by (intros o Ho; apply destroys_first_turret_typed, Htyped, Ho).
  rewrite (any_exists names_first_turret
             (fun o => type_mentions "Turret" o && completed_first o))
    by (intros o Ho; apply names_first_turret_typed, Htyped, Ho).
  destruct (existsb (fun o => type_is "destroyTurret" o && completed_first o)
                    objs); cbn [negb]; eauto.
Qed.

Lemma team_total (pm : table) (mid : string) (d team : json) :
  match team with
  | JDict fields =>
      list_of typed_objective (lookup "objectives" fields)
      && list_of (fun p => negb (unreadable_player p))
                 (lookup "players" fields)
  | _ => false
  end = true ->
  exists block,
    team_rows pm mid d team = Some block /\
    map champion block = map champion_of (players_of team).
Proof.
  destruct team as [| b | n | f | t | l | fields]; try discriminate.
  intros H; apply andb_prop in H; destruct H as [Hobjs Hps].
  apply list_of_field in Hobjs; destruct Hobjs as (objs & Eobjs & Hobjs).
  apply list_of_field in Hps; destruct Hps as (ps & Eps & Hps).
  destruct (objectives_total objs Hobjs) as (fd & ft & Hfd & Hft).
  unfold team_rows, players_of; rewrite Eobjs, Eps.
  cbn [get iterate]; rewrite Hfd.
  destruct (any destroys_first_turret objs) as [ft0 |]; [| destruct Hft].
  rewrite Hft.
  rewrite forallb_forall in Hps.
  destruct (for_each_indexed_total champion (fun c : json => c)
              (player_row pm mid
                 match lookup "id" fields with Some x => x | None => JNull end
                 match lookup "name" fields with
                 | Some x => x | None => JNull end
                 match lookup "won" fields with
                 | Some x => x | None => JBool false end
                 d fd ft)
              champion_of ps) with (index := 0) as (block & Hblock & Hmap).
  - intros k p Hp; apply readable_row.
    apply negb_true_iff, Hps, Hp.
  - exists block; split; [exact Hblock |].
    rewrite Hmap, map_id; reflexivity.
Qed.

Lemma game_total (pm : table) (sid : string) (i : nat) (game : json) :
  game_ok game = true ->
  exists blocks ts,
    game_rows pm sid i game = Some blocks /\
    match get game "teams" (JList []) with
    | Some teams => iterate teams
    | None => None
    end = Some ts /\
    map champion (List.concat blocks)
    = map champion_of (flat_map players_of ts).
Proof.
  destruct game as [| b | n | f | t | l | items]; try discriminate.
  cbn [game_ok]; intros H; apply andb_prop in H; destruct H as [Hclock Hts].
  apply list_of_field in Hts; destruct Hts as (ts & Ets & Hts).
  rewrite forallb_forall in Hts.
  unfold game_rows; cbn zeta; rewrite Ets; cbn [iterate].
  assert (Hd : exists d,
             match get (JDict items) "clock" (JDict []) with
             | Some clock => get clock "currentSeconds" (JInt 0)
             | None => None
             end = Some d).
  { unfold get, object_or_absent in *.
    destruct (lookup "clock" items) as [[| b | n | f | t | l | c] |];
      try discriminate Hclock; eexists; reflexivity. }
  destruct Hd as [d Hd].
  destruct (get (JDict items) "clock" (JDict [])) as [clock |];
    [| discriminate].
  rewrite Hd.
  destruct (for_each_total champion (fun c : json => c)
              (team_rows pm (sid ++ "_G" ++ decimal (i + 1))%string d)
              (fun team => map champion_of (players_of team)) ts)
    as (blocks & Hblocks & Hmap).
  - intros team Hteam.
    destruct (team_total pm (sid ++ "_G" ++ decimal (i + 1))%string d team
                (Hts team Hteam)) as (block & Hblock & Hm).
    exists block; split; [exact Hblock |].
    rewrite map_id; exact Hm.
  - exists blocks, ts; split; [exact Hblocks |]; split; [reflexivity |].
    rewrite Hmap, map_id.
    clear; induction ts as [| team ts IH]; simpl; [reflexivity |].
    rewrite map_app, IH; reflexivity.
Qed.

Lemma player_map_total (ps : list json) :
  forallb listed_player_ok ps = true ->
  forall pm0, exists pm, build_player_map ps pm0 = Some pm.
Proof.
  induction ps as [| p ps IH]; intros Hall pm0; simpl.
  - exists pm0; reflexivity.
  - cbn [forallb] in Hall; apply andb_prop in Hall; destruct Hall as [Hp Hall].
    destruct p as [| b | n | f | t | l | items]; try discriminate Hp.
    cbn [listed_player_ok] in Hp; unfold get.
    destruct (lookup "id" items) as [id |];
      [destruct (lookup "name" items) as [name |] |].
    + destruct (truthy id && truthy name); [rewrite Hp |]; apply IH, Hall.
    + cbn [truthy]; rewrite andb_false_r; apply IH, Hall.
    + cbn [truthy andb]; apply IH, Hall.
Qed.

(** X21.  On a file of the expected shape [parse_end_state_json] returns a
    table: it has one row for each player entry of each team of each game,
    in the order of the file, and the row holds the name of the entry's
    [character], [Unknown] when the character has none. *)
Theorem well_formed_file_parses (path : string) (data : json) :
  file_ok data = true ->
  exists rows teams,
    parse_end_state_json path (Some data) = Some rows /\
    teams_of data = Some teams /\
    map champion rows = map champion_of (flat_map players_of teams).
Proof.
  destruct data as [| b | n | f | t | l | items]; try discriminate.
  cbn [file_ok]; unfold parse_end_state_json, series_blocks, teams_of.
  cbn zeta; unfold get at 1 4.
  destruct (lookup "seriesState" items) as [[| b | n | f | t | l | ss] |];
    try discriminate.
  2:{ intros _; exists [], []; repeat split; reflexivity. }
  intros H; apply andb_prop in H; destruct H as [Hgames Hplayers].
  apply list_of_field in Hgames; destruct Hgames as (gs & Egs & Hgs).
  apply list_of_field in Hplayers; destruct Hplayers as (ps & Eps & Hps).
  rewrite Egs, Eps; cbn [iterate].
  destruct (player_map_total ps Hps []) as [pm Hpm]; rewrite Hpm.
  rewrite forallb_forall in Hgs.
  assert (Hteams : exists tss,
             for_each (fun game =>
                         match get game "teams" (JList []) with
                         | Some teams => iterate teams
                         | None => None
                         end) gs = Some tss /\
             forall index,
             exists blocks,
               for_each_indexed (game_rows pm (series_id_of path)) index gs
               = Some blocks /\
               map champion (List.concat (List.concat blocks))
               = map champion_of (flat_map players_of (List.concat tss))).
  { clear Egs; induction gs as [| game gs IH]; simpl.
    - exists []; split; [reflexivity |].
      intros _; exists []; split; reflexivity.
    - destruct IH as (tss & Htss & Hrest);
        [intros g Hg; apply Hgs; right; exact Hg |].
      assert (Hgame : game_ok game = true)
        by (apply Hgs; left; reflexivity).
      destruct (game_total pm (series_id_of path) 0 game Hgame)
        as (_ & ts & _ & Hts & _).
      rewrite Hts, Htss; exists (ts :: tss); split; [reflexivity |].
      intros index.
      destruct (game_total pm (series_id_of path) index game Hgame)
        as (blocks & ts' & Hblocks & Hts' & Hmap).
      assert (ts' = ts) by congruence; subst ts'.
      destruct (Hrest (S index)) as (more & Hmore & Hmaps).
      rewrite Hblocks, Hmore; exists (blocks :: more).
      split; [reflexivity |].
      simpl; rewrite concat_app, flat_map_app, !map_app, Hmap, Hmaps.
      reflexivity. }
  destruct Hteams as (tss & Htss & Hrows).
  destruct (Hrows 0) as (blocks & Hblocks & Hmap).
  rewrite Htss, Hblocks.
  exists (List.concat (List.concat blocks)), (List.concat tss).
  repeat split; exact Hmap.
Qed.

Lemma well_formed_file_parses_witness :
  file_ok FetchCases.two_games_file = true /\
  exists rows,
    parse_end_state_json FetchCases.sample_path
                         (Some FetchCases.two_games_file) = Some rows /\
    map champion rows
    = map JStr ["Garen"; "Vi"; "Darius"; "Sejuani";
                "Jax"; "Vi"; "Darius"; "Sejuani"].
Proof.
  split; [reflexivity |].
  destruct (well_formed_file_parses FetchCases.sample_path
              FetchCases.two_games_file eq_refl)
    as (rows & teams & Hrows & Hteams & Hmap).
  exists rows; split; [exact Hrows |].
  rewrite Hmap.
  injection Hteams as <-; reflexivity.
Defined.

End ParserFacts.
